(** * The container network context of vic (lib/portlayer/network/context.go)

    A shallow embedding of [Context] and of its operations: scope creation
    and deletion, staging of endpoints on a handle, binding and unbinding
    of containers, and the container and alias lookups.

    Go pointers to shared objects are represented as follows.
    - A [*Scope] is the name of the scope: the scope object itself lives
      in [scopes], and is updated there.
    - An [*Endpoint] is owned by its scope; a container refers to its
      endpoints through the names of their scopes.
    - A [*Container] held in an alias list or in the back reference of an
      endpoint is the long id of the container.
    - Go's [nil] for [net.IP] and the unspecified address 0.0.0.0 are both
      the number 0; a nil [*net.IPNet] is [None].
    Iteration over a Go map has no defined order; a map that the code
    ranges over with an effect that depends on the order is a list of
    pairs, in the order of the iteration.

    Every exported method holds the lock of the context from its first
    statement to its return, so a method is a function from the state
    before the call to the state after it.  A handle is never nil here, and
    the [context.Context] that [NewScope] and [DeleteScope] hand to the
    store is left out. *)

From Stdlib Require Import ZArith String Ascii List Bool Lia DecimalString.
From stdpp Require Import base option list gmap strings fin_maps.

Local Open Scope Z_scope.

(** ** IPv4 addresses and networks ([net.IP], [net.IPNet], vic/pkg/ip) *)

Definition IP := Z.

Record IPNet := mkIPNet { net_IP : IP; net_Mask : Z }.

Record Range := mkRange { FirstIP : IP; LastIP : IP }.

#[global] Instance IPNet_eq_dec : EqDecision IPNet.
Proof. solve_decision. Defined.

#[global] Instance Range_eq_dec : EqDecision Range.
Proof. solve_decision. Defined.

Definition allOnes32 : Z := 4294967295.

(** [net.IPv4(a, b, c, d)] *)
Definition IPv4 (a b c d : Z) : IP :=
  Z.lor (Z.shiftl a 24) (Z.lor (Z.shiftl b 16) (Z.lor (Z.shiftl c 8) d)).

(** [net.CIDRMask(ones, 32)] *)
Definition CIDRMask (ones : Z) : Z :=
  Z.land (Z.shiftl allOnes32 (32 - ones)) allOnes32.

(** Modelled from the spec: vic/pkg/ip is not under src/.
    [ip.IsUnspecifiedIP] holds of a nil address and of 0.0.0.0. *)
Definition IsUnspecifiedIP (a : IP) : bool := a =? 0.

(** Modelled from the spec: [ip.IsUnspecifiedSubnet] holds of a nil
    network and of one whose address is unspecified. *)
Definition IsUnspecifiedSubnet (n : option IPNet) : bool :=
  match n with
  | None => true
  | Some n => IsUnspecifiedIP (net_IP n)
  end.

(** [net.IPNet.Contains] *)
Definition Contains (n : IPNet) (a : IP) : bool :=
  Z.land a (net_Mask n) =? Z.land (net_IP n) (net_Mask n).

(** [Contains] through a pointer that may be nil: an absent network
    contains no address. *)
Definition ContainsOpt (n : option IPNet) (a : IP) : bool :=
  match n with
  | None => false
  | Some n => Contains n a
  end.

(** The mask of a network that may be absent. *)
Definition MaskOpt (n : option IPNet) : Z :=
  match n with
  | None => 0
  | Some n => net_Mask n
  end.

(** Modelled from the spec: [lowestIP4] and [highestIP4] are not under
    src/; they are the all-zeros and the all-ones address of a network. *)
Definition lowestIP4 (n : IPNet) : IP := Z.land (net_IP n) (net_Mask n).

Definition highestIP4 (n : IPNet) : IP :=
  Z.lor (lowestIP4 n) (Z.lxor (net_Mask n) allOnes32).

(** Modelled from the spec: [ip.AllZerosAddr] and [ip.AllOnesAddr], the
    two addresses of a network that are not handed out. *)
Definition AllZerosAddr (n : IPNet) : IP := lowestIP4 n.
Definition AllOnesAddr (n : IPNet) : IP := highestIP4 n.

(** Modelled from the spec: [ip.IsRoutableIP] is not under src/; an address
    is routable on a network when it lies in it and is neither its
    all-zeros nor its all-ones address. *)
Definition IsRoutableIP (a : IP) (n : IPNet) : bool :=
  Contains n a && negb (a =? AllZerosAddr n) && negb (a =? AllOnesAddr n).

(** ** AddressSpace *)

(** Modelled from the spec: address_space.go is not under src/.  An
    address space is a network or a range of addresses, with the spans
    that are reserved in it: a single address is the span from it to
    itself, a child space is the span of its bounds. *)
Record AddressSpace := mkAddressSpace {
  Network : option IPNet;
  Pool : Range;
  reserved : list Range
}.

#[global] Instance AddressSpace_eq_dec : EqDecision AddressSpace.
Proof. solve_decision. Defined.

Definition overlaps (r1 r2 : Range) : bool :=
  (FirstIP r1 <=? LastIP r2) && (FirstIP r2 <=? LastIP r1).

Definition within (r outer : Range) : bool :=
  (FirstIP outer <=? FirstIP r) && (FirstIP r <=? LastIP r)
  && (LastIP r <=? LastIP outer).

Definition isFree (s : AddressSpace) (r : Range) : bool :=
  within r (Pool s) && forallb (fun x => negb (overlaps r x)) (reserved s).

Definition netRange (n : IPNet) : Range := mkRange (lowestIP4 n) (highestIP4 n).

(** Modelled from the spec: [NewAddressSpaceFromNetwork], an allocator
    over a network, nothing reserved. *)
Definition NewAddressSpaceFromNetwork (n : IPNet) : AddressSpace :=
  mkAddressSpace (Some (mkIPNet (lowestIP4 n) (net_Mask n))) (netRange n) [].

(** Modelled from the spec: [NewAddressSpaceFromRange], an allocator over
    the inclusive range from [first] to [last]. *)
Definition NewAddressSpaceFromRange (first last : IP) : AddressSpace :=
  mkAddressSpace None (mkRange first last) [].

Definition reserveSpan (s : AddressSpace) (r : Range) : AddressSpace :=
  mkAddressSpace (Network s) (Pool s) (r :: reserved s).

(** Modelled from the spec: [ReserveIP4] fails when the address is
    reserved already or is out of range. *)
Definition ReserveIP4 (s : AddressSpace) (a : IP) : option AddressSpace :=
  if isFree s (mkRange a a) then Some (reserveSpan s (mkRange a a)) else None.

(** Modelled from the spec: [ReserveIP4Range] carves a child space over a
    range; it fails when the range is not inside the space or overlaps a
    live reservation.  The result is the parent and the child. *)
Definition ReserveIP4Range (s : AddressSpace) (first last : IP)
  : option (AddressSpace * AddressSpace) :=
  let r := mkRange first last in
  if isFree s r then Some (reserveSpan s r, NewAddressSpaceFromRange first last)
  else None.

(** Modelled from the spec: [ReserveIP4Net], the same for a network. *)
Definition ReserveIP4Net (s : AddressSpace) (n : IPNet)
  : option (AddressSpace * AddressSpace) :=
  if isFree s (netRange n)
  then Some (reserveSpan s (netRange n), NewAddressSpaceFromNetwork n)
  else None.

(** The lowest address from [a] on that no reservation covers; each round
    steps over one reservation, so the number of reservations bounds the
    number of rounds. *)
Fixpoint skipReserved (fuel : nat) (rs : list Range) (a : IP) : IP :=
  match fuel with
  | O => a
  | S fuel' =>
      match find (fun r => overlaps (mkRange a a) r) rs with
      | Some r => skipReserved fuel' rs (LastIP r + 1)
      | None => a
      end
  end.

(** Modelled from the spec: [ReserveNextIP4] returns the lowest free
    address and fails when the space is exhausted.  The result is the
    space and the address. *)
Definition ReserveNextIP4 (s : AddressSpace) : option (AddressSpace * IP) :=
  let a := skipReserved (length (reserved s)) (reserved s) (FirstIP (Pool s)) in
  if isFree s (mkRange a a) then Some (reserveSpan s (mkRange a a), a) else None.

(** Rounds [a] up to a multiple of [size]. *)
Definition alignUp (a size : Z) : Z := ((a + size - 1) / size) * size.

Fixpoint nextBlock (fuel : nat) (rs : list Range) (a size : Z) : Z :=
  match fuel with
  | O => a
  | S fuel' =>
      match find (fun r => overlaps (mkRange a (a + size - 1)) r) rs with
      | Some r => nextBlock fuel' rs (alignUp (LastIP r + 1) size) size
      | None => a
      end
  end.

(** Modelled from the spec: [NextIP4Net] is the next free network of the
    given mask in the space, the lowest one; nothing is reserved by it. *)
Definition NextIP4Net (s : AddressSpace) (mask : Z) : option IPNet :=
  let size := allOnes32 - mask + 1 in
  let a := nextBlock (length (reserved s)) (reserved s)
             (alignUp (FirstIP (Pool s)) size) size in
  if isFree s (mkRange a (a + size - 1)) then Some (mkIPNet a mask) else None.

Fixpoint removeFirst (r : Range) (rs : list Range) : option (list Range) :=
  match rs with
  | [] => None
  | x :: rs' =>
      if decide (x = r) then Some rs'
      else match removeFirst r rs' with
           | Some rs'' => Some (x :: rs'')
           | None => None
           end
  end.

(** Modelled from the spec: [ReleaseIP4] and [ReleaseIP4Range] are the
    inverses of the reservations; releasing what is not reserved is an
    error. *)
Definition ReleaseIP4 (s : AddressSpace) (a : IP) : option AddressSpace :=
  match removeFirst (mkRange a a) (reserved s) with
  | Some rs => Some (mkAddressSpace (Network s) (Pool s) rs)
  | None => None
  end.

Definition ReleaseIP4Range (s child : AddressSpace) : option AddressSpace :=
  match removeFirst (Pool child) (reserved s) with
  | Some rs => Some (mkAddressSpace (Network s) (Pool s) rs)
  | None => None
  end.

(** A reservation or release whose error the caller drops. *)
Definition orKeep {A} (o : option A) (a : A) : A :=
  match o with
  | Some a' => a'
  | None => a
  end.

(** ** Errors and results *)

(** The errors of the package.  A message made by [fmt.Errorf] is kept as
    its text when it formats nothing or a name only; the format string
    stands for a message that formats addresses. *)
Inductive error :=
| Errorf (msg : string)
| DuplicateResourceError (resID : string)
| ResourceNotFoundError (msg : string)
| ErrKeyNotFound
| ErrKVStore
| ErrMarshalJSON
| ErrAddressSpace
| ErrParsePorts
| ErrDevice.

#[global] Instance error_eq_dec : EqDecision error.
Proof. solve_decision. Defined.

(** The outcome of a call: a value, an error, or the panic of a
    dereferenced nil pointer. *)
Inductive result (A : Type) :=
| Ok (a : A)
| Err (e : error)
| Panic.

Arguments Ok {A} a.
Arguments Err {A} e.
Arguments Panic {A}.

Definition isOk {A} (r : result A) : bool :=
  match r with
  | Ok _ => true
  | _ => false
  end.

#[global] Instance result_bind : MBind result :=
  fun A B f r =>
    match r with
    | Ok a => f a
    | Err e => Err e
    | Panic => Panic
    end.

(** ** The data model *)

(** Modelled from the spec: [executor.TrustLevel], whose declaration is
    not under src/. *)
Inductive TrustLevel :=
| Unspecified | Published | Open | Closed | Outbound | Peers.

#[global] Instance TrustLevel_eq_dec : EqDecision TrustLevel.
Proof. solve_decision. Defined.

(** Modelled from the spec: [constants.BridgeScopeType] and
    [constants.ExternalScopeType], the two types of a scope. *)
Definition BridgeScopeType : string := "bridge".
Definition ExternalScopeType : string := "external".

Definition DefaultBridgeName : string := "bridge".

(** Modelled from the spec: endpoint.go is not under src/.  A port is a
    protocol and a number. *)
Record Port := mkPort { port_proto : string; port_number : Z }.

#[global] Instance Port_eq_dec : EqDecision Port.
Proof. solve_decision. Defined.

(** Modelled from the spec: an alias entry of an endpoint; [alias_scope] is
    the name of the scope of the endpoint [ep] that owns the entry. *)
Record alias := mkAlias {
  alias_Name : string;
  alias_Container : string;
  alias_scope : string
}.

#[global] Instance alias_eq_dec : EqDecision alias.
Proof. solve_decision. Defined.

Definition badAlias : alias := mkAlias "" "" "".

(** Modelled from the spec: [scopedName] is "{scope}:{who}.{what}". *)
Definition scopedName (a : alias) : string :=
  alias_scope a +:+ ":" +:+ alias_Container a +:+ "." +:+ alias_Name a.

(** Modelled from the spec: an endpoint, the presence of a container on a
    scope.  [ep_container] and [ep_scope] are the back references. *)
Record Endpoint := mkEndpoint {
  ep_container : string;
  ep_scope : string;
  ep_ip : IP;
  ep_static : bool;
  ep_ports : list Port;
  ep_aliases : gmap string (list alias)
}.

#[global] Instance Endpoint_eq_dec : EqDecision Endpoint.
Proof. solve_decision. Defined.

(** Modelled from the spec: a container, its identity and the scopes of
    its endpoints, in the order in which it joined them. *)
Record Container := mkContainer {
  con_id : string;
  con_name : string;
  con_endpoints : list string
}.

#[global] Instance Container_eq_dec : EqDecision Container.
Proof. solve_decision. Defined.

(** Modelled from the spec: scope.go is not under src/.  [s_aliases] maps
    a scoped alias to the container of the endpoint that owns it;
    [s_network] is the reference to the port group. *)
Record Scope := mkScope {
  s_id : string;
  s_name : string;
  s_scopeType : string;
  s_subnet : option IPNet;
  s_gateway : IP;
  s_dns : list IP;
  s_trustLevel : TrustLevel;
  s_internal : bool;
  s_builtin : bool;
  s_spaces : list AddressSpace;
  s_endpoints : list Endpoint;
  s_aliases : gmap string string;
  s_network : option string;
  s_annotations : gmap string string
}.

#[global] Instance Scope_eq_dec : EqDecision Scope.
Proof. solve_decision. Defined.

(** [ScopeData] holds the fields used to create a new scope.  A nil
    [Gateway] is the address 0, which is what [newScope] turns it into. *)
Record ScopeData := mkScopeData {
  ScopeType : string;
  Name : string;
  Subnet : option IPNet;
  Gateway : IP;
  DNS : list IP;
  sd_TrustLevel : TrustLevel;
  Pools : list string;
  Annotations : gmap string string;
  Internal : bool
}.

(** [executor.ContainerNetwork] and [executor.NetworkEndpoint], the
    declaration of a network on a handle, with the fields that the
    package reads and writes. *)
Record ContainerNetwork := mkContainerNetwork {
  cn_Name : string;
  cn_Aliases : list string;
  cn_Type : string;
  cn_TrustLevel : TrustLevel;
  cn_Pools : list Range;
  cn_Gateway : IPNet;
  cn_Nameservers : list IP;
  cn_Default : bool
}.

Record NetworkEndpoint := mkNetworkEndpoint {
  ne_ID : string;
  ne_Network : ContainerNetwork;
  ne_Static : bool;
  ne_IP : option IPNet;
  ne_Assigned_IP : IP;
  ne_Ports : list string
}.

#[global] Instance ContainerNetwork_eq_dec : EqDecision ContainerNetwork.
Proof. solve_decision. Defined.

#[global] Instance NetworkEndpoint_eq_dec : EqDecision NetworkEndpoint.
Proof. solve_decision. Defined.

(** A change of the devices of the virtual machine, staged on a handle. *)
Inductive DeviceChange :=
| AddDevice (slot : Z) (network : string)
| RemoveDevice (network : string).

#[global] Instance DeviceChange_eq_dec : EqDecision DeviceChange.
Proof. solve_decision. Defined.

(** [exec.Handle]: the id and the name of the container, its declared
    networks and the staged device changes.  [h_Networks] is the map
    [ExecConfig.Networks] in the order in which the code ranges over it;
    a nil map is the empty list. *)
Record Handle := mkHandle {
  h_ID : string;
  h_Name : string;
  h_Networks : list (string * NetworkEndpoint);
  h_DeviceChange : list DeviceChange
}.

#[global] Instance Handle_eq_dec : EqDecision Handle.
Proof. solve_decision. Defined.

Record AddContainerOptions := mkAddContainerOptions {
  opt_Scope : string;
  opt_IP : IP;
  opt_Aliases : list string;
  opt_Ports : list string
}.

(** [kvstore.KeyValueStore]: the stored values, and whether the store
    fails the calls made to it. *)
Record KeyValueStore := mkKeyValueStore {
  kv_data : gmap string string;
  kv_fails : bool
}.

#[global] Instance KeyValueStore_eq_dec : EqDecision KeyValueStore.
Proof. solve_decision. Defined.

Definition kv_Put (kv : KeyValueStore) (k v : string) : result KeyValueStore :=
  if kv_fails kv then Err ErrKVStore
  else Ok (mkKeyValueStore (<[k := v]> (kv_data kv)) (kv_fails kv)).

Definition kv_Delete (kv : KeyValueStore) (k : string) : result KeyValueStore :=
  if kv_fails kv then Err ErrKVStore
  else match kv_data kv !! k with
       | None => Err ErrKeyNotFound
       | Some _ => Ok (mkKeyValueStore (delete k (kv_data kv)) (kv_fails kv))
       end.

(** [Configuration]: the range and the width of the bridge networks, the
    name of the bridge network, the container networks in the order in
    which [NewContext] ranges over them, the port groups by name, and the
    addresses on the bridge link of the host. *)
Record Configuration := mkConfiguration {
  BridgeIPRange : option IPNet;
  BridgeNetworkWidth : option Z;
  BridgeNetwork : string;
  ContainerNetworks : list (string * ContainerNetwork);
  PortGroups : gmap string string;
  BridgeLink : list IPNet
}.

#[global] Instance Configuration_eq_dec : EqDecision Configuration.
Proof. solve_decision. Defined.

(** [BridgeLink.AddrAdd]: adding an address that is on the link is the
    error [EEXIST], which the callers tolerate. *)
Definition AddrAdd (link : list IPNet) (a : IPNet) : list IPNet :=
  if decide (a ∈ link) then link else link ++ [a].

(** [BridgeLink.AddrDel]: removing an address that is not on the link is
    the error [EADDRNOTAVAIL], which the callers tolerate. *)
Definition AddrDel (link : list IPNet) (a : IPNet) : list IPNet :=
  filter (fun x => x ≠ a) link.

(** [Context]: [defaultScope] is the name under which the default scope is
    in [scopes]. *)
Record Context := mkContext {
  config : Configuration;
  defaultBridgePool : AddressSpace;
  defaultBridgeMask : Z;
  scopes : gmap string Scope;
  containers : gmap string Container;
  aliases : gmap string (list string);
  defaultScope : option string;
  kv : option KeyValueStore
}.

#[global] Instance Context_eq_dec : EqDecision Context.
Proof. solve_decision. Defined.

(** The collaborators of the package that are not part of it, or whose
    source is not under src/: vic/pkg/uid ([NilUID] is the empty string),
    [ip.ParseRange], [nat.ParsePortSpecs] of docker/go-connections,
    [ParsePort], [Scope.MarshalJSON] and [Scope.UnmarshalJSON],
    [strconv.Atoi] and [strconv.Itoa], [ip.Range.String], the match of a
    regular expression against a key, and the hook [addEthernetCard], a
    variable of the package that gives the handle with the device staged
    and the PCI slot of the device. *)
Class External := {
  uid_Parse : string -> string;
  uid_Truncate : string -> string;
  ParseRange : string -> option Range;
  ParsePortSpecs : list string -> option (list string);
  ParsePort : string -> option Port;
  MarshalJSON : Scope -> option string;
  Atoi : string -> option Z;
  Itoa : Z -> string;
  RangeString : Range -> string;
  UnmarshalJSON : string -> option Scope;
  MatchString : string -> string -> bool;
  addEthernetCard : Handle -> Scope -> result (Handle * Z)
}.

Definition NilUID : string := "".

(** ** Strings *)

(** [strings.Contains(s, ":")] *)
Fixpoint containsColon (s : string) : bool :=
  match s with
  | EmptyString => false
  | String a s' => if Ascii.eqb a ":"%char then true else containsColon s'
  end.

(** [strings.Split(s, ":")] *)
Fixpoint splitColon (s : string) : list string :=
  match s with
  | EmptyString => [EmptyString]
  | String a s' =>
      if Ascii.eqb a ":"%char then EmptyString :: splitColon s'
      else match splitColon s' with
           | [] => [String a EmptyString]
           | w :: ws => String a w :: ws
           end
  end.

(** [strings.HasPrefix(s, p)] *)
Definition HasPrefix (s p : string) : bool := String.prefix p s.

(** ** Endpoints, containers and scopes *)

Section Network.

Context `{!External}.

(** Modelled from the spec: [newEndpoint], with the address given or
    unspecified. *)
Definition newEndpoint (con : Container) (s : Scope) (eip : option IP) : Endpoint :=
  mkEndpoint (con_id con) (s_name s) (default 0 eip) false [] ∅.

(** Modelled from the spec: [addPort] inserts a port once. *)
Definition addPort (e : Endpoint) (p : Port) : Endpoint :=
  if decide (p ∈ ep_ports e) then e
  else mkEndpoint (ep_container e) (ep_scope e) (ep_ip e) (ep_static e)
         (ep_ports e ++ [p]) (ep_aliases e).

(** Modelled from the spec: [getAliases], the alias entries of an endpoint
    for a container name. *)
Definition getAliases (e : Endpoint) (who : string) : list alias :=
  default [] (ep_aliases e !! who).

(** Modelled from the spec: [addAlias] gives [badAlias] for an empty name,
    the entry that exists with the flag set for a duplicate, and a new
    entry otherwise. *)
Definition addAlias (e : Endpoint) (who what : string) : Endpoint * alias * bool :=
  if decide (who = "" ∨ what = "") then (e, badAlias, false)
  else match find (fun a => String.eqb (alias_Name a) what) (getAliases e who) with
       | Some a => (e, a, true)
       | None =>
           let a := mkAlias what who (ep_scope e) in
           (mkEndpoint (ep_container e) (ep_scope e) (ep_ip e) (ep_static e)
              (ep_ports e) (<[who := getAliases e who ++ [a]]> (ep_aliases e)),
            a, false)
       end.

Definition setStatic (e : Endpoint) (b : bool) : Endpoint :=
  mkEndpoint (ep_container e) (ep_scope e) (ep_ip e) b (ep_ports e) (ep_aliases e).

Definition setIP (e : Endpoint) (a : IP) : Endpoint :=
  mkEndpoint (ep_container e) (ep_scope e) a (ep_static e) (ep_ports e) (ep_aliases e).

(** Modelled from the spec: [isDynamic] holds of an external scope without
    a subnet. *)
Definition isDynamic (s : Scope) : bool :=
  String.eqb (s_scopeType s) ExternalScopeType && IsUnspecifiedSubnet (s_subnet s).

(** Modelled from the spec: [Scope.Pools], the ranges of the spaces. *)
Definition Scope_Pools (s : Scope) : list Range := map Pool (s_spaces s).

(** The next free address of the first space that has one. *)
Fixpoint reserveNextIn (spaces : list AddressSpace) : option (list AddressSpace * IP) :=
  match spaces with
  | [] => None
  | p :: ps =>
      match ReserveNextIP4 p with
      | Some (p', a) => Some (p' :: ps, a)
      | None =>
          match reserveNextIn ps with
          | Some (ps', a) => Some (p :: ps', a)
          | None => None
          end
      end
  end.

(** The first space in which the address can be reserved. *)
Fixpoint reserveIn (spaces : list AddressSpace) (a : IP) : option (list AddressSpace) :=
  match spaces with
  | [] => None
  | p :: ps =>
      match ReserveIP4 p a with
      | Some p' => Some (p' :: ps)
      | None => cons p <$> reserveIn ps a
      end
  end.

Fixpoint releaseIn (spaces : list AddressSpace) (a : IP) : option (list AddressSpace) :=
  match spaces with
  | [] => None
  | p :: ps =>
      match ReleaseIP4 p a with
      | Some p' => Some (p' :: ps)
      | None => cons p <$> releaseIn ps a
      end
  end.

Definition setScopeEndpoints (s : Scope) (spaces : list AddressSpace)
    (eps : list Endpoint) (als : gmap string string) : Scope :=
  mkScope (s_id s) (s_name s) (s_scopeType s) (s_subnet s) (s_gateway s) (s_dns s)
    (s_trustLevel s) (s_internal s) (s_builtin s) spaces eps als
    (s_network s) (s_annotations s).

(** Modelled from the spec: [Scope.AddContainer] attaches an endpoint to
    the scope.  A scope that is not dynamic gives the endpoint the next
    free address of its pools, or reserves the address proposed; the
    endpoint is recorded and the aliases "{scope}:{name}" and
    "{scope}:{short id}" are seeded.  The result is the scope, the
    container with the endpoint, and the endpoint. *)
Definition Scope_AddContainer (s : Scope) (con : Container) (e : Endpoint)
  : result (Scope * Container * Endpoint) :=
  let record spaces e :=
    Ok (setScopeEndpoints s spaces (s_endpoints s ++ [e])
          (<[s_name s +:+ ":" +:+ uid_Truncate (con_id con) := con_id con]>
             (<[s_name s +:+ ":" +:+ con_name con := con_id con]> (s_aliases s))),
        mkContainer (con_id con) (con_name con) (con_endpoints con ++ [s_name s]),
        e) in
  if isDynamic s then record (s_spaces s) e
  else if IsUnspecifiedIP (ep_ip e) then
    match reserveNextIn (s_spaces s) with
    | Some (spaces, a) => record spaces (setIP e a)
    | None => Err ErrAddressSpace
    end
  else
    match reserveIn (s_spaces s) (ep_ip e) with
    | Some spaces => record spaces e
    | None => Err ErrAddressSpace
    end.

(** Modelled from the spec: [Scope.RemoveContainer] releases the address
    of the endpoint, unless the scope is dynamic or the address is
    unspecified, and removes the endpoint and its alias entries. *)
Definition Scope_RemoveContainer (s : Scope) (con : Container) : result Scope :=
  match find (fun e => String.eqb (ep_container e) (con_id con)) (s_endpoints s) with
  | None => Err (ResourceNotFoundError "")
  | Some e =>
      let spaces :=
        if isDynamic s || IsUnspecifiedIP (ep_ip e) then s_spaces s
        else orKeep (releaseIn (s_spaces s) (ep_ip e)) (s_spaces s) in
      Ok (setScopeEndpoints s spaces
            (filter (fun e => ep_container e ≠ con_id con) (s_endpoints s))
            (filter (fun kv => kv.2 ≠ con_id con) (s_aliases s)))
  end.

(** Modelled from the spec: [Container.Endpoint], the endpoint of the
    container on a scope, if it has one. *)
Definition Container_Endpoint (con : Container) (s : Scope) : option Endpoint :=
  if decide (s_name s ∈ con_endpoints con)
  then find (fun e => String.eqb (ep_container e) (con_id con)) (s_endpoints s)
  else None.

(** Modelled from the spec: [Container.Endpoints], the endpoints of the
    container, read through the scopes that own them. *)
Definition Container_Endpoints (c : Context) (con : Container) : list Endpoint :=
  omap (fun sn => s ← scopes c !! sn; Container_Endpoint con s) (con_endpoints con).

(** The scope of the context is replaced by its new state. *)
Definition setScopes (c : Context) (m : gmap string Scope) : Context :=
  mkContext (config c) (defaultBridgePool c) (defaultBridgeMask c) m
    (containers c) (aliases c) (defaultScope c) (kv c).

Definition putScope (c : Context) (s : Scope) : Context :=
  setScopes c (<[s_name s := s]> (scopes c)).

(** An endpoint is updated in the scope that owns it. *)
Definition putEndpoint (c : Context) (e : Endpoint) : Context :=
  match scopes c !! ep_scope e with
  | None => c
  | Some s =>
      putScope c (setScopeEndpoints s (s_spaces s)
        (map (fun x => if String.eqb (ep_container x) (ep_container e) then e else x)
             (s_endpoints s))
        (s_aliases s))
  end.

End Network.

(** ** Scopes of a context *)

Section Scopes.

Context `{!External}.

Definition setPool (c : Context) (p : AddressSpace) : Context :=
  mkContext (config c) p (defaultBridgeMask c) (scopes c)
    (containers c) (aliases c) (defaultScope c) (kv c).

Definition setKV (c : Context) (store : option KeyValueStore) : Context :=
  mkContext (config c) (defaultBridgePool c) (defaultBridgeMask c) (scopes c)
    (containers c) (aliases c) (defaultScope c) store.

Definition setBridgeLink (c : Context) (link : list IPNet) : Context :=
  mkContext
    (mkConfiguration (BridgeIPRange (config c)) (BridgeNetworkWidth (config c))
       (BridgeNetwork (config c)) (ContainerNetworks (config c))
       (PortGroups (config c)) link)
    (defaultBridgePool c) (defaultBridgeMask c) (scopes c)
    (containers c) (aliases c) (defaultScope c) (kv c).

(** The address is reserved in the first space that accepts it, if any. *)
Fixpoint reserveFirst (spaces : list AddressSpace) (a : IP) : list AddressSpace :=
  match spaces with
  | [] => []
  | p :: ps =>
      match ReserveIP4 p a with
      | Some p' => p' :: ps
      | None => p :: reserveFirst ps a
      end
  end.

(** [reserveGateway]: the gateway and the spaces after the reservation. *)
Definition reserveGateway (gateway : IP) (subnet : option IPNet)
    (spaces : list AddressSpace) : result (IP * list AddressSpace) :=
  match subnet with
  | Some n =>
      if IsUnspecifiedSubnet subnet
      then Err (Errorf "cannot reserve gateway for nil subnet")
      else if negb (IsUnspecifiedIP gateway) then
        if negb (IsRoutableIP gateway n)
        then Err (Errorf "gateway address %s is not routable on network %s")
        else Ok (gateway, reserveFirst spaces gateway)
      else
        match spaces with
        | p :: ps =>
            match ReserveNextIP4 p with
            | None => Err ErrAddressSpace
            | Some (p', gw) =>
                if negb (IsRoutableIP gw n)
                then Err (Errorf "gateway address %s is not routable on network %s")
                else Ok (gw, p' :: ps)
            end
        | [] => Err (Errorf "could not reserve gateway address for network %s")
        end
  | None => Err (Errorf "cannot reserve gateway for nil subnet")
  end.

(** [checkNetOverlap]: the requested subnet is refused when the subnet of
    a scope contains its address or its highest address. *)
Definition checkNetOverlap (c : Context) (subnet : IPNet) : result unit :=
  let highestIP := highestIP4 subnet in
  if existsb (fun kv => ContainsOpt (s_subnet kv.2) (net_IP subnet)
                        || ContainsOpt (s_subnet kv.2) highestIP)
       (map_to_list (scopes c))
  then Err (Errorf "subnet %s overlaps with scope %s subnet %s")
  else Ok tt.

(** [reserveSubnet]: the space of the subnet, and whether it was carved
    from the default bridge pool. *)
Definition reserveSubnet (c : Context) (subnet : IPNet)
  : Context * result (AddressSpace * bool) :=
  match checkNetOverlap c subnet with
  | Ok _ =>
      match ReserveIP4Net (defaultBridgePool c) subnet with
      | Some (pool, space) => (setPool c pool, Ok (space, true))
      | None => (c, Ok (NewAddressSpaceFromNetwork subnet, false))
      end
  | Err e => (c, Err e)
  | Panic => (c, Panic)
  end.

Fixpoint reservePools_loop (space : AddressSpace) (pools : list AddressSpace)
  : option (list AddressSpace) :=
  match pools with
  | [] => Some []
  | p :: ps =>
      let r := match Network p with
               | Some n => ReserveIP4Net space n
               | None => ReserveIP4Range space (FirstIP (Pool p)) (LastIP (Pool p))
               end in
      match r with
      | Some (space', ss) => cons ss <$> reservePools_loop space' ps
      | None => None
      end
  end.

(** [reservePools]: the pools carved from the space, or the space itself
    when no pool is specified.  On an error the sub-spaces reserved so far
    are released in [space], which the caller then drops. *)
Definition reservePools (space : AddressSpace) (pools : list AddressSpace)
  : result (list AddressSpace) :=
  match pools with
  | [] => Ok [space]
  | _ =>
      match reservePools_loop space pools with
      | Some subSpaces => Ok subSpaces
      | None => Err ErrAddressSpace
      end
  end.

Definition setScopeIPAM (s : Scope) (gateway : IP) (spaces : list AddressSpace)
    (subnet : option IPNet) : Scope :=
  mkScope (s_id s) (s_name s) (s_scopeType s) subnet gateway (s_dns s)
    (s_trustLevel s) (s_internal s) (s_builtin s) spaces (s_endpoints s)
    (s_aliases s) (s_network s) (s_annotations s).

(** The reservations that [addScope] makes in a pool: the all-ones and the
    all-zeros address, and the DNS addresses other than the gateway; their
    errors are dropped. *)
Definition reserveFixed (subnet : IPNet) (gateway : IP) (dns : list IP)
    (p : AddressSpace) : AddressSpace :=
  let p1 := orKeep (ReserveIP4 p (AllOnesAddr subnet)) p in
  let p2 := orKeep (ReserveIP4 p1 (AllZerosAddr subnet)) p1 in
  fold_left (fun p d => if d =? gateway then p else orKeep (ReserveIP4 p d) p) dns p2.

(** The deferred cleanup of [addScope]: after an error with a space carved
    from the default pool, the space is released.  The addresses that the
    code releases before that are in the pools of the scope, which are
    dropped with it. *)
Definition addScope_cleanup (c : Context) (space : AddressSpace) (defaultPool : bool)
  : Context :=
  if defaultPool
  then setPool c (orKeep (ReleaseIP4Range (defaultBridgePool c) space) (defaultBridgePool c))
  else c.

(** [addScope]: the reservations of a scope, and its installation in
    [scopes]. *)
Definition addScope (c : Context) (s : Scope) : Context * result Scope :=
  match scopes c !! s_name s with
  | Some _ => (c, Err (DuplicateResourceError ""))
  | None =>
      match s_subnet s with
      | Some subnet0 =>
          if IsUnspecifiedSubnet (s_subnet s) then (putScope c s, Ok s)
          else
            match reserveSubnet c subnet0 with
            | (c1, Ok (space, defaultPool)) =>
                match Network space with
                | Some subnet =>
                    match reservePools space (s_spaces s) with
                    | Ok spaces =>
                        let spaces :=
                          map (reserveFixed subnet (s_gateway s) (s_dns s)) spaces in
                        match reserveGateway (s_gateway s) (Some subnet) spaces with
                        | Ok (gateway, spaces) =>
                            let s' := setScopeIPAM s gateway spaces (Some subnet) in
                            (putScope c1 s', Ok s')
                        | Err e => (addScope_cleanup c1 space defaultPool, Err e)
                        | Panic => (c1, Panic)
                        end
                    | Err e => (addScope_cleanup c1 space defaultPool, Err e)
                    | Panic => (c1, Panic)
                    end
                | None => (c1, Panic)
                end
            | (c1, Err e) => (c1, Err e)
            | (c1, Panic) => (c1, Panic)
            end
      | None => (putScope c s, Ok s)
      end
  end.

(** Modelled from the spec: the constructor [newScope] of scope.go records
    the identity, the type, the subnet, the gateway, the DNS addresses, the
    trust level, the internal flag and the port group; a new scope is not
    builtin and has no endpoint. *)
Definition newScope (id : string) (scopeType : string) (network : option string)
    (scopeData : ScopeData) : Scope :=
  mkScope id (Name scopeData) scopeType (Subnet scopeData) (Gateway scopeData)
    (DNS scopeData) (sd_TrustLevel scopeData) (Internal scopeData) false
    [] [] ∅ network ∅.

Definition setSpacesAnnotations (s : Scope) (spaces : list AddressSpace)
    (ann : gmap string string) : Scope :=
  mkScope (s_id s) (s_name s) (s_scopeType s) (s_subnet s) (s_gateway s) (s_dns s)
    (s_trustLevel s) (s_internal s) (s_builtin s) spaces (s_endpoints s)
    (s_aliases s) (s_network s) ann.

(** The pools of the scope data, parsed in order; the first pool that
    does not parse is the error. *)
Fixpoint parsePools (pools : list string) : string + list AddressSpace :=
  match pools with
  | [] => inr []
  | p :: ps =>
      match ParseRange p with
      | None => inl p
      | Some r =>
          match parsePools ps with
          | inl bad => inl bad
          | inr spaces => inr (NewAddressSpaceFromRange (FirstIP r) (LastIP r) :: spaces)
          end
      end
  end.

Definition newScopeCommon (c : Context) (id : string) (scopeType : string)
    (network : option string) (scopeData : ScopeData) : Context * result Scope :=
  let newScope := newScope id scopeType network scopeData in
  match parsePools (Pools scopeData) with
  | inl p =>
      (c, Err (Errorf ("invalid pool " +:+ p +:+ " specified for scope "
                       +:+ Name scopeData)))
  | inr spaces =>
      addScope c (setSpacesAnnotations newScope spaces
                    (Annotations scopeData ∪ s_annotations newScope))
  end.

Definition setSubnet (d : ScopeData) (n : option IPNet) : ScopeData :=
  mkScopeData (ScopeType d) (Name d) n (Gateway d) (DNS d) (sd_TrustLevel d)
    (Pools d) (Annotations d) (Internal d).

Definition newBridgeScope (c : Context) (id : string) (scopeData : ScopeData)
  : Context * result Scope :=
  match PortGroups (config c) !! BridgeNetwork (config c) with
  | None => (c, Err (Errorf "bridge network not set"))
  | Some bnPG =>
      let next :=
        if IsUnspecifiedSubnet (Subnet scopeData) then
          match NextIP4Net (defaultBridgePool c) (defaultBridgeMask c) with
          | Some n => Ok (setSubnet scopeData (Some n))
          | None => Err ErrAddressSpace
          end
        else Ok scopeData in
      match next with
      | Ok scopeData =>
          match newScopeCommon c id BridgeScopeType (Some bnPG) scopeData with
          | (c1, Ok s) =>
              (setBridgeLink c1
                 (AddrAdd (BridgeLink (config c1))
                    (mkIPNet (s_gateway s) (MaskOpt (s_subnet s)))),
               Ok s)
          | r => r
          end
      | Err e => (c, Err e)
      | Panic => (c, Panic)
      end
  end.

Definition newExternalScope (c : Context) (id : string) (scopeData : ScopeData)
  : Context * result Scope :=
  if (0 <? Z.of_nat (length (Pools scopeData)))
     && (IsUnspecifiedSubnet (Subnet scopeData) || IsUnspecifiedIP (Gateway scopeData))
  then (c, Err (Errorf
         "ipam cannot be specified without gateway and subnet for external network"))
  else
    let overlap :=
      match Subnet scopeData with
      | Some n =>
          negb (IsUnspecifiedSubnet (Subnet scopeData))
          && (ContainsOpt (Network (defaultBridgePool c)) (net_IP n)
              || ContainsOpt (Network (defaultBridgePool c)) (highestIP4 n))
      | None => false
      end in
    if overlap
    then (c, Err (Errorf "external network cannot overlap with default bridge network"))
    else
      match PortGroups (config c) !! Name scopeData with
      | None => (c, Err (Errorf ("no network info for external scope "
                                  +:+ Name scopeData)))
      | Some pg => newScopeCommon c id ExternalScopeType (Some pg) scopeData
      end.

Definition scopeKey (sn : string) : string := "context.scopes." +:+ sn.

(** [Context.newScope]; [id] is the identifier that [uid.New] draws. *)
Definition Context_newScope (c : Context) (id : string) (scopeData : ScopeData)
  : Context * result Scope :=
  if String.eqb (Name scopeData) ""
  then (c, Err (Errorf "scope name must not be empty"))
  else
    match scopes c !! Name scopeData with
    | Some _ => (c, Err (DuplicateResourceError (Name scopeData)))
    | None =>
        if String.eqb (ScopeType scopeData) BridgeScopeType
        then newBridgeScope c id scopeData
        else if String.eqb (ScopeType scopeData) ExternalScopeType
        then newExternalScope c id scopeData
        else (c, Err (Errorf "scope type not supported"))
    end.

(** [deleteScope]: the gateway of a bridge scope is taken off the bridge
    link, and the scope is removed from [scopes]. *)
Definition deleteScope (c : Context) (s : Scope) : Context :=
  let c1 :=
    if String.eqb (s_scopeType s) BridgeScopeType
    then setBridgeLink c
           (AddrDel (BridgeLink (config c))
              (mkIPNet (s_gateway s) (MaskOpt (s_subnet s))))
    else c in
  setScopes c1 (delete (s_name s) (scopes c1)).

(** [NewScope]: the scope is created and, with a store, saved in it; the
    deferred function deletes the scope when saving fails. *)
Definition NewScope (c : Context) (id : string) (scopeData : ScopeData)
  : Context * result Scope :=
  match Context_newScope c id scopeData with
  | (c1, Ok s) =>
      match kv c1 with
      | Some store =>
          match MarshalJSON s with
          | None => (deleteScope c1 s, Err ErrMarshalJSON)
          | Some d =>
              match kv_Put store (scopeKey (s_name s)) d with
              | Ok store' => (setKV c1 (Some store'), Ok s)
              | Err e => (deleteScope c1 s, Err e)
              | Panic => (c1, Panic)
              end
          end
      | None => (c1, Ok s)
      end
  | r => r
  end.

(** [DefaultScope], read through [scopes]. *)
Definition DefaultScope (c : Context) : option Scope :=
  n ← defaultScope c; scopes c !! n.

(** [findScopes]: a pointer of the result may be nil, which is [None]. *)
Definition findScopes (c : Context) (idName : option string)
  : result (list (option Scope)) :=
  match idName with
  | Some n =>
      if String.eqb n "" then Ok (map (fun kv => Some kv.2) (map_to_list (scopes c)))
      else if String.eqb n "default" then Ok [DefaultScope c]
      else
        match scopes c !! n with
        | Some scope => Ok [Some scope]
        | None =>
            let ss := filter (fun s => HasPrefix (s_id s) n = true)
                        (map snd (map_to_list (scopes c))) in
            if (0 <? Z.of_nat (length ss)) then Ok (map Some ss)
            else Err (ResourceNotFoundError ("scope " +:+ n +:+ " not found"))
        end
  | None => Ok (map (fun kv => Some kv.2) (map_to_list (scopes c)))
  end.

Definition resolveScope (c : Context) (scope : string) : result (option Scope) :=
  match findScopes c (Some scope) with
  | Ok [s] => Ok s
  | Ok _ => Ok None
  | Err e => Err e
  | Panic => Panic
  end.

(** [DeleteScope] *)
Definition DeleteScope (c : Context) (name : string) : Context * result unit :=
  match resolveScope c name with
  | Err e => (c, Err e)
  | Panic => (c, Panic)
  | Ok None => (c, Err (ResourceNotFoundError ""))
  | Ok (Some s) =>
      if s_builtin s then (c, Err (Errorf "cannot remove builtin scope"))
      else if negb (length (s_endpoints s) =? 0)%nat
      then (c, Err (Errorf (s_name s +:+ " has active endpoints")))
      else
        match kv c with
        | Some store =>
            match kv_Delete store (scopeKey (s_name s)) with
            | Ok store' => (deleteScope (setKV c (Some store')) s, Ok tt)
            | Err ErrKeyNotFound => (deleteScope c s, Ok tt)
            | Err e => (c, Err e)
            | Panic => (c, Panic)
            end
        | None => (deleteScope c s, Ok tt)
        end
  end.

End Scopes.

(** ** Containers of a context *)

Section Containers.

Context `{!External}.

Definition setContainers (c : Context) (m : gmap string Container) : Context :=
  mkContext (config c) (defaultBridgePool c) (defaultBridgeMask c) (scopes c)
    m (aliases c) (defaultScope c) (kv c).

Definition setAliases (c : Context) (m : gmap string (list string)) : Context :=
  mkContext (config c) (defaultBridgePool c) (defaultBridgeMask c) (scopes c)
    (containers c) m (defaultScope c) (kv c).

(** [Context.container]: the container of a handle, by its long id. *)
Definition container (c : Context) (h : Handle) : result Container :=
  let id := uid_Parse (h_ID h) in
  if String.eqb id NilUID
  then Err (Errorf ("invalid container id " +:+ h_ID h))
  else match containers c !! id with
       | Some con => Ok con
       | None => Err (ResourceNotFoundError ("container " +:+ id +:+ " not found"))
       end.

Definition isResourceNotFound (e : error) : bool :=
  match e with
  | ResourceNotFoundError _ => true
  | _ => false
  end.

Definition setNetwork (ne : NetworkEndpoint) (n : ContainerNetwork) : NetworkEndpoint :=
  mkNetworkEndpoint (ne_ID ne) n (ne_Static ne) (ne_IP ne) (ne_Assigned_IP ne)
    (ne_Ports ne).

Definition setDefault (ne : NetworkEndpoint) (b : bool) : NetworkEndpoint :=
  let n := ne_Network ne in
  setNetwork ne
    (mkContainerNetwork (cn_Name n) (cn_Aliases n) (cn_Type n) (cn_TrustLevel n)
       (cn_Pools n) (cn_Gateway n) (cn_Nameservers n) b).

(** The addresses that [bindContainer] writes back on the declaration of a
    network: the address of the endpoint when it has one, the gateway and
    the DNS addresses of the scope. *)
Definition writeBack (ne : NetworkEndpoint) (e : Endpoint) (s : Scope) : NetworkEndpoint :=
  let n := ne_Network ne in
  mkNetworkEndpoint (ne_ID ne)
    (mkContainerNetwork (cn_Name n) (cn_Aliases n) (cn_Type n) (cn_TrustLevel n)
       (cn_Pools n) (mkIPNet (s_gateway s) (MaskOpt (s_subnet s))) (s_dns s)
       (cn_Default n))
    (ne_Static ne)
    (if negb (IsUnspecifiedIP (ep_ip e))
     then Some (mkIPNet (ep_ip e) (MaskOpt (s_subnet s)))
     else ne_IP ne)
    (ne_Assigned_IP ne) (ne_Ports ne).

(** The ports of a declaration are parsed and added to the endpoint; the
    endpoint is given also when a port does not parse, with the ports
    added before it. *)
Fixpoint addPorts (e : Endpoint) (ports : list string) : Endpoint * option error :=
  match ports with
  | [] => (e, None)
  | p :: ps =>
      match ParsePort p with
      | None => (e, Some ErrParsePorts)
      | Some port => addPorts (addPort e port) ps
      end
  end.

(** The aliases that a declaration gives to the container: each is
    "who:what", an empty "who" being the container itself.  [als] is the
    local map of the aliases to install, from a scoped name to the long id
    of a container. *)
Fixpoint addAliases (c : Context) (con : Container) (e : Endpoint)
    (als : gmap string string) (declared : list string)
  : Endpoint * gmap string string * option error :=
  match declared with
  | [] => (e, als, None)
  | a :: rest =>
      match splitColon a with
      | [who; what] =>
          let who := if String.eqb who "" then con_name con else who in
          match addAlias e who what with
          | (e', a', exists_) =>
              let als' :=
                if bool_decide (a' ≠ badAlias) && negb exists_ then
                  let whoc :=
                    if negb (String.eqb who (con_name con))
                    then con_id <$> containers c !! who
                    else Some (con_id con) in
                  match whoc with
                  | Some w => <[scopedName a' := w]> als
                  | None => als
                  end
                else als in
              addAliases c con e' als' rest
          end
      | _ => (e, als, Some (Errorf ("Parsing network alias " +:+ a +:+ " failed")))
      end
  end.

(** The aliases to this container that the endpoints of other containers
    on the scope hold already. *)
Definition fixUpAliases (s : Scope) (con : Container) (als : gmap string string)
  : gmap string string :=
  fold_left
    (fun als e' =>
       if String.eqb (ep_container e') (con_id con) then als
       else fold_left (fun als a => <[scopedName a := con_id con]> als)
              (getAliases e' (con_name con)) als)
    (s_endpoints s) als.

(** The deferred functions of [bindContainer] remove the container from
    the scopes visited, the last one first. *)
Fixpoint unwindScopes (c : Context) (con : Container) (visited : list string) : Context :=
  match visited with
  | [] => c
  | sn :: rest =>
      let c' :=
        match scopes c !! sn with
        | Some s =>
            match Scope_RemoveContainer s con with
            | Ok s' => putScope c s'
            | _ => c
            end
        | None => c
        end in
      unwindScopes c' con rest
  end.

(** The state of the loop of [bindContainer] over the declared networks:
    the context, the declarations done, the container, the flag of the
    election, the aliases to install, the endpoints, and the scopes for
    which a deferred function is registered, the last one first. *)
Record bindState := mkBindState {
  bs_ctx : Context;
  bs_done : list (string * NetworkEndpoint);
  bs_con : Container;
  bs_defaultMarked : bool;
  bs_aliases : gmap string string;
  bs_endpoints : list Endpoint;
  bs_visited : list string
}.

(** One round of the loop of [bindContainer], for the declaration [ne]
    under the key [k]: the context, the declaration as the round leaves
    it, and the state of the next round.  An error of [Scope.AddContainer]
    is assigned to the variable [err] of the function, which the deferred
    functions read: they unwind the scopes visited.  The later errors of a
    round are assigned to the [err] that the round declares with
    [ports, _, err := ...], and a missing scope is returned without an
    assignment: the deferred functions then see the nil that the last
    [Scope.AddContainer] left in the outer [err], and unwind nothing. *)
Definition bindRound (st : bindState) (k : string) (ne : NetworkEndpoint)
  : Context * NetworkEndpoint * result bindState :=
  let c := bs_ctx st in
  let con := bs_con st in
  match scopes c !! cn_Name (ne_Network ne) with
  | None =>
      (c, ne, Err (ResourceNotFoundError
                     ("network " +:+ cn_Name (ne_Network ne) +:+ " not found")))
  | Some s =>
      let visited := s_name s :: bs_visited st in
      let eip :=
        if ne_Static ne then
          match ne_IP ne with
          | Some n => Ok (Some (net_IP n))
          | None => Panic
          end
        else if negb (IsUnspecifiedIP (ne_Assigned_IP ne))
        then Ok (Some (ne_Assigned_IP ne))
        else Ok None in
      match eip ≫= fun eip =>
            Scope_AddContainer s con
              (setStatic (newEndpoint con s eip) (ne_Static ne)) with
      | Err err => (unwindScopes c con visited, ne, Err err)
      | Panic => (c, ne, Panic)
      | Ok (s, con, e) =>
          let c := putScope c s in
          match ParsePortSpecs (ne_Ports ne) with
          | None => (c, ne, Err ErrParsePorts)
          | Some ports =>
              match addPorts e ports with
              | (e, Some err) => (putEndpoint c e, ne, Err err)
              | (e, None) =>
                  let c := putEndpoint c e in
                  let ne := writeBack ne e s in
                  let external := String.eqb (s_scopeType s) ExternalScopeType in
                  let defaultMarked := bs_defaultMarked st || external in
                  let ne :=
                    if negb (bs_defaultMarked st) && external
                    then setDefault ne true else ne in
                  let ne := if s_internal s then setDefault ne false else ne in
                  let als :=
                    <[s_name s +:+ ":" +:+ uid_Truncate (con_id con) := con_id con]>
                      (<[s_name s +:+ ":" +:+ con_name con := con_id con]>
                         (bs_aliases st)) in
                  match addAliases c con e als (cn_Aliases (ne_Network ne)) with
                  | (e, _, Some err) => (putEndpoint c e, ne, Err err)
                  | (e, als, None) =>
                      let c := putEndpoint c e in
                      let als :=
                        match scopes c !! s_name s with
                        | Some s => fixUpAliases s con als
                        | None => als
                        end in
                      (c, ne,
                       Ok (mkBindState c (bs_done st ++ [(k, ne)]) con defaultMarked
                             als (bs_endpoints st ++ [e]) visited))
                  end
              end
          end
      end
  end.

(** The loop of [bindContainer] over the declared networks; at an error
    the handle keeps the declarations as the rounds left them. *)
Fixpoint bindLoop (st : bindState) (todo : list (string * NetworkEndpoint))
  : Context * list (string * NetworkEndpoint) * result bindState :=
  match todo with
  | [] => (bs_ctx st, bs_done st, Ok st)
  | (k, ne) :: rest =>
      match bindRound st k ne with
      | (_, _, Ok st') => bindLoop st' rest
      | (c, ne', Err e) => (c, bs_done st ++ (k, ne') :: rest, Err e)
      | (c, ne', Panic) => (c, bs_done st ++ (k, ne') :: rest, Panic)
      end
  end.

(** The election of the default network when the loop marked none: the
    first declaration whose scope is not internal. *)
Fixpoint markFirstNotInternal (c : Context) (nets : list (string * NetworkEndpoint))
  : list (string * NetworkEndpoint) :=
  match nets with
  | [] => []
  | (k, ne) :: rest =>
      match scopes c !! cn_Name (ne_Network ne) with
      | Some s =>
          if s_internal s then (k, ne) :: markFirstNotInternal c rest
          else (k, setDefault ne true) :: rest
      | None => (k, setDefault ne true) :: rest
      end
  end.

(** The aliases of a bind are installed in the index of the context, a
    container once under an alias. *)
Definition installAliases (m : gmap string (list string)) (als : gmap string string)
  : gmap string (list string) :=
  fold_left
    (fun m kv =>
       let cs := default [] (m !! kv.1) in
       if bool_decide (kv.2 ∈ cs) then m else <[kv.1 := cs ++ [kv.2]]> m)
    (map_to_list als) m.

Definition setNetworks (h : Handle) (nets : list (string * NetworkEndpoint)) : Handle :=
  mkHandle (h_ID h) (h_Name h) nets (h_DeviceChange h).

(** [bindContainer]: the context, the handle and the endpoints. *)
Definition bindContainer (c : Context) (h : Handle)
  : Context * Handle * result (list Endpoint) :=
  match container c h with
  | Ok con => (c, h, Ok (Container_Endpoints c con))
  | Panic => (c, h, Panic)
  | Err err =>
      if negb (isResourceNotFound err) then (c, h, Err err)
      else
        let con := mkContainer (uid_Parse (h_ID h)) (h_Name h) [] in
        match bindLoop (mkBindState c [] con false ∅ [] []) (h_Networks h) with
        | (c, nets, Err e) => (c, setNetworks h nets, Err e)
        | (c, nets, Panic) => (c, setNetworks h nets, Panic)
        | (_, _, Ok st) =>
            let c := bs_ctx st in
            let con := bs_con st in
            let nets :=
              if negb (bs_defaultMarked st) then markFirstNotInternal c (bs_done st)
              else bs_done st in
            let c :=
              setContainers c
                (<[con_name con := con]>
                   (<[uid_Truncate (con_id con) := con]>
                      (<[con_id con := con]> (containers c)))) in
            let c := setAliases c (installAliases (aliases c) (bs_aliases st)) in
            (c, setNetworks h nets, Ok (bs_endpoints st))
        end
  end.

Definition BindContainer (c : Context) (h : Handle)
  : Context * Handle * result (list Endpoint) :=
  bindContainer c h.

End Containers.

Section Unbind.

Context `{!External}.

Definition clearAssigned (ne : NetworkEndpoint) : NetworkEndpoint :=
  mkNetworkEndpoint (ne_ID ne) (ne_Network ne) (ne_Static ne) (ne_IP ne) 0 (ne_Ports ne).

(** The aliases to this container that the endpoints of the other
    containers on the scope hold. *)
Definition aliasesFromOthers (s : Scope) (con : Container) : list string :=
  concat (map (fun e' =>
                 if String.eqb (ep_container e') (con_id con) then []
                 else map scopedName (getAliases e' (con_name con)))
              (s_endpoints s)).

(** The loop of [UnbindContainer] over the declared networks: the aliases
    to remove and the endpoints removed. *)
Fixpoint unbindLoop (c : Context) (con : Container)
    (done : list (string * NetworkEndpoint)) (als : list string)
    (eps : list Endpoint) (todo : list (string * NetworkEndpoint))
  : Context * list (string * NetworkEndpoint) * result (list string * list Endpoint) :=
  match todo with
  | [] => (c, done, Ok (als, eps))
  | (k, ne) :: rest =>
      match scopes c !! cn_Name (ne_Network ne) with
      | None => (c, done ++ (k, ne) :: rest, Err (ResourceNotFoundError ""))
      | Some s =>
          match Container_Endpoint con s with
          | None => (c, done ++ (k, ne) :: rest, Panic)
          | Some e =>
              match Scope_RemoveContainer s con with
              | Err err => (c, done ++ (k, ne) :: rest, Err err)
              | Panic => (c, done ++ (k, ne) :: rest, Panic)
              | Ok s' =>
                  let als :=
                    als ++ [s_name s +:+ ":" +:+ con_name con;
                            s_name s +:+ ":" +:+ uid_Truncate (con_id con)]
                        ++ concat (map (fun kv => map scopedName kv.2)
                                       (map_to_list (ep_aliases e)))
                        ++ aliasesFromOthers s' con in
                  unbindLoop (putScope c s') con (done ++ [(k, clearAssigned ne)])
                    als (eps ++ [e]) rest
              end
          end
      end
  end.

Fixpoint removeFirstOf (x : string) (l : list string) : list string :=
  match l with
  | [] => []
  | y :: l' => if String.eqb y x then l' else y :: removeFirstOf x l'
  end.

(** The container is taken out of the list of an alias, and the alias out
    of the index when its list is empty then. *)
Definition removeAlias (con : Container) (m : gmap string (list string)) (a : string)
  : gmap string (list string) :=
  match m !! a with
  | None => m
  | Some cs =>
      if bool_decide (con_id con ∈ cs) then
        match removeFirstOf (con_id con) cs with
        | [] => delete a m
        | cs' => <[a := cs']> m
        end
      else m
  end.

(** [UnbindContainer] *)
Definition UnbindContainer (c : Context) (h : Handle)
  : Context * Handle * result (list Endpoint) :=
  match container c h with
  | Err err =>
      if isResourceNotFound err then (c, h, Ok []) else (c, h, Err err)
  | Panic => (c, h, Panic)
  | Ok con =>
      match unbindLoop c con [] [] [] (h_Networks h) with
      | (c, nets, Err e) => (c, setNetworks h nets, Err e)
      | (c, nets, Panic) => (c, setNetworks h nets, Panic)
      | (c, nets, Ok (als, eps)) =>
          let c := setAliases c (fold_left (removeAlias con) als (aliases c)) in
          let c :=
            setContainers c
              (delete (con_name con)
                 (delete (uid_Truncate (con_id con))
                    (delete (con_id con) (containers c)))) in
          (c, setNetworks h nets, Ok eps)
      end
  end.

(** [Container]: the container under a key, or nil. *)
Definition Context_Container (c : Context) (key : string) : Context * option Container :=
  (c, containers c !! key).

(** [ContainersByAlias]: the containers under an alias, or nil. *)
Definition ContainersByAlias (c : Context) (alias_ : string)
  : Context * option (list string) :=
  (c, aliases c !! alias_).

End Unbind.

(** ** Staging of a network on a handle *)

Section Staging.

Context `{!External}.

Definition lookupNet (nets : list (string * NetworkEndpoint)) (k : string)
  : option NetworkEndpoint :=
  snd <$> find (fun kv => String.eqb kv.1 k) nets.

(** The check of [AddContainer] that the handle is on no external scope:
    the names of its networks are resolved one after the other. *)
Fixpoint checkExternal (c : Context) (names : list string) : result unit :=
  match names with
  | [] => Ok tt
  | name :: rest =>
      match resolveScope c name with
      | Ok (Some sc) =>
          if String.eqb (s_scopeType sc) ExternalScopeType
          then Err (Errorf "container can only be added to at most one mapped network")
          else checkExternal c rest
      | _ => Panic
      end
  end.

(** The check of [AddContainer] for the ports on an external scope. *)
Fixpoint checkPortMapping (ports : list string) : result unit :=
  match ports with
  | [] => Ok tt
  | p :: rest =>
      if containsColon p
      then Err (Errorf ("external scope includes a port mapping (" +:+ p +:+ ")"))
      else checkPortMapping rest
  end.

(** The message of [AddContainer] for ports on a closed firewall; the
    word closed is in double quotes in it. *)
Definition closedFirewallMessage : string :=
  let quote := String (ascii_of_nat 34) EmptyString in
  "Ports cannot be published via the " +:+ quote +:+ "closed" +:+ quote
  +:+ " container network firewall.".

(** [atoiOrZero]; the conversion to [int32] wraps. *)
Definition atoiOrZero (a : string) : Z :=
  let i := default 0 (Atoi a) in
  (i + 2147483648) mod 4294967296 - 2147483648.

(** The PCI slot of a network card of the handle on a bridge scope, or 0. *)
Fixpoint findBridgeSlot (c : Context) (nets : list (string * NetworkEndpoint))
  : result Z :=
  match nets with
  | [] => Ok 0
  | (_, ne) :: rest =>
      match resolveScope c (cn_Name (ne_Network ne)) with
      | Err err => Err err
      | Panic | Ok None => Panic
      | Ok (Some sc) =>
          if negb (String.eqb (s_scopeType sc) BridgeScopeType)
          then findBridgeSlot c rest
          else if negb (String.eqb (ne_ID ne) "") then
            let pciSlot := atoiOrZero (ne_ID ne) in
            if negb (pciSlot =? 0) then Ok pciSlot else findBridgeSlot c rest
          else findBridgeSlot c rest
      end
  end.

(** [AddContainer]: a network is declared on the handle; the context is
    read only. *)
Definition AddContainer (c : Context) (h : Handle) (options : AddContainerOptions)
  : Handle * result unit :=
  match resolveScope c (opt_Scope options) with
  | Err err => (h, Err err)
  | Panic | Ok None => (h, Panic)
  | Ok (Some s) =>
      let external := String.eqb (s_scopeType s) ExternalScopeType in
      match lookupNet (h_Networks h) (s_name s) with
      | Some _ => (h, Ok tt)
      | None =>
          let slot : result Z :=
            _ ← (if external then checkExternal c (map fst (h_Networks h))
                 else Ok tt);
            _ ← (if external then checkPortMapping (opt_Ports options) else Ok tt);
            _ ← (if external
                    && (0 <? Z.of_nat (length (opt_Ports options)))
                    && bool_decide (s_trustLevel s = Closed)
                 then Err (Errorf closedFirewallMessage)
                 else Ok tt);
            if String.eqb (s_scopeType s) BridgeScopeType
            then findBridgeSlot c (h_Networks h) else Ok 0 in
          match slot with
          | Err err => (h, Err err)
          | Panic => (h, Panic)
          | Ok pciSlot =>
              let card :=
                if pciSlot =? 0 then addEthernetCard h s else Ok (h, pciSlot) in
              match card with
              | Err err => (h, Err err)
              | Panic => (h, Panic)
              | Ok (h, pciSlot) =>
                  let static := negb (IsUnspecifiedIP (opt_IP options)) in
                  let ne :=
                    mkNetworkEndpoint (Itoa pciSlot)
                      (mkContainerNetwork (s_name s) (opt_Aliases options)
                         (s_scopeType s) (s_trustLevel s) (Scope_Pools s)
                         (mkIPNet 0 0) [] false)
                      static
                      (if static
                       then Some (mkIPNet (opt_IP options) (MaskOpt (s_subnet s)))
                       else None)
                      0 (opt_Ports options) in
                  (setNetworks h (h_Networks h ++ [(s_name s, ne)]), Ok tt)
              end
          end
      end
  end.

End Staging.

(** ** Removal of a network from a handle *)

Section Unstaging.

Context `{!External}.

(** [EthernetCardBackingInfo] of the network of the scope,
    [CreateEthernetCard] and [ConfigSpec] of govmomi: the device changes
    that remove the card of the scope, or the error of one of them. *)
Variable removeEthernetCard : Scope -> result (list DeviceChange).

Definition setDeviceChange (h : Handle) (dc : list DeviceChange) : Handle :=
  mkHandle (h_ID h) (h_Name h) (h_Networks h) dc.

(** [RemoveContainer]: the declaration of a network is taken off the
    handle of a container that is not bound; the card is removed with it
    unless another declaration uses it.  The context is read only. *)
Definition RemoveContainer (c : Context) (h : Handle) (scope : string)
  : Handle * result unit :=
  match container c h with
  | Ok _ => (h, Err (Errorf "container is bound"))
  | _ =>
      match resolveScope c scope with
      | Err err => (h, Err err)
      | Panic | Ok None => (h, Panic)
      | Ok (Some s) =>
          match lookupNet (h_Networks h) (s_name s) with
          | None =>
              (h, Err (Errorf ("container " +:+ h_ID h +:+ " not part of network "
                               +:+ s_name s)))
          | Some ne =>
              let removeNIC :=
                negb (existsb (fun kv => negb (String.eqb kv.1 (s_name s))
                                         && String.eqb (ne_ID kv.2) (ne_ID ne))
                        (h_Networks h)) in
              let staged :=
                if removeNIC then
                  match removeEthernetCard s with
                  | Ok dc => Ok (setDeviceChange h (h_DeviceChange h ++ dc))
                  | Err err => Err err
                  | Panic => Panic
                  end
                else Ok h in
              match staged with
              | Err err => (h, Err err)
              | Panic => (h, Panic)
              | Ok h' =>
                  (setNetworks h' (filter (fun kv => kv.1 ≠ s_name s) (h_Networks h')),
                   Ok tt)
              end
          end
      end
  end.

End Unstaging.

(** ** Construction of a context *)

Section Construction.

Context `{!External}.

(** Modelled from the spec: [constants.DefaultBridgeRange], the default
    bridge pool 172.16.0.0/12. *)
Definition DefaultBridgeRange : IPNet := mkIPNet (IPv4 172 16 0 0) (CIDRMask 12).

(** [net.IPMask.Size]: the ones and the bits of a mask, both 0 for a mask
    that is not a run of ones followed by zeros. *)
Definition maskSize (m : Z) : Z * Z :=
  match find (fun k => CIDRMask k =? m) (map Z.of_nat (seq 0 33)) with
  | Some k => (k, 32)
  | None => (0, 0)
  end.

Definition setBuiltin (s : Scope) (b : bool) : Scope :=
  mkScope (s_id s) (s_name s) (s_scopeType s) (s_subnet s) (s_gateway s) (s_dns s)
    (s_trustLevel s) (s_internal s) b (s_spaces s) (s_endpoints s)
    (s_aliases s) (s_network s) (s_annotations s).

Definition setScopeNetwork (s : Scope) (pg : option string) : Scope :=
  mkScope (s_id s) (s_name s) (s_scopeType s) (s_subnet s) (s_gateway s) (s_dns s)
    (s_trustLevel s) (s_internal s) (s_builtin s) (s_spaces s) (s_endpoints s)
    (s_aliases s) pg (s_annotations s).

Definition setDefaultScope (c : Context) (n : option string) : Context :=
  mkContext (config c) (defaultBridgePool c) (defaultBridgeMask c) (scopes c)
    (containers c) (aliases c) n (kv c).

(** The builtin scopes of the container networks other than the bridge
    network; [ids] are the identifiers that [uid.New] draws. *)
Fixpoint addContainerNetworks (c : Context) (ids : list string)
    (nets : list (string * ContainerNetwork)) : result Context :=
  match nets with
  | [] => Ok c
  | (nn, n) :: rest =>
      if String.eqb nn (BridgeNetwork (config c))
      then addContainerNetworks c ids rest
      else
        let gw := cn_Gateway n in
        let subnet := mkIPNet (Z.land (net_IP gw) (net_Mask gw)) (net_Mask gw) in
        let scopeData :=
          mkScopeData (cn_Type n) nn (Some subnet) (net_IP gw) (cn_Nameservers n)
            (cn_TrustLevel n) (map RangeString (cn_Pools n)) ∅ false in
        match Context_newScope c (default NilUID (head ids)) scopeData with
        | (c, Ok s) => addContainerNetworks (putScope c (setBuiltin s true)) (tail ids) rest
        | (_, Err e) => Err e
        | (_, Panic) => Panic
        end
  end.

(** The scopes saved in the store are loaded; one that does not load is
    skipped. *)
Fixpoint loadScopes (c : Context) (values : list (string * string)) : Context :=
  match values with
  | [] => c
  | (k, v) :: rest =>
      match UnmarshalJSON v with
      | None => loadScopes c rest
      | Some s =>
          let nn :=
            if String.eqb (s_scopeType s) BridgeScopeType then "bridge"%string
            else if String.eqb (s_scopeType s) ExternalScopeType then s_name s
            else ""%string in
          match PortGroups (config c) !! nn with
          | None => loadScopes c rest
          | Some pg => loadScopes (addScope c (setScopeNetwork s (Some pg))).1 rest
          end
      end
  end.

(** [NewContext] *)
Definition NewContext (config : Configuration) (kv : option KeyValueStore)
    (ids : list string) : result Context :=
  let bridgeRange :=
    match BridgeIPRange config with
    | Some r => if IsUnspecifiedIP (net_IP r) then DefaultBridgeRange else r
    | None => DefaultBridgeRange
    end in
  let bridgeWidth := default (CIDRMask 16) (BridgeNetworkWidth config) in
  let '(pones, pbits) := maskSize (net_Mask bridgeRange) in
  let '(mones, mbits) := maskSize bridgeWidth in
  if negb (pbits =? mbits) || (mones <? pones)
  then Err (Errorf "bridge mask is not compatible with bridge pool mask")
  else
    let ctx :=
      mkContext config (NewAddressSpaceFromNetwork bridgeRange) bridgeWidth
        ∅ ∅ ∅ None kv in
    match snd <$> find (fun kv => String.eqb kv.1 (BridgeNetwork config))
                    (ContainerNetworks config) with
    | None =>
        Err (Errorf ("default bridge network " +:+ BridgeNetwork config
                     +:+ " not present in config"))
    | Some n =>
        let scopeData :=
          mkScopeData (cn_Type n) (cn_Name n) None 0 [] Unspecified [] ∅ false in
        match Context_newScope ctx (default NilUID (head ids)) scopeData with
        | (_, Err e) => Err e
        | (_, Panic) => Panic
        | (ctx, Ok s) =>
            let ctx := setDefaultScope (putScope ctx (setBuiltin s true))
                         (Some (s_name s)) in
            match addContainerNetworks ctx (tail ids) (ContainerNetworks config) with
            | Err e => Err e
            | Panic => Panic
            | Ok ctx =>
                match kv with
                | Some store =>
                    if kv_fails store then Ok ctx
                    else Ok (loadScopes ctx
                               (filter (fun kv => MatchString "context\.scopes\..+" kv.1 = true)
                                  (map_to_list (kv_data store))))
                | None => Ok ctx
                end
            end
        end
    end.

End Construction.

(** ** A configuration to run the operations on *)

(** The PCI slots of the network cards: from [pciSlotNumberBegin] up to
    [pciSlotNumberEnd], in steps of [pciSlotNumberInc]. *)
Definition pciSlotNumberBegin : Z := 192.
Definition pciSlotNumberEnd : Z := Z.shiftl 1 10.
Definition pciSlotNumberInc : Z := Z.shiftl 1 5.

Definition pciSlots : list Z :=
  map (fun i => pciSlotNumberBegin + Z.of_nat i * pciSlotNumberInc)
    (seq 0 (Z.to_nat ((pciSlotNumberEnd - pciSlotNumberBegin) / pciSlotNumberInc))).

(** Collaborators for the runs below: every identifier that is not empty
    is valid, a short id is the first twelve characters, no port is
    declared, a scope is saved under its name, and a new network card gets
    the first PCI slot that no network of the handle has. *)
Definition testExternal : External := {|
  uid_Parse := fun s => s;
  uid_Truncate := fun s => substring 0 12 s;
  ParseRange := fun _ => None;
  ParsePortSpecs := fun l => match l with [] => Some [] | _ => None end;
  ParsePort := fun _ => None;
  MarshalJSON := fun s => Some (s_name s);
  Atoi := fun s => Z.of_int <$> NilZero.int_of_string s;
  Itoa := fun z => NilZero.string_of_int (Z.to_int z);
  RangeString := fun _ => ""%string;
  UnmarshalJSON := fun _ => None;
  MatchString := fun _ _ => false;
  addEthernetCard := fun h s =>
    let used :=
      map (fun kv => Z.of_int <$> NilZero.int_of_string (ne_ID kv.2)) (h_Networks h) in
    let slot :=
      default pciSlotNumberEnd
        (find (fun z => negb (bool_decide (Some z ∈ used))) pciSlots) in
    Ok (mkHandle (h_ID h) (h_Name h) (h_Networks h)
          (h_DeviceChange h ++ [AddDevice slot (default ""%string (s_network s))]),
        slot)
|}.

Definition bridgeNetwork : ContainerNetwork :=
  mkContainerNetwork "bridge" [] BridgeScopeType Unspecified [] (mkIPNet 0 0) [] false.

Definition testConfig : Configuration :=
  mkConfiguration None None "bridge" [("bridge"%string, bridgeNetwork)]
    (<["default" := "pg-default"]>
       (<["ext2" := "pg-ext2"]>
          (<["ext1" := "pg-ext1"]> {["bridge" := "pg-bridge"]})))%string
    [].

Definition workingStore : KeyValueStore := mkKeyValueStore ∅ false.
Definition failingStore : KeyValueStore := mkKeyValueStore ∅ true.

(** The context that [NewContext] builds from the configuration, or an
    empty context if it fails. *)
Definition contextOf (store : option KeyValueStore) : Context :=
  match @NewContext testExternal testConfig store ["b0"%string] with
  | Ok c => c
  | _ => mkContext testConfig (NewAddressSpaceFromNetwork DefaultBridgeRange) 0
           ∅ ∅ ∅ None store
  end.

(** The scope data of a scope of a type, with a name and a subnet. *)
Definition scopeDataOf (scopeType name : string) (subnet : option IPNet)
    (internal : bool) : ScopeData :=
  mkScopeData scopeType name subnet 0 [] Unspecified [] ∅ internal.

(** ** The states of the runs *)

Module Runs.

#[local] Existing Instance testExternal.

Definition net (a b c d ones : Z) : IPNet := mkIPNet (IPv4 a b c d) (CIDRMask ones).

Definition idA : string := "aaaaaaaaaaaaaaaaaaaaaaaa".
Definition idB : string := "bbbbbbbbbbbbbbbbbbbbbbbb".

Definition onScope (scope : string) (als ports : list string) : AddContainerOptions :=
  mkAddContainerOptions scope 0 als ports.

(** A bridge scope whose subnet is picked, created with a store that
    fails. *)
Definition c1_start : Context := contextOf (Some failingStore).
Definition c1_new : Context * result Scope :=
  NewScope c1_start "id1" (scopeDataOf BridgeScopeType "net1" None false).

(** Two external scopes, the subnet of the second containing the subnet
    of the first; and an external scope whose subnet contains the default
    bridge pool. *)
Definition c2_start : Context := contextOf None.
Definition c2_ext1 : Context * result Scope :=
  NewScope c2_start "id1"
    (scopeDataOf ExternalScopeType "ext1" (Some (net 10 1 0 0 16)) false).
Definition c2_ext2 : Context * result Scope :=
  NewScope c2_ext1.1 "id2"
    (scopeDataOf ExternalScopeType "ext2" (Some (net 10 0 0 0 8)) false).
Definition c2_wide : Context * result Scope :=
  NewScope c2_start "id1"
    (scopeDataOf ExternalScopeType "ext1" (Some (net 172 0 0 0 8)) false).

(** A handle declared on an external scope that is internal and on the
    bridge scope, bound in the one and in the other order of its
    networks. *)
Definition c3_ctx : Context :=
  (NewScope (contextOf None) "id1"
     (scopeDataOf ExternalScopeType "ext1" None true)).1.
Definition c3_handle : Handle :=
  (AddContainer c3_ctx
     (AddContainer c3_ctx (mkHandle idA "A" [] []) (onScope "ext1" [] [])).1
     (onScope "bridge" [] [])).1.
Definition c3_handle_rev : Handle :=
  setNetworks c3_handle (rev (h_Networks c3_handle)).
Definition defaults (h : Handle) : list (string * bool) :=
  map (fun kv => (kv.1, cn_Default (ne_Network kv.2))) (h_Networks h).

(** Container A, and container B with the alias "A:app", both on the
    default scope, bound in the one and in the other order; then B
    unbound. *)
Definition c4_ctx : Context := contextOf None.
Definition c4_hA : Handle :=
  (AddContainer c4_ctx (mkHandle idA "A" [] []) (onScope "default" [] [])).1.
Definition c4_hB : Handle :=
  (AddContainer c4_ctx (mkHandle idB "B" [] []) (onScope "default" ["A:app"%string] [])).1.
Definition c4_A : Context * Handle * result (list Endpoint) := BindContainer c4_ctx c4_hA.
Definition c4_AB : Context * Handle * result (list Endpoint) := BindContainer c4_A.1.1 c4_hB.
Definition c4_B : Context * Handle * result (list Endpoint) := BindContainer c4_ctx c4_hB.
Definition c4_BA : Context * Handle * result (list Endpoint) := BindContainer c4_B.1.1 c4_hA.
Definition c4_unbound : Context * Handle * result (list Endpoint) :=
  UnbindContainer c4_AB.1.1 c4_AB.1.2.

(** A handle that declares an external scope, and declares it again with
    a port mapping. *)
Definition c6_ctx : Context :=
  (NewScope (contextOf None) "id1"
     (scopeDataOf ExternalScopeType "ext1" None false)).1.
Definition c6_handle : Handle :=
  (AddContainer c6_ctx (mkHandle idA "A" [] []) (onScope "ext1" [] [])).1.

(** An external scope with the name "default" and a second external
    scope; a handle declared on the first by its id, then on the second. *)
Definition c7_ctx : Context :=
  (NewScope
     (NewScope (contextOf None) "idD"
        (scopeDataOf ExternalScopeType "default" None false)).1
     "idE" (scopeDataOf ExternalScopeType "ext2" None false)).1.
Definition c7_first : Handle * result unit :=
  AddContainer c7_ctx (mkHandle idA "A" [] []) (onScope "idD" [] []).
Definition c7_second : Handle * result unit :=
  AddContainer c7_ctx c7_first.1 (onScope "ext2" [] []).

(** A user scope of the bridge type, with no endpoint. *)
Definition c8_ctx : Context :=
  (NewScope (contextOf (Some workingStore)) "id1"
     (scopeDataOf BridgeScopeType "net1" None false)).1.

(** The same scope with a container bound on it. *)
Definition c8_bound : Context :=
  (BindContainer c8_ctx
     (AddContainer c8_ctx (mkHandle idA "A" [] []) (onScope "net1" [] [])).1).1.1.

(** The scope of a context under a name, or a scope without a name. *)
Definition scopeNamed (c : Context) (n : string) : Scope :=
  default (newScope "" "" None (scopeDataOf "" "" None false)) (scopes c !! n).

(** The endpoints that a bind or an unbind returns. *)
Definition endpointsOf (r : result (list Endpoint)) : list Endpoint :=
  match r with
  | Ok eps => eps
  | _ => []
  end.

(** Two containers with the same name, bound one after the other. *)
Definition c9_hX : Handle :=
  (AddContainer c4_ctx (mkHandle idA "web" [] []) (onScope "default" [] [])).1.
Definition c9_hY : Handle :=
  (AddContainer c4_ctx (mkHandle idB "web" [] []) (onScope "default" [] [])).1.
Definition c9_X : Context * Handle * result (list Endpoint) := BindContainer c4_ctx c9_hX.
Definition c9_XY : Context * Handle * result (list Endpoint) := BindContainer c9_X.1.1 c9_hY.

End Runs.

(** ** Predicates of the properties *)

Section Predicates.

Context `{!External}.

(** The keys under which [bindContainer] installs a container: the long
    id, the short id and the name. *)
Definition indexKeys (con : Container) : list string :=
  [con_id con; uid_Truncate (con_id con); con_name con].

(** The index of the containers agrees: a key is a key of the container
    under it, and all the keys of that container lead to it. *)
Definition agree (m : gmap string Container) : Prop :=
  map_Forall
    (fun k con => k ∈ indexKeys con ∧ Forall (fun k' => m !! k' = Some con) (indexKeys con))
    m.

Definition indexAgree (c : Context) : Prop := agree (containers c).

(** A bind or an unbind that succeeds; the short id and the name of a
    container that a bind adds to the index are keys that the index does
    not have. *)
Inductive indexStep : Context -> Context -> Prop :=
| step_bind (c : Context) (h : Handle) (c' : Context) (h' : Handle)
    (eps : list Endpoint) :
    BindContainer c h = (c', h', Ok eps) ->
    (containers c !! uid_Parse (h_ID h) = None ->
     containers c !! uid_Truncate (uid_Parse (h_ID h)) = None
     ∧ containers c !! h_Name h = None) ->
    indexStep c c'
| step_unbind (c : Context) (h : Handle) (c' : Context) (h' : Handle)
    (eps : list Endpoint) :
    UnbindContainer c h = (c', h', Ok eps) ->
    indexStep c c'.

(** A container is added to the list of an alias, once. *)
Definition addTo (v : string) (o : option (list string)) : option (list string) :=
  if bool_decide (v ∈ default [] o) then o else Some (default [] o ++ [v]).

(** The alias entry that the declaration "who:what" adds to an endpoint
    on the scope [sn]. *)
Definition entry (who what sn : string) : alias := mkAlias what who sn.

(** The aliases that every bind gives a container on a scope: the name
    and the short id, under the name of the scope. *)
Definition seedAliases (sn : string) (con : Container) : gmap string string :=
  <[sn +:+ ":" +:+ uid_Truncate (con_id con) := con_id con]>
    (<[sn +:+ ":" +:+ con_name con := con_id con]> ∅).

End Predicates.

(** ** Predicates of the invariants *)

(** The parts of a context other than its scopes. *)
Definition frame (c : Context) :=
  (config c, defaultBridgePool c, defaultBridgeMask c, containers c, aliases c,
   defaultScope c, kv c).

(** Every scope is in the map of the scopes under its own name. *)
Definition scopesKeyed (c : Context) : Prop :=
  map_Forall (fun k s => s_name s = k) (scopes c).

(** Two states of a scope with the same settings: they differ at most in
    the address spaces, the endpoints and the aliases. *)
Definition sameSettings (s s' : Scope) : Prop :=
  s_id s' = s_id s ∧ s_name s' = s_name s ∧ s_scopeType s' = s_scopeType s
  ∧ s_subnet s' = s_subnet s ∧ s_gateway s' = s_gateway s ∧ s_dns s' = s_dns s
  ∧ s_trustLevel s' = s_trustLevel s ∧ s_internal s' = s_internal s
  ∧ s_builtin s' = s_builtin s ∧ s_network s' = s_network s
  ∧ s_annotations s' = s_annotations s.

(** The two contexts have scopes under the same names, with the same
    settings. *)
Definition scopesStable (c c' : Context) : Prop :=
  ∀ k, option_Forall2 sameSettings (scopes c !! k) (scopes c' !! k).

(** Two states of a declaration of a handle that differ at most in what a
    bind writes back: the address, the gateway, the name servers and the
    mark of the default network. *)
Definition sameDeclaration (ne ne' : NetworkEndpoint) : Prop :=
  ne_ID ne' = ne_ID ne ∧ ne_Static ne' = ne_Static ne
  ∧ ne_Assigned_IP ne' = ne_Assigned_IP ne ∧ ne_Ports ne' = ne_Ports ne
  ∧ cn_Name (ne_Network ne') = cn_Name (ne_Network ne)
  ∧ cn_Aliases (ne_Network ne') = cn_Aliases (ne_Network ne)
  ∧ cn_Type (ne_Network ne') = cn_Type (ne_Network ne)
  ∧ cn_TrustLevel (ne_Network ne') = cn_TrustLevel (ne_Network ne)
  ∧ cn_Pools (ne_Network ne') = cn_Pools (ne_Network ne).

Definition sameDeclarations (nets nets' : list (string * NetworkEndpoint)) : Prop :=
  Forall2 (fun a b => a.1 = b.1 ∧ sameDeclaration a.2 b.2) nets nets'.


(** ** The states of the runs of the scopes and of the handles *)

Module Lifecycle.

Import Runs.

#[local] Existing Instance testExternal.

(** The value of a result, or a default. *)
Definition okOf {A : Type} (d : A) (r : result A) : A :=
  match r with
  | Ok x => x
  | _ => d
  end.

(** The gateway 10.1.0.1 is reserved on the subnet 10.1.0.0/16. *)
Definition gw_subnet : IPNet := net 10 1 0 0 16.
Definition gw_spaces : list AddressSpace := [NewAddressSpaceFromNetwork gw_subnet].
Definition gw_run : IP * list AddressSpace :=
  okOf (0, []) (reserveGateway (IPv4 10 1 0 1) (Some gw_subnet) gw_spaces).

(** A configuration with an external container network beside the bridge
    network, and the context built from it. *)
Definition extNetwork : ContainerNetwork :=
  mkContainerNetwork "ext1" [] ExternalScopeType Unspecified [] (net 10 2 0 1 16) []
    false.

(** The scope net1 of the bridge type, created with a store that works,
    and the same context with a store that fails. *)
Definition net1_data : ScopeData := scopeDataOf BridgeScopeType "net1" None false.
Definition net1_start : Context := contextOf (Some workingStore).
Definition net1_store : KeyValueStore := default workingStore (kv c8_ctx).
Definition net1_deleted : Context := (DeleteScope c8_ctx "net1").1.
Definition net1_failing : Context := setKV c8_ctx (Some failingStore).

(** A handle that declares a network that is not a scope. *)
Definition lost_handle : Handle :=
  mkHandle idA "A"
    [("nonet"%string,
      mkNetworkEndpoint ""
        (mkContainerNetwork "nonet" [] BridgeScopeType Unspecified [] (mkIPNet 0 0) []
           false)
        false None 0 [])] [].
Definition lost_bind : Context * Handle * result (list Endpoint) :=
  BindContainer c4_ctx lost_handle.

(** Container A is bound on the default scope, and unbound. *)
Definition a_unbound : Context * Handle * result (list Endpoint) :=
  UnbindContainer c4_A.1.1 c4_A.1.2.

(** A handle declared on the default scope, then on the scope net1. *)
Definition card_first : Handle :=
  (AddContainer c8_ctx (mkHandle idA "A" [] []) (onScope "default" [] [])).1.
Definition card_second : Handle :=
  (AddContainer c8_ctx card_first (onScope "net1" [] [])).1.

(** The removal of the card of a scope, which succeeds. *)
Definition removeCard (s : Scope) : result (list DeviceChange) :=
  Ok [RemoveDevice (default ""%string (s_network s))].
Definition a_removed : Handle * result unit :=
  RemoveContainer removeCard c4_ctx c4_hA "default".


(** The external scopes ext1 and ext2, and a handle that declares ext1. *)
Definition ext_ctx : Context :=
  (NewScope c6_ctx "id2" (scopeDataOf ExternalScopeType "ext2" None false)).1.

Definition ext1_declaration : NetworkEndpoint :=
  default (mkNetworkEndpoint "" extNetwork false None 0 [])
    (lookupNet (h_Networks c6_handle) "ext1").

End Lifecycle.

(** * Properties *)

(** ** Lookups *)

Section Lookups.

Context `{!External}.

Lemma container_found (c : Context) (h : Handle) (con : Container) :
  uid_Parse (h_ID h) ≠ NilUID →
  containers c !! uid_Parse (h_ID h) = Some con →
  container c h = Ok con.
Proof.
  intros Hid Hcon. unfold container.
  destruct (String.eqb_spec (uid_Parse (h_ID h)) NilUID) as [Heq | _]; [done |].
  by rewrite Hcon.
Qed.

Lemma container_not_found (c : Context) (h : Handle) :
  uid_Parse (h_ID h) ≠ NilUID →
  containers c !! uid_Parse (h_ID h) = None →
  container c h
  = Err (ResourceNotFoundError ("container " +:+ uid_Parse (h_ID h) +:+ " not found")).
Proof.
  intros Hid Hcon. unfold container.
  destruct (String.eqb_spec (uid_Parse (h_ID h)) NilUID) as [Heq | _]; [done |].
  by rewrite Hcon.
Qed.

(** C5.  [BindContainer] for a container that is in the index under its
    long id returns the endpoints of that container and leaves the context
    and the handle as they are; [UnbindContainer] for a container that is
    not in the index returns no endpoint and no error, and changes
    nothing. *)
Theorem bind_unbind_idempotent (c : Context) (h : Handle) :
  uid_Parse (h_ID h) ≠ NilUID →
  (∀ con, containers c !! uid_Parse (h_ID h) = Some con →
          BindContainer c h = (c, h, Ok (Container_Endpoints c con)))
  ∧ (containers c !! uid_Parse (h_ID h) = None →
     UnbindContainer c h = (c, h, Ok [])).
Proof.
  intros Hid. split.
  - intros con Hcon. unfold BindContainer, bindContainer.
    by rewrite (container_found c h con Hid Hcon).
  - intros Hcon. unfold UnbindContainer.
    by rewrite (container_not_found c h Hid Hcon).
Qed.

(** C10.  [Container] gives nil for a key that is none of the index forms
    of a container of the index, [ContainersByAlias] gives nil for an alias
    that is not registered, and both leave the context as it is. *)
Theorem lookups_read_only (c : Context) (key : string) :
  (Context_Container c key).1 = c
  ∧ (ContainersByAlias c key).1 = c
  ∧ (map_Forall (fun k con => k ∈ indexKeys con) (containers c) →
     map_Forall (fun _ con => key ∉ indexKeys con) (containers c) →
     (Context_Container c key).2 = None)
  ∧ (aliases c !! key = None → (ContainersByAlias c key).2 = None).
Proof.
  repeat split; [| done].
  intros Hkeys Hnone. simpl.
  destruct (containers c !! key) as [con |] eqn:Hkey; [| done].
  exfalso. by apply (Hnone key con Hkey), Hkeys.
Qed.

End Lookups.

(** ** Deletion of a scope *)

Section Deletion.

Context `{!External}.

Lemma scopes_deleteScope (c : Context) (s : Scope) :
  scopes (deleteScope c s) = delete (s_name s) (scopes c).
Proof. unfold deleteScope. by destruct (String.eqb _ _). Qed.

(** C8.  [DeleteScope] fails and leaves the context, with its scopes and
    its store, as it is when the scope resolved is builtin or has
    endpoints; a scope that it removes is not builtin and has no
    endpoint. *)
Theorem DeleteScope_guards (c : Context) (name : string) (s : Scope) :
  resolveScope c name = Ok (Some s) →
  (s_builtin s = true →
   DeleteScope c name = (c, Err (Errorf "cannot remove builtin scope")))
  ∧ (s_builtin s = false → s_endpoints s ≠ [] →
     DeleteScope c name = (c, Err (Errorf (s_name s +:+ " has active endpoints"))))
  ∧ (∀ c', DeleteScope c name = (c', Ok tt) →
           s_builtin s = false ∧ s_endpoints s = []
           ∧ scopes c' = delete (s_name s) (scopes c)).
Proof.
  intros Hres. unfold DeleteScope. rewrite Hres. split_and!.
  - by intros ->.
  - intros -> Heps. by destruct (s_endpoints s).
  - intros c' Hdel. destruct (s_builtin s); [done |].
    destruct (s_endpoints s); [| done]. simpl in Hdel.
    split_and!; [done | done |].
    destruct (kv c) as [store |].
    + destruct (kv_Delete store (scopeKey (s_name s))) as [store' | e |].
      * injection Hdel as <-. by rewrite scopes_deleteScope.
      * destruct e; try done. injection Hdel as <-. by rewrite scopes_deleteScope.
      * done.
    + injection Hdel as <-. by rewrite scopes_deleteScope.
Qed.

End Deletion.

(** ** Staging of ports on an external scope *)

Section Ports.

Context `{!External}.

Lemma checkPortMapping_colon (ports : list string) :
  (∃ p, p ∈ ports ∧ containsColon p = true) →
  ∃ p, p ∈ ports ∧ containsColon p = true
       ∧ checkPortMapping ports
         = Err (Errorf ("external scope includes a port mapping (" +:+ p +:+ ")")).
Proof.
  induction ports as [| q ports IH]; intros (p & Hin & Hp).
  - by apply elem_of_nil in Hin.
  - simpl. destruct (containsColon q) eqn:Hq.
    + exists q. split; [left | done].
    + apply elem_of_cons in Hin as [-> | Hin]; [congruence |].
      destruct IH as (p' & Hin' & Hp' & Hr); [by exists p |].
      exists p'. split; [by right | done].
Qed.

Lemma checkPortMapping_result (ports : list string) :
  checkPortMapping ports = Ok tt
  ∨ ∃ p, p ∈ ports ∧ containsColon p = true
         ∧ checkPortMapping ports
           = Err (Errorf ("external scope includes a port mapping (" +:+ p +:+ ")")).
Proof.
  induction ports as [| q ports IH]; simpl; [by left |].
  destruct (containsColon q) eqn:Hq.
  - right. exists q. split; [left | done].
  - destruct IH as [-> | (p & Hin & Hp & ->)]; [by left |].
    right. exists p. split; [by right | done].
Qed.

(** C6, amended.  On an external scope that the handle does not declare
    yet, [AddContainer] fails when a port contains a colon, and when a
    port is given and the trust level of the scope is closed; the handle
    is returned as it was.  When the networks of the handle pass the check
    of the external scopes, the error is the one of the port mapping,
    or else the one of the closed firewall. *)
Theorem AddContainer_external_ports_rejected (c : Context) (h : Handle)
    (options : AddContainerOptions) (s : Scope) :
  resolveScope c (opt_Scope options) = Ok (Some s) →
  s_scopeType s = ExternalScopeType →
  lookupNet (h_Networks h) (s_name s) = None →
  (∃ p, p ∈ opt_Ports options ∧ containsColon p = true)
  ∨ (opt_Ports options ≠ [] ∧ s_trustLevel s = Closed) →
  ∃ r, AddContainer c h options = (h, r) ∧ isOk r = false
       ∧ (checkExternal c (map fst (h_Networks h)) = Ok tt →
          (∃ p, p ∈ opt_Ports options ∧ containsColon p = true
                ∧ r = Err (Errorf ("external scope includes a port mapping ("
                                   +:+ p +:+ ")")))
          ∨ r = Err (Errorf closedFirewallMessage)).
Proof.
  intros Hres Htype Hnew Hports. unfold AddContainer.
  rewrite Hres, Hnew, Htype. rewrite String.eqb_refl. simpl.
  destruct (checkExternal c (map fst (h_Networks h))) as [[] | e |]; simpl;
    [| by eexists | by eexists].
  destruct (checkPortMapping_result (opt_Ports options))
    as [Hok | (p & Hin & Hp & ->)]; simpl.
  - destruct Hports as [Hcolon | [Hne Hclosed]].
    + destruct (checkPortMapping_colon _ Hcolon) as (p & _ & _ & Herr). congruence.
    + rewrite Hok. simpl. rewrite Hclosed, bool_decide_eq_true_2 by done.
      destruct (opt_Ports options) as [| q ports]; [done |]. simpl.
      eexists. repeat split. intros _. by right.
  - eexists. repeat split. intros _. left. by exists p.
Qed.

End Ports.

(** ** The checks of overlap and of the external scopes *)

Section Checks.

Context `{!External}.


(** When every network of a handle resolves to a scope and one of them to
    an external scope, the check of [AddContainer] for a second external
    scope gives its error. *)
Lemma checkExternal_rejects (c : Context) (names : list string) :
  Forall (fun name => ∃ sc, resolveScope c name = Ok (Some sc)) names →
  Exists (fun name => ∃ sc, resolveScope c name = Ok (Some sc)
                            ∧ s_scopeType sc = ExternalScopeType) names →
  checkExternal c names
  = Err (Errorf "container can only be added to at most one mapped network").
Proof.
  induction names as [| name names IH]; intros Hall Hex.
  - by apply Exists_nil in Hex.
  - apply Forall_cons in Hall as [[sc Hsc] Hall]. simpl. rewrite Hsc.
    destruct (String.eqb_spec (s_scopeType sc) ExternalScopeType) as [Heq | Hne];
      [done |].
    apply Exists_cons in Hex as [(sc' & Hsc' & Hext) | Hex]; [congruence |].
    by apply IH.
Qed.

End Checks.

(** ** Creation of a scope when the store fails *)

Section Rollback.

Context `{!External}.

Lemma pool_deleteScope (c : Context) (s : Scope) :
  defaultBridgePool (deleteScope c s) = defaultBridgePool c.
Proof. unfold deleteScope. by destruct (String.eqb _ _). Qed.

(** When the store fails to save a scope that [newScope] created,
    [NewScope] returns the error of the store and deletes the scope from
    [scopes]; the default bridge pool stays as [newScope] left it. *)
Lemma NewScope_put_failure (c c1 : Context) (id : string) (d : ScopeData)
    (s : Scope) (store : KeyValueStore) (bytes : string) :
  Context_newScope c id d = (c1, Ok s) →
  kv c1 = Some store → kv_fails store = true → MarshalJSON s = Some bytes →
  NewScope c id d = (deleteScope c1 s, Err ErrKVStore)
  ∧ scopes (deleteScope c1 s) !! s_name s = None
  ∧ defaultBridgePool (deleteScope c1 s) = defaultBridgePool c1.
Proof.
  intros Hnew Hkv Hfails Hbytes. unfold NewScope.
  rewrite Hnew, Hkv, Hbytes. unfold kv_Put. rewrite Hfails.
  split; [done |]. split; [| apply pool_deleteScope].
  rewrite scopes_deleteScope. apply lookup_delete_eq.
Qed.

End Rollback.

Module RunFacts.

Import Runs.

#[local] Existing Instance testExternal.

(** C1, at a bridge scope whose subnet is picked from the default bridge
    pool, with a store that fails: [NewScope] returns the error, the scope
    is not in [scopes] and its gateway is not on the bridge link, but the
    subnet 172.17.0.0/16 carved for it stays reserved in the default
    bridge pool. *)
Theorem NewScope_failed_put_keeps_subnet :
  c1_new.2 = Err ErrKVStore
  ∧ scopes c1_new.1 !! "net1" = None
  ∧ BridgeLink (config c1_new.1) = BridgeLink (config c1_start)
  ∧ reserved (defaultBridgePool c1_start) = [netRange (net 172 16 0 0 16)]
  ∧ reserved (defaultBridgePool c1_new.1)
    = [netRange (net 172 17 0 0 16); netRange (net 172 16 0 0 16)].
Proof. vm_compute. done. Qed.

(** C2, at two external scopes: the scope ext2 on 10.0.0.0/8 is created
    while the scope ext1 on 10.1.0.0/16 exists, and 10.1.0.5 lies in both
    subnets; and an external scope on 172.0.0.0/8, which contains the
    default bridge pool 172.16.0.0/12, is created. *)
Theorem overlapping_subnets_accepted :
  isOk c2_ext1.2 = true ∧ isOk c2_ext2.2 = true
  ∧ s_subnet <$> scopes c2_ext2.1 !! "ext1" = Some (Some (net 10 1 0 0 16))
  ∧ s_subnet <$> scopes c2_ext2.1 !! "ext2" = Some (Some (net 10 0 0 0 8))
  ∧ Contains (net 10 1 0 0 16) (IPv4 10 1 0 5) = true
  ∧ Contains (net 10 0 0 0 8) (IPv4 10 1 0 5) = true
  ∧ isOk c2_wide.2 = true
  ∧ s_subnet <$> scopes c2_wide.1 !! "ext1" = Some (Some (net 172 0 0 0 8))
  ∧ Network (defaultBridgePool c2_start) = Some (net 172 16 0 0 12)
  ∧ Contains (net 172 0 0 0 8) (IPv4 172 16 0 1) = true
  ∧ Contains (net 172 16 0 0 12) (IPv4 172 16 0 1) = true.
Proof. vm_compute. done. Qed.

(** C3, at a handle declared on an external scope that is internal and on
    the bridge scope, which is not internal: whichever network the loop
    takes first, the bind succeeds and marks no network as default. *)
Theorem no_default_network_marked :
  s_internal <$> scopes c3_ctx !! "bridge" = Some false
  ∧ map fst (h_Networks c3_handle) = ["ext1"; "bridge"]%string
  ∧ isOk (BindContainer c3_ctx c3_handle).2 = true
  ∧ defaults (BindContainer c3_ctx c3_handle).1.2
    = [("ext1", false); ("bridge", false)]%string
  ∧ isOk (BindContainer c3_ctx c3_handle_rev).2 = true
  ∧ defaults (BindContainer c3_ctx c3_handle_rev).1.2
    = [("bridge", false); ("ext1", false)]%string.
Proof. vm_compute. done. Qed.

(** C7, at an external scope with the name "default": a handle declared
    on it is declared on a second external scope without an error, and
    then has two external networks. *)
Theorem two_external_scopes_declared :
  s_scopeType <$> scopes c7_ctx !! "default" = Some ExternalScopeType
  ∧ s_scopeType <$> scopes c7_ctx !! "ext2" = Some ExternalScopeType
  ∧ c7_first.2 = Ok tt ∧ c7_second.2 = Ok tt
  ∧ map (fun kv => (kv.1, cn_Type (ne_Network kv.2))) (h_Networks c7_second.1)
    = [("default", ExternalScopeType); ("ext2", ExternalScopeType)]%string.
Proof. vm_compute. done. Qed.

(** C4 as stated fails: after A and then B with the alias "A:app" are
    bound on the default scope, whose name is bridge, the containers under
    "bridge:A.app" are A alone, and B is not among them. *)
Lemma alias_names_aliased_container :
  isOk c4_A.2 = true ∧ isOk c4_AB.2 = true
  ∧ (ContainersByAlias c4_AB.1.1 "bridge:A.app").2 = Some [idA]
  ∧ ¬ (∃ cs, (ContainersByAlias c4_AB.1.1 "bridge:A.app").2 = Some cs ∧ idB ∈ cs).
Proof.
  assert (H : (ContainersByAlias c4_AB.1.1 "bridge:A.app").2 = Some [idA])
    by (vm_compute; done).
  split_and!; [vm_compute; done .. | done |].
  intros (cs & Hcs & Hin). rewrite H in Hcs. injection Hcs as <-.
  apply list_elem_of_singleton in Hin. discriminate Hin.
Qed.

(** After B is unbound in that state, the alias "bridge:A.app" is in the
    index still, with A under it: [UnbindContainer] takes out of the list
    of an alias the container that it unbinds, which is B. *)
Lemma alias_survives_unbind :
  isOk c4_unbound.2 = true
  ∧ containers c4_unbound.1.1 !! idB = None
  ∧ aliases c4_unbound.1.1 !! "bridge:A.app" = Some [idA].
Proof. vm_compute. done. Qed.

(** C6 as stated fails: on an external scope that the handle declares
    already, [AddContainer] with a port mapping returns no error. *)
Lemma declared_scope_accepts_port_mapping :
  s_scopeType <$> scopes c6_ctx !! "ext1" = Some ExternalScopeType
  ∧ containsColon "8080:80" = true
  ∧ AddContainer c6_ctx c6_handle (onScope "ext1" [] ["8080:80"%string])
    = (c6_handle, Ok tt).
Proof. vm_compute. done. Qed.

(** C9 as stated fails: two containers with the name web are bound one
    after the other; the long id of the first maps to the first, and the
    name of the first to the second. *)
Lemma shared_name_breaks_index :
  isOk c9_X.2 = true ∧ isOk c9_XY.2 = true
  ∧ con_id <$> containers c9_XY.1.1 !! idA = Some idA
  ∧ con_name <$> containers c9_XY.1.1 !! idA = Some "web"%string
  ∧ con_id <$> containers c9_XY.1.1 !! "web" = Some idB
  ∧ ¬ (∃ con, ∀ k, k ∈ indexKeys (mkContainer idA "web" [])
                   → containers c9_XY.1.1 !! k = Some con).
Proof.
  assert (H1 : con_id <$> containers c9_XY.1.1 !! idA = Some idA) by (vm_compute; done).
  assert (H2 : con_id <$> containers c9_XY.1.1 !! "web" = Some idB) by (vm_compute; done).
  split_and!; [vm_compute; done | vm_compute; done | done | vm_compute; done | done |].
  intros (con & Hcon).
  rewrite (Hcon idA) in H1 by (left).
  rewrite (Hcon "web"%string) in H2 by (right; right; left).
  simpl in H1, H2. rewrite H1 in H2. discriminate H2.
Qed.

End RunFacts.

(** ** The index of the containers *)

Section Index.

Context `{!External}.

Lemma containers_putScope (c : Context) (s : Scope) :
  containers (putScope c s) = containers c.
Proof. done. Qed.

Lemma containers_putEndpoint (c : Context) (e : Endpoint) :
  containers (putEndpoint c e) = containers c.
Proof. unfold putEndpoint. by destruct (scopes c !! ep_scope e). Qed.

Lemma Scope_AddContainer_con (s : Scope) (con : Container) (e : Endpoint)
    (s1 : Scope) (con1 : Container) (e1 : Endpoint) :
  Scope_AddContainer s con e = Ok (s1, con1, e1) →
  con_id con1 = con_id con ∧ con_name con1 = con_name con.
Proof.
  unfold Scope_AddContainer.
  destruct (isDynamic s); [by intros [= <- <- <-] |].
  destruct (IsUnspecifiedIP (ep_ip e)).
  - destruct (reserveNextIn (s_spaces s)) as [[spaces a] |]; [| done].
    by intros [= <- <- <-].
  - destruct (reserveIn (s_spaces s) (ep_ip e)); [| done]. by intros [= <- <- <-].
Qed.

Lemma bindRound_containers (st st' : bindState) (k : string)
    (ne ne' : NetworkEndpoint) (c' : Context) :
  bindRound st k ne = (c', ne', Ok st') →
  containers (bs_ctx st') = containers (bs_ctx st)
  ∧ con_id (bs_con st') = con_id (bs_con st)
  ∧ con_name (bs_con st') = con_name (bs_con st).
Proof.
  unfold bindRound.
  destruct (scopes (bs_ctx st) !! cn_Name (ne_Network ne)) as [s |]; [| done].
  match goal with
  | |- context [?x ≫= ?f] => destruct (x ≫= f) as [[[s1 con1] e1] | |] eqn:Hadd
  end; [| done | done].
  assert (Hcon : con_id con1 = con_id (bs_con st) ∧ con_name con1 = con_name (bs_con st)).
  { destruct (ne_Static ne); [destruct (ne_IP ne); [| done] |];
      [| destruct (negb (IsUnspecifiedIP (ne_Assigned_IP ne)))];
      by apply Scope_AddContainer_con in Hadd. }
  destruct (ParsePortSpecs (ne_Ports ne)) as [ports |]; [| done].
  destruct (addPorts e1 ports) as [e2 [err |]]; [done |].
  match goal with
  | |- context [addAliases ?a ?b ?c ?d ?e] =>
      destruct (addAliases a b c d e) as [[e3 als] [err |]]
  end; [done |].
  intros [= <- <- <-]. simpl.
  by rewrite !containers_putEndpoint, containers_putScope.
Qed.

Lemma bindLoop_containers (todo : list (string * NetworkEndpoint)) :
  ∀ (st st' : bindState) (c' : Context) (nets : list (string * NetworkEndpoint)),
    bindLoop st todo = (c', nets, Ok st') →
    containers (bs_ctx st') = containers (bs_ctx st)
    ∧ con_id (bs_con st') = con_id (bs_con st)
    ∧ con_name (bs_con st') = con_name (bs_con st).
Proof.
  induction todo as [| [k ne] rest IH]; intros st st' c' nets Hloop; simpl in Hloop.
  - by injection Hloop as <- <- <-.
  - destruct (bindRound st k ne) as [[c1 ne1] [st1 | e |]] eqn:Hround; [| done | done].
    apply bindRound_containers in Hround as (Hc & Hid & Hname).
    apply IH in Hloop as (Hc' & Hid' & Hname'). by rewrite Hc', Hid', Hname'.
Qed.

(** A bind that adds a container installs it under its three keys. *)
Lemma bind_installs (c c' : Context) (h h' : Handle) (eps : list Endpoint) :
  uid_Parse (h_ID h) ≠ NilUID →
  containers c !! uid_Parse (h_ID h) = None →
  BindContainer c h = (c', h', Ok eps) →
  ∃ con, con_id con = uid_Parse (h_ID h) ∧ con_name con = h_Name h
         ∧ containers c'
           = <[con_name con := con]>
               (<[uid_Truncate (con_id con) := con]>
                  (<[con_id con := con]> (containers c))).
Proof.
  intros Hid Hnone. unfold BindContainer, bindContainer.
  rewrite (container_not_found c h Hid Hnone). simpl.
  destruct (bindLoop _ _) as [[c1 nets] [st | e |]] eqn:Hloop; [| done | done].
  apply bindLoop_containers in Hloop as (Hc & Hcid & Hname). simpl in *.
  intros [= <- <- <-]. exists (bs_con st). simpl. by rewrite Hc.
Qed.

Lemma unbindLoop_containers (todo : list (string * NetworkEndpoint)) :
  ∀ (c c' : Context) (con : Container) (done nets : list (string * NetworkEndpoint))
    (als als' : list string) (eps eps' : list Endpoint),
    unbindLoop c con done als eps todo = (c', nets, Ok (als', eps')) →
    containers c' = containers c.
Proof.
  induction todo as [| [k ne] rest IH]; intros c c' con dn nets als als' eps eps' Hloop;
    simpl in Hloop.
  - by injection Hloop as <- <- <- <-.
  - destruct (scopes c !! cn_Name (ne_Network ne)) as [s |]; [| done].
    destruct (Container_Endpoint con s) as [e |]; [| done].
    destruct (Scope_RemoveContainer s con) as [s' | e' |]; [| done | done].
    by apply IH in Hloop.
Qed.

(** An unbind of a container of the index deletes its three keys. *)
Lemma unbind_deletes (c c' : Context) (h h' : Handle) (con : Container)
    (eps : list Endpoint) :
  uid_Parse (h_ID h) ≠ NilUID →
  containers c !! uid_Parse (h_ID h) = Some con →
  UnbindContainer c h = (c', h', Ok eps) →
  containers c'
  = delete (con_name con)
      (delete (uid_Truncate (con_id con)) (delete (con_id con) (containers c))).
Proof.
  intros Hid Hcon. unfold UnbindContainer.
  rewrite (container_found c h con Hid Hcon).
  destruct (unbindLoop _ _ _ _ _ _) as [[c1 nets] [[als eps1] | e |]] eqn:Hloop;
    [| done | done].
  apply unbindLoop_containers in Hloop. intros [= <- <- <-]. simpl. by rewrite Hloop.
Qed.

Lemma lookup_installed (m : gmap string Container) (con : Container) (k : string) :
  k ∈ indexKeys con →
  <[con_name con := con]>
    (<[uid_Truncate (con_id con) := con]> (<[con_id con := con]> m)) !! k
  = Some con.
Proof.
  intros Hk. rewrite !lookup_insert. repeat case_decide; try done.
  unfold indexKeys in Hk.
  repeat (apply elem_of_cons in Hk as [Hk | Hk]; [congruence |]).
  by apply elem_of_nil in Hk.
Qed.

Lemma lookup_installed_other (m : gmap string Container) (con : Container) (k : string) :
  k ∉ indexKeys con →
  <[con_name con := con]>
    (<[uid_Truncate (con_id con) := con]> (<[con_id con := con]> m)) !! k
  = m !! k.
Proof.
  intros Hk. unfold indexKeys in Hk.
  rewrite !lookup_insert_ne; [done | intros <-; apply Hk; repeat constructor ..].
Qed.

Lemma agree_install (m : gmap string Container) (con : Container) :
  agree m →
  Forall (fun k => m !! k = None) (indexKeys con) →
  agree (<[con_name con := con]>
           (<[uid_Truncate (con_id con) := con]> (<[con_id con := con]> m))).
Proof.
  intros Hm Hfresh k con' Hk. rewrite Forall_forall in Hfresh.
  destruct (decide (k ∈ indexKeys con)) as [Hin | Hout].
  - rewrite lookup_installed in Hk by done. injection Hk as <-.
    split; [done |]. apply Forall_forall. intros k' Hk'. by apply lookup_installed.
  - rewrite lookup_installed_other in Hk by done.
    destruct (Hm k con' Hk) as [Hkey Hall]. split; [done |].
    rewrite Forall_forall in Hall. apply Forall_forall. intros k' Hk'.
    rewrite lookup_installed_other; [by apply Hall |].
    intros Hin. specialize (Hfresh k' Hin). specialize (Hall k' Hk'). congruence.
Qed.

Lemma lookup_deleted (m : gmap string Container) (con : Container) (k : string) :
  k ∈ indexKeys con →
  delete (con_name con)
    (delete (uid_Truncate (con_id con)) (delete (con_id con) m)) !! k = None.
Proof.
  intros Hk. rewrite !lookup_delete. repeat case_decide; try done.
  unfold indexKeys in Hk.
  repeat (apply elem_of_cons in Hk as [Hk | Hk]; [congruence |]).
  by apply elem_of_nil in Hk.
Qed.

Lemma lookup_deleted_other (m : gmap string Container) (con : Container) (k : string) :
  k ∉ indexKeys con →
  delete (con_name con)
    (delete (uid_Truncate (con_id con)) (delete (con_id con) m)) !! k = m !! k.
Proof.
  intros Hk. unfold indexKeys in Hk.
  rewrite !lookup_delete_ne; [done | intros <-; apply Hk; repeat constructor ..].
Qed.

Lemma agree_delete (m : gmap string Container) (con : Container) (k0 : string) :
  agree m → m !! k0 = Some con →
  agree (delete (con_name con)
           (delete (uid_Truncate (con_id con)) (delete (con_id con) m))).
Proof.
  intros Hm Hcon k con' Hk.
  destruct (decide (k ∈ indexKeys con)) as [Hin | Hout].
  - by rewrite lookup_deleted in Hk.
  - rewrite lookup_deleted_other in Hk by done.
    destruct (Hm k con' Hk) as [Hkey Hall]. split; [done |].
    rewrite Forall_forall in Hall. apply Forall_forall. intros k' Hk'.
    rewrite lookup_deleted_other; [by apply Hall |].
    intros Hin. destruct (Hm k0 con Hcon) as [_ Hall0].
    rewrite Forall_forall in Hall0.
    specialize (Hall0 k' Hin). specialize (Hall k' Hk').
    assert (con' = con) as -> by congruence. done.
Qed.

Lemma indexStep_agree (c c' : Context) :
  indexStep c c' → indexAgree c → indexAgree c'.
Proof.
  unfold indexAgree.
  intros [c0 h c0' h' eps Hbind Hfresh | c0 h c0' h' eps Hunbind] Hm.
  - destruct (String.eqb_spec (uid_Parse (h_ID h)) NilUID) as [Hnil | Hid].
    { unfold BindContainer, bindContainer, container in Hbind.
      rewrite Hnil in Hbind. simpl in Hbind. done. }
    destruct (containers c0 !! uid_Parse (h_ID h)) as [con |] eqn:Hcon.
    + unfold BindContainer, bindContainer in Hbind.
      rewrite (container_found c0 h con Hid Hcon) in Hbind.
      by injection Hbind as <- <- <-.
    + destruct (Hfresh eq_refl) as [Hshort Hname].
      destruct (bind_installs c0 c0' h h' eps Hid Hcon Hbind)
        as (con & Hcid & Hcname & ->).
      apply agree_install; [done |].
      unfold indexKeys. rewrite Hcid, Hcname. by repeat constructor.
  - destruct (String.eqb_spec (uid_Parse (h_ID h)) NilUID) as [Hnil | Hid].
    { unfold UnbindContainer, container in Hunbind.
      rewrite Hnil in Hunbind. simpl in Hunbind. done. }
    destruct (containers c0 !! uid_Parse (h_ID h)) as [con |] eqn:Hcon.
    + rewrite (unbind_deletes c0 c0' h h' con eps Hid Hcon Hunbind).
      by apply (agree_delete _ _ (uid_Parse (h_ID h))).
    + unfold UnbindContainer in Hunbind.
      rewrite (container_not_found c0 h Hid Hcon) in Hunbind.
      by injection Hunbind as <- <- <-.
Qed.

(** C9, amended.  A [BindContainer] that succeeds for a container that
    was not in the index leaves the container under its long id, its short
    id and its name, all three leading to the same container; an
    [UnbindContainer] that succeeds for a container of the index leaves
    none of its three keys; and the index agrees after every sequence of
    binds and unbinds that succeed, if it agreed before and no bind adds a
    container whose short id or name is a key of the index already. *)
Theorem index_agreement (c c' : Context) (h h' : Handle) (eps : list Endpoint) :
  uid_Parse (h_ID h) ≠ NilUID →
  (containers c !! uid_Parse (h_ID h) = None →
   BindContainer c h = (c', h', Ok eps) →
   ∃ con, con_id con = uid_Parse (h_ID h) ∧ con_name con = h_Name h
          ∧ Forall (fun k => containers c' !! k = Some con) (indexKeys con))
  ∧ (∀ con, containers c !! uid_Parse (h_ID h) = Some con →
            UnbindContainer c h = (c', h', Ok eps) →
            Forall (fun k => containers c' !! k = None) (indexKeys con))
  ∧ (indexAgree c → rtc indexStep c c' → indexAgree c').
Proof.
  intros Hid. split_and!.
  - intros Hnone Hbind.
    destruct (bind_installs c c' h h' eps Hid Hnone Hbind) as (con & Hcid & Hname & ->).
    exists con. split_and!; [done | done |].
    apply Forall_forall. intros k Hk. by apply lookup_installed.
  - intros con Hcon Hunbind.
    rewrite (unbind_deletes c c' h h' con eps Hid Hcon Hunbind).
    apply Forall_forall. intros k Hk. by apply lookup_deleted.
  - intros Hm Hsteps. induction Hsteps as [| c0 c1 c2 Hstep _ IH]; [done |].
    apply IH. by apply (indexStep_agree c0 c1).
Qed.

End Index.

(** ** The aliases of two containers *)

Section Aliases.
Context `{!External}.

Lemma addTo_idemp v o : addTo v (addTo v o) = addTo v o.
Proof.
  unfold addTo. destruct (bool_decide (v ∈ default [] o)) eqn:Hin.
  - by rewrite Hin.
  - simpl. rewrite bool_decide_eq_true_2; [done |].
    apply elem_of_app. right. by apply list_elem_of_singleton.
Qed.

Lemma install_fold_lookup (l : list (string * string)) :
  ∀ (m : gmap string (list string)) (k : string),
    NoDup l.*1 →
    fold_left
      (fun m kv =>
         let cs := default [] (m !! kv.1) in
         if bool_decide (kv.2 ∈ cs) then m else <[kv.1 := cs ++ [kv.2]]> m)
      l m !! k
    = match (list_to_map l : gmap string string) !! k with
      | Some v => addTo v (m !! k)
      | None => m !! k
      end.
Proof.
  induction l as [| [k0 v0] l IH]; intros m k Hnd; simpl; [done |].
  apply NoDup_cons in Hnd as [Hk0 Hnd]. rewrite IH by done.
  rewrite lookup_insert. case_decide as Hk.
  - subst k0. rewrite (not_elem_of_list_to_map_1 _ _ Hk0).
    unfold addTo. case_bool_decide; [done |]. by rewrite lookup_insert_eq.
  - destruct (list_to_map l !! k) as [v |] eqn:Hl;
      case_bool_decide; try done; by rewrite lookup_insert_ne.
Qed.

Lemma installAliases_lookup (m : gmap string (list string)) (als : gmap string string)
    (k : string) :
  installAliases m als !! k
  = match als !! k with
    | Some v => addTo v (m !! k)
    | None => m !! k
    end.
Proof.
  unfold installAliases. rewrite install_fold_lookup by apply NoDup_fst_map_to_list.
  by rewrite list_to_map_to_list.
Qed.

Lemma splitColon_no_colon (s : string) :
  containsColon s = false → splitColon s = [s].
Proof.
  induction s as [| a s IH]; simpl; [done |].
  destruct (Ascii.eqb a ":"); [done |]. intros Hs. by rewrite IH.
Qed.

Lemma splitColon_alias (who what : string) :
  containsColon who = false → containsColon what = false →
  splitColon (who +:+ ":" +:+ what) = [who; what].
Proof.
  intros Hwho Hwhat. induction who as [| a who IH]; simpl in *.
  - by rewrite splitColon_no_colon.
  - destruct (Ascii.eqb a ":"); [done |]. by rewrite IH.
Qed.

Lemma append_inj_r (p x y : string) : p +:+ x = p +:+ y → x = y.
Proof. induction p as [| a p IH]; simpl; [done |]. intros [= Heq]. by apply IH. Qed.


Lemma addAliases_containers (declared : list string) :
  ∀ (c c' : Context) (con : Container) (e : Endpoint) (als : gmap string string),
    containers c = containers c' →
    addAliases c con e als declared = addAliases c' con e als declared.
Proof.
  induction declared as [| a rest IH]; intros c c' con e als Hc; simpl; [done |].
  destruct (splitColon a) as [| who [| what [| x l]]]; try done.
  destruct (addAlias e _ what) as [[e' a'] ex]. rewrite Hc. by apply IH.
Qed.

Lemma addAlias_preserves (e e' : Endpoint) (who what : string) (a : alias) (ex : bool) :
  addAlias e who what = (e', a, ex) →
  ep_container e' = ep_container e ∧ ep_scope e' = ep_scope e.
Proof.
  unfold addAlias. case_decide; [by intros [= <- <- <-] |].
  destruct (find _ _); by intros [= <- <- <-].
Qed.

Lemma addAliases_preserves (declared : list string) :
  ∀ (c : Context) (con : Container) (e e' : Endpoint) (als als' : gmap string string)
    (r : option error),
    addAliases c con e als declared = (e', als', r) →
    ep_container e' = ep_container e ∧ ep_scope e' = ep_scope e.
Proof.
  induction declared as [| a rest IH]; intros c con e e' als als' r; simpl.
  - by intros [= <- <- <-].
  - destruct (splitColon a) as [| who [| what [| x l]]]; try by intros [= <- <- <-].
    destruct (addAlias e _ what) as [[e1 a1] ex] eqn:Hadd.
    apply addAlias_preserves in Hadd as [Hc Hs]. intros Hrest.
    apply IH in Hrest as [Hc' Hs']. by rewrite Hc', Hs'.
Qed.

Lemma addPort_preserves (e : Endpoint) (p : Port) :
  ep_container (addPort e p) = ep_container e
  ∧ ep_scope (addPort e p) = ep_scope e
  ∧ ep_aliases (addPort e p) = ep_aliases e.
Proof. unfold addPort. by case_decide. Qed.

Lemma addPorts_preserves (ports : list string) :
  ∀ (e e' : Endpoint) (r : option error),
    addPorts e ports = (e', r) →
    ep_container e' = ep_container e ∧ ep_scope e' = ep_scope e
    ∧ ep_aliases e' = ep_aliases e.
Proof.
  induction ports as [| p ports IH]; intros e e' r; simpl.
  - by intros [= <- <-].
  - destruct (ParsePort p) as [port |]; [| by intros [= <- <-]].
    intros Hrest. apply IH in Hrest as (Hc & Hs & Ha).
    destruct (addPort_preserves e port) as (Hc' & Hs' & Ha').
    by rewrite Hc, Hs, Ha.
Qed.

Lemma Scope_AddContainer_scope (s s1 : Scope) (con con1 : Container) (e e1 : Endpoint) :
  Scope_AddContainer s con e = Ok (s1, con1, e1) →
  s_name s1 = s_name s ∧ s_endpoints s1 = s_endpoints s ++ [e1]
  ∧ ep_container e1 = ep_container e ∧ ep_scope e1 = ep_scope e
  ∧ ep_aliases e1 = ep_aliases e.
Proof.
  unfold Scope_AddContainer.
  destruct (isDynamic s); [by intros [= <- <- <-] |].
  destruct (IsUnspecifiedIP (ep_ip e)).
  - destruct (reserveNextIn (s_spaces s)) as [[spaces a] |]; [| done].
    by intros [= <- <- <-].
  - destruct (reserveIn (s_spaces s) (ep_ip e)); [| done]. by intros [= <- <- <-].
Qed.

Lemma replace_last (E : list Endpoint) (e1 e : Endpoint) (id : string) :
  Forall (fun x => ep_container x ≠ id) E →
  ep_container e1 = id → ep_container e = id →
  map (fun x => if String.eqb (ep_container x) (ep_container e) then e else x)
    (E ++ [e1])
  = E ++ [e].
Proof.
  intros HE H1 He. rewrite map_app. simpl. rewrite H1, He, String.eqb_refl. f_equal.
  induction HE as [| x E Hx HE IH]; simpl; [done |].
  rewrite IH. by destruct (String.eqb_spec (ep_container x) id).
Qed.

(** The endpoints of a scope after an endpoint of it is updated. *)
Lemma putEndpoint_last (c : Context) (s : Scope) (E : list Endpoint)
    (e1 e : Endpoint) (id : string) :
  scopes c !! s_name s = Some s → s_endpoints s = E ++ [e1] →
  Forall (fun x => ep_container x ≠ id) E →
  ep_container e1 = id → ep_container e = id → ep_scope e = s_name s →
  ∃ s', scopes (putEndpoint c e) !! s_name s = Some s'
        ∧ s_name s' = s_name s ∧ s_endpoints s' = E ++ [e]
        ∧ containers (putEndpoint c e) = containers c
        ∧ aliases (putEndpoint c e) = aliases c.
Proof.
  intros Hs HE Hother H1 He Hscope. unfold putEndpoint. rewrite Hscope, Hs.
  eexists. split; [unfold putScope; simpl; apply lookup_insert_eq |].
  simpl. rewrite HE. by rewrite (replace_last E e1 e id).
Qed.

Lemma bind_single (c c' : Context) (h h' : Handle) (eps : list Endpoint)
    (k sn : string) (ne : NetworkEndpoint) (S : Scope) :
  uid_Parse (h_ID h) ≠ NilUID →
  containers c !! uid_Parse (h_ID h) = None →
  h_Networks h = [(k, ne)] →
  cn_Name (ne_Network ne) = sn →
  scopes c !! sn = Some S → s_name S = sn →
  Forall (fun e => ep_container e ≠ uid_Parse (h_ID h)) (s_endpoints S) →
  BindContainer c h = (c', h', Ok eps) →
  ∃ (e1 e3 : Endpoint) (als3 : gmap string string) (S' : Scope) (con : Container),
    con_id con = uid_Parse (h_ID h) ∧ con_name con = h_Name h
    ∧ ep_container e1 = con_id con ∧ ep_scope e1 = sn ∧ ep_aliases e1 = ∅
    ∧ addAliases c con e1
        (<[sn +:+ ":" +:+ uid_Truncate (con_id con) := con_id con]>
           (<[sn +:+ ":" +:+ con_name con := con_id con]> ∅))
        (cn_Aliases (ne_Network ne))
      = (e3, als3, None)
    ∧ scopes c' !! sn = Some S' ∧ s_name S' = sn
    ∧ s_endpoints S' = s_endpoints S ++ [e3]
    ∧ aliases c' = installAliases (aliases c) (fixUpAliases S' con als3)
    ∧ containers c'
      = <[con_name con := con]>
          (<[uid_Truncate (con_id con) := con]>
             (<[con_id con := con]> (containers c))).
Proof.
  intros Hid Hnone Hnets Hname HS HSn HE. unfold BindContainer, bindContainer.
  rewrite (container_not_found c h Hid Hnone). simpl. rewrite Hnets. simpl.
  unfold bindRound. simpl. rewrite Hname, HS.
  match goal with
  | |- context [?x ≫= ?f] => destruct (x ≫= f) as [[[s1 con1] e1] | |] eqn:Hadd
  end; [| done | done].
  assert (Hadd' : ∃ eip, Scope_AddContainer S (mkContainer (uid_Parse (h_ID h)) (h_Name h) [])
            (setStatic (newEndpoint (mkContainer (uid_Parse (h_ID h)) (h_Name h) []) S eip)
               (ne_Static ne)) = Ok (s1, con1, e1)).
  { destruct (ne_Static ne); [destruct (ne_IP ne); [| done] |];
      [| destruct (negb (IsUnspecifiedIP (ne_Assigned_IP ne)))]; by eexists. }
  clear Hadd. destruct Hadd' as [eip Hadd].
  destruct (Scope_AddContainer_con _ _ _ _ _ _ Hadd) as [Hcid Hcname].
  destruct (Scope_AddContainer_scope _ _ _ _ _ _ Hadd) as (Hs1n & Hs1e & He1c & He1s & He1a).
  simpl in Hcid, Hcname, He1c, He1s, He1a.
  destruct (ParsePortSpecs (ne_Ports ne)) as [ports |]; [| done].
  destruct (addPorts e1 ports) as [e2 [err |]] eqn:Hports; [done |].
  apply addPorts_preserves in Hports as (He2c & He2s & He2a).
  match goal with
  | |- context [addAliases ?a ?b ?c ?d ?e] =>
      destruct (addAliases a b c d e) as [[e3 als3] [err |]] eqn:Hals
  end; [done |].
  match type of Hals with
  | addAliases _ _ _ _ (cn_Aliases (ne_Network ?n)) = _ =>
      assert (Hsame : cn_Aliases (ne_Network n) = cn_Aliases (ne_Network ne))
        by (by destruct (s_internal s1), (String.eqb (s_scopeType s1) ExternalScopeType))
  end.
  rewrite Hsame in Hals. clear Hsame.
  rewrite (addAliases_containers _ _ c) in Hals
    by (by rewrite containers_putEndpoint).
  destruct (addAliases_preserves _ _ _ _ _ _ _ _ Hals) as [He3c He3s].
  assert (Hs1 : scopes (putScope c s1) !! s_name s1 = Some s1)
    by apply lookup_insert_eq.
  destruct (putEndpoint_last (putScope c s1) s1 (s_endpoints S) e1 e2
              (uid_Parse (h_ID h)) Hs1 Hs1e HE He1c)
    as (s2 & Hs2 & Hs2n & Hs2e & Hc2 & Ha2); [congruence | congruence |].
  rewrite <- Hs2n in Hs2.
  destruct (putEndpoint_last (putEndpoint (putScope c s1) e2) s2 (s_endpoints S) e2 e3
              (uid_Parse (h_ID h)) Hs2 Hs2e HE)
    as (s3 & Hs3 & Hs3n & Hs3e & Hc3 & Ha3); [congruence | congruence | congruence |].
  rewrite Hs2n in Hs3. simpl. rewrite Hs3.
  intros [= <- <- <-].
  exists e2, e3, als3, s3, con1. simpl.
  rewrite Hs1n, HSn in *.
  split_and!; try done; try congruence.
  - by rewrite Ha3, Ha2.
  - by rewrite Hc3, Hc2.
Qed.

Lemma fixUp_nothing (eps : list Endpoint) (con : Container) (als : gmap string string) :
  Forall (fun e => ep_container e = con_id con ∨ getAliases e (con_name con) = []) eps →
  fold_left
    (fun als e' =>
       if String.eqb (ep_container e') (con_id con) then als
       else fold_left (fun als a => <[scopedName a := con_id con]> als)
              (getAliases e' (con_name con)) als)
    eps als
  = als.
Proof.
  intros Heps. revert als. induction Heps as [| e eps He Heps IH]; intros als; simpl;
    [done |].
  rewrite IH. destruct He as [-> | ->]; [by rewrite String.eqb_refl |].
  by destruct (String.eqb _ _).
Qed.

Lemma addAliases_one (c : Context) (con : Container) (e : Endpoint)
    (als : gmap string string) (who what : string) :
  containsColon who = false → containsColon what = false →
  who ≠ ""%string → what ≠ ""%string → who ≠ con_name con →
  ep_aliases e = ∅ →
  addAliases c con e als [who +:+ ":" +:+ what]
  = (mkEndpoint (ep_container e) (ep_scope e) (ep_ip e) (ep_static e) (ep_ports e)
       {[who := [entry who what (ep_scope e)]]},
     match containers c !! who with
     | Some w => <[scopedName (entry who what (ep_scope e)) := con_id w]> als
     | None => als
     end,
     None).
Proof.
  intros Hwho Hwhat Hne Hne' Hself Hempty. simpl.
  rewrite splitColon_alias by done.
  destruct (String.eqb_spec who "") as [-> | _]; [done |].
  unfold addAlias. rewrite decide_False by (intros [? | ?]; done).
  unfold getAliases. rewrite Hempty, lookup_empty. simpl.
  rewrite bool_decide_eq_true_2.
  2:{ unfold badAlias. intros [= -> ->]. done. }
  destruct (String.eqb_spec who (con_name con)) as [-> | _]; [done |]. simpl.
  rewrite insert_empty. unfold entry.
  by destruct (containers c !! who).
Qed.


Lemma seedAliases_lookup (sn : string) (con : Container) (k v : string) :
  seedAliases sn con !! k = Some v →
  v = con_id con
  ∧ ∃ x, x ∈ [uid_Truncate (con_id con); con_name con] ∧ k = sn +:+ ":" +:+ x.
Proof.
  unfold seedAliases. rewrite !lookup_insert. repeat case_decide; try done.
  - intros [= <-]. split; [done |]. eexists. split; [| done]. left.
  - intros [= <-]. split; [done |]. eexists. split; [| done]. right. left.
Qed.

Lemma fixUp_last_own (S0 S1 : Scope) (con : Container) (e : Endpoint)
    (als : gmap string string) :
  s_endpoints S1 = s_endpoints S0 ++ [e] → ep_container e = con_id con →
  fixUpAliases S1 con als = fixUpAliases S0 con als.
Proof.
  intros HS1 He. unfold fixUpAliases. rewrite HS1, fold_left_app. simpl.
  by rewrite He, String.eqb_refl.
Qed.

(** The bind of a container that declares one network, without an alias. *)
Lemma bind_plain (c0 c1 : Context) (h h1 : Handle) (eps : list Endpoint)
    (k sn : string) (ne : NetworkEndpoint) (S0 : Scope) :
  uid_Parse (h_ID h) ≠ NilUID →
  containers c0 !! uid_Parse (h_ID h) = None →
  h_Networks h = [(k, ne)] → cn_Name (ne_Network ne) = sn →
  cn_Aliases (ne_Network ne) = [] →
  scopes c0 !! sn = Some S0 → s_name S0 = sn →
  Forall (fun e => ep_container e ≠ uid_Parse (h_ID h)) (s_endpoints S0) →
  BindContainer c0 h = (c1, h1, Ok eps) →
  ∃ (e : Endpoint) (S1 : Scope) (con : Container),
    con_id con = uid_Parse (h_ID h) ∧ con_name con = h_Name h
    ∧ ep_container e = con_id con ∧ ep_aliases e = ∅
    ∧ scopes c1 !! sn = Some S1 ∧ s_name S1 = sn
    ∧ s_endpoints S1 = s_endpoints S0 ++ [e]
    ∧ aliases c1
      = installAliases (aliases c0) (fixUpAliases S0 con (seedAliases sn con))
    ∧ containers c1
      = <[con_name con := con]>
          (<[uid_Truncate (con_id con) := con]>
             (<[con_id con := con]> (containers c0))).
Proof.
  intros Hid Hnone Hnets Hname Hals HS HSn HE Hbind.
  destruct (bind_single c0 c1 h h1 eps k sn ne S0 Hid Hnone Hnets Hname HS HSn HE Hbind)
    as (e1 & e3 & als3 & S1 & con & Hcid & Hcname & He1c & He1s & He1a & Hadd
        & HS1 & HS1n & HS1e & Hal & Hcon).
  rewrite Hals in Hadd. simpl in Hadd. injection Hadd as <- <-.
  exists e1, S1, con. split_and!; try done.
  rewrite Hal. f_equal. by apply (fixUp_last_own S0 S1 con e1).
Qed.

(** The bind of a container that declares one network, with one alias. *)
Lemma bind_alias (c0 c1 : Context) (h h1 : Handle) (eps : list Endpoint)
    (k sn who what : string) (ne : NetworkEndpoint) (S0 : Scope) :
  uid_Parse (h_ID h) ≠ NilUID →
  containers c0 !! uid_Parse (h_ID h) = None →
  h_Networks h = [(k, ne)] → cn_Name (ne_Network ne) = sn →
  cn_Aliases (ne_Network ne) = [who +:+ ":" +:+ what] →
  containsColon who = false → containsColon what = false →
  who ≠ ""%string → what ≠ ""%string → who ≠ h_Name h →
  scopes c0 !! sn = Some S0 → s_name S0 = sn →
  Forall (fun e => ep_container e ≠ uid_Parse (h_ID h)) (s_endpoints S0) →
  BindContainer c0 h = (c1, h1, Ok eps) →
  ∃ (e : Endpoint) (S1 : Scope) (con : Container),
    con_id con = uid_Parse (h_ID h) ∧ con_name con = h_Name h
    ∧ ep_container e = con_id con
    ∧ ep_aliases e = {[who := [entry who what sn]]}
    ∧ scopes c1 !! sn = Some S1 ∧ s_name S1 = sn
    ∧ s_endpoints S1 = s_endpoints S0 ++ [e]
    ∧ aliases c1
      = installAliases (aliases c0)
          (fixUpAliases S0 con
             match containers c0 !! who with
             | Some w => <[scopedName (entry who what sn) := con_id w]>
                           (seedAliases sn con)
             | None => seedAliases sn con
             end)
    ∧ containers c1
      = <[con_name con := con]>
          (<[uid_Truncate (con_id con) := con]>
             (<[con_id con := con]> (containers c0))).
Proof.
  intros Hid Hnone Hnets Hname Hals Hwho Hwhat Hne Hne' Hself HS HSn HE Hbind.
  destruct (bind_single c0 c1 h h1 eps k sn ne S0 Hid Hnone Hnets Hname HS HSn HE Hbind)
    as (e1 & e3 & als3 & S1 & con & Hcid & Hcname & He1c & He1s & He1a & Hadd
        & HS1 & HS1n & HS1e & Hal & Hcon).
  rewrite Hals, addAliases_one in Hadd by congruence.
  injection Hadd as <- <-. rewrite He1s in *.
  exists (mkEndpoint (ep_container e1) sn (ep_ip e1) (ep_static e1) (ep_ports e1)
            {[who := [entry who what sn]]}), S1, con.
  split_and!; try done.
  rewrite Hal. f_equal. eapply fixUp_last_own; [exact HS1e | done].
Qed.


Lemma addTo_elem (v : string) (o : option (list string)) :
  ∃ cs, addTo v o = Some cs ∧ v ∈ cs ∧ (o = None → cs = [v]).
Proof.
  unfold addTo. case_bool_decide as Hin.
  - destruct o as [cs |]; [| by apply elem_of_nil in Hin].
    exists cs. by split_and!.
  - eexists. split_and!; [done | |].
    + apply elem_of_app. right. by apply list_elem_of_singleton.
    + by intros ->.
Qed.

Lemma seed_key_neq (sn x : string) (con : Container) :
  x ∉ [uid_Truncate (con_id con); con_name con] →
  seedAliases sn con !! (sn +:+ ":" +:+ x) = None.
Proof.
  intros Hx. destruct (seedAliases sn con !! (sn +:+ ":" +:+ x)) as [v |] eqn:Hv; [| done].
  apply seedAliases_lookup in Hv as (_ & y & Hy & Heq).
  do 2 apply append_inj_r in Heq. by subst y.
Qed.

(** C4, amended.  A and B declare one network each, on the same scope;
    B declares the alias "A:app", where A is the name of the first
    container; neither is bound, no key of the one is a key of the other
    or the name of the alias, and no endpoint of the scope is theirs or
    holds an alias for their names.  After A and then B are bound, the
    containers under the alias "S:A.app" include A, the container that
    the alias names, and are A alone when the alias was not registered;
    binding B and then A gives the same index of the aliases. *)
Theorem alias_symmetry (c c1 c2 c1' c2' : Context) (sn : string) (S : Scope)
    (hA hB hA1 hB2 hB1 hA2 : Handle) (kA kB : string) (neA neB : NetworkEndpoint)
    (epsA epsB epsB' epsA' : list Endpoint) :
  let ia := uid_Parse (h_ID hA) in
  let ib := uid_Parse (h_ID hB) in
  let keysA := [ia; uid_Truncate ia; h_Name hA] in
  let keysB := [ib; uid_Truncate ib; h_Name hB] in
  let key := sn +:+ ":" +:+ h_Name hA +:+ "." +:+ "app" in
  ia ≠ NilUID → ib ≠ NilUID →
  containers c !! ia = None → containers c !! ib = None →
  containers c !! h_Name hA = None →
  Forall (fun k => k ∉ keysB) keysA →
  h_Name hA +:+ "." +:+ "app" ∉ keysB →
  h_Name hA ≠ ""%string → containsColon (h_Name hA) = false →
  h_Networks hA = [(kA, neA)] → cn_Name (ne_Network neA) = sn →
  cn_Aliases (ne_Network neA) = [] →
  h_Networks hB = [(kB, neB)] → cn_Name (ne_Network neB) = sn →
  cn_Aliases (ne_Network neB) = [h_Name hA +:+ ":" +:+ "app"] →
  scopes c !! sn = Some S → s_name S = sn →
  Forall (fun e => ep_container e ≠ ia ∧ ep_container e ≠ ib
                   ∧ getAliases e (h_Name hA) = [] ∧ getAliases e (h_Name hB) = [])
    (s_endpoints S) →
  BindContainer c hA = (c1, hA1, Ok epsA) →
  BindContainer c1 hB = (c2, hB2, Ok epsB) →
  BindContainer c hB = (c1', hB1, Ok epsB') →
  BindContainer c1' hA = (c2', hA2, Ok epsA') →
  (∃ cs, (ContainersByAlias c2 key).2 = Some cs ∧ ia ∈ cs
         ∧ (aliases c !! key = None → cs = [ia]))
  ∧ aliases c2' = aliases c2.
Proof.
  intros ia ib keysA keysB key validA validB freshA freshB freshN distinct notAlias
    HnameA HcolonA HnetsA HsnA HalsA HnetsB HsnB HalsB HS HSn Hothers
    HbindA HbindAB HbindB HbindBA.
  assert (Hia_B : ia ∉ keysB) by (by apply (Forall_forall (fun k => k ∉ keysB) keysA);
                                  [| left]).
  assert (HsA_B : uid_Truncate ia ∉ keysB)
    by (by apply (Forall_forall (fun k => k ∉ keysB) keysA); [| right; left]).
  assert (HnA_B : h_Name hA ∉ keysB)
    by (by apply (Forall_forall (fun k => k ∉ keysB) keysA); [| right; right; left]).
  assert (Hab : ia ≠ ib) by (intros Heq; apply Hia_B; rewrite Heq; left).
  assert (Hnab : h_Name hA ≠ h_Name hB)
    by (intros Heq; apply HnA_B; rewrite Heq; right; right; left).
  destruct (bind_plain c c1 hA hA1 epsA kA sn neA S validA freshA HnetsA HsnA HalsA
              HS HSn) as (eA & S1 & conA & HcidA & HcnA & HeAc & HeAa & HS1 & HS1n
                          & HS1e & Hal1 & Hcon1); [| done |].
  { eapply Forall_impl; [exact Hothers |]. by intros e (? & _). }
  assert (Hfix1 : fixUpAliases S conA (seedAliases sn conA) = seedAliases sn conA).
  { apply fixUp_nothing. eapply Forall_impl; [exact Hothers |].
    intros e (_ & _ & HnA & _). right. by rewrite HcnA. }
  rewrite Hfix1 in Hal1.
  assert (Hib1 : containers c1 !! ib = None).
  { rewrite Hcon1, lookup_installed_other; [done |].
    unfold indexKeys. rewrite HcidA, HcnA. intros Hin.
    apply (Forall_forall (fun k => k ∉ keysB) keysA) in Hin; [| done].
    apply Hin. left. }
  assert (HnA1 : containers c1 !! h_Name hA = Some conA).
  { rewrite Hcon1. apply lookup_installed. unfold indexKeys. rewrite HcnA.
    right. right. left. }
  destruct (bind_alias c1 c2 hB hB2 epsB kB sn (h_Name hA) "app" neB S1 validB Hib1
              HnetsB HsnB HalsB HcolonA eq_refl HnameA)
    as (eB & S2 & conB & HcidB & HcnB & HeBc & HeBa & HS2 & HS2n & HS2e & Hal2 & Hcon2);
    [done | done | done | done | | done |].
  { rewrite HS1e. apply Forall_app. split.
    - eapply Forall_impl; [exact Hothers |]. by intros e (_ & ? & _).
    - apply Forall_singleton. unfold ia, ib in *. congruence. }
  rewrite HnA1 in Hal2.
  assert (Hfix2 : ∀ als, fixUpAliases S1 conB als = als).
  { intros als. apply fixUp_nothing. rewrite HS1e. apply Forall_app. split.
    - eapply Forall_impl; [exact Hothers |]. intros e (_ & _ & _ & HnB). right.
      by rewrite HcnB.
    - apply Forall_singleton. right. unfold getAliases. by rewrite HeAa, lookup_empty. }
  rewrite Hfix2 in Hal2.
  destruct (bind_alias c c1' hB hB1 epsB' kB sn (h_Name hA) "app" neB S validB freshB
              HnetsB HsnB HalsB HcolonA eq_refl HnameA)
    as (eB' & S1' & conB' & HcidB' & HcnB' & HeBc' & HeBa' & HS1' & HS1n' & HS1e'
        & Hal1' & Hcon1'); [done | done | done | done | | done |].
  { eapply Forall_impl; [exact Hothers |]. by intros e (_ & ? & _). }
  rewrite freshN in Hal1'.
  assert (Hfix1' : fixUpAliases S conB' (seedAliases sn conB') = seedAliases sn conB').
  { apply fixUp_nothing. eapply Forall_impl; [exact Hothers |].
    intros e (_ & _ & _ & HnB). right. by rewrite HcnB'. }
  rewrite Hfix1' in Hal1'.
  assert (Hia1' : containers c1' !! ia = None).
  { rewrite Hcon1', lookup_installed_other; [done |].
    unfold indexKeys. by rewrite HcidB', HcnB'. }
  destruct (bind_plain c1' c2' hA hA2 epsA' kA sn neA S1' validA Hia1' HnetsA HsnA HalsA
              HS1' HS1n') as (eA' & S2' & conA' & HcidA' & HcnA' & HeAc' & HeAa' & HS2'
                              & HS2n' & HS2e' & Hal2' & Hcon2'); [| done |].
  { rewrite HS1e'. apply Forall_app. split.
    - eapply Forall_impl; [exact Hothers |]. by intros e (? & _).
    - apply Forall_singleton. unfold ia, ib in *. congruence. }
  assert (Hfix2' : fixUpAliases S1' conA' (seedAliases sn conA')
                   = <[key := ia]> (seedAliases sn conA')).
  { unfold fixUpAliases. rewrite HS1e', fold_left_app. simpl.
    rewrite fixUp_nothing.
    2:{ eapply Forall_impl; [exact Hothers |]. intros e (_ & _ & HnA & _). right.
        by rewrite HcnA'. }
    rewrite HeBc', HcidB', HcidA'.
    destruct (String.eqb_spec (uid_Parse (h_ID hB)) (uid_Parse (h_ID hA)))
      as [Heq | _]; [by symmetry in Heq |].
    unfold getAliases. by rewrite HeBa', HcnA', lookup_singleton_eq. }
  rewrite Hfix2' in Hal2'.
  assert (HseedA : seedAliases sn conA' = seedAliases sn conA)
    by (unfold seedAliases; by rewrite HcidA, HcidA', HcnA, HcnA').
  assert (HseedB : seedAliases sn conB' = seedAliases sn conB)
    by (unfold seedAliases; by rewrite HcidB, HcidB', HcnB, HcnB').
  rewrite HseedA in Hal2'. rewrite HseedB in Hal1'. rewrite Hal1' in Hal2'.
  rewrite Hal1 in Hal2. change (scopedName (entry (h_Name hA) "app" sn)) with key in Hal2.
  rewrite HcidA in Hal2. fold ia in Hal2.
  assert (HkeyB : seedAliases sn conB !! key = None).
  { apply (seed_key_neq sn (h_Name hA +:+ "." +:+ "app")).
    rewrite HcidB, HcnB. intros Hin. apply notAlias. by right. }
  assert (HvalA : ∀ k v, seedAliases sn conA !! k = Some v → v = ia).
  { intros k v Hv. apply seedAliases_lookup in Hv as [-> _]. done. }
  assert (Hdisj : ∀ k v, seedAliases sn conA !! k = Some v →
                         seedAliases sn conB !! k = None).
  { intros k v Hv. apply seedAliases_lookup in Hv as (_ & x & Hx & ->).
    apply seed_key_neq. rewrite HcidB, HcnB. rewrite HcidA, HcnA in Hx.
    intros Hin. apply (Forall_forall (fun k => k ∉ keysB) keysA) with (x := x) in distinct.
    - apply distinct. by right.
    - by right. }
  split.
  - unfold ContainersByAlias. simpl. rewrite Hal2, !installAliases_lookup.
    rewrite lookup_insert_eq.
    destruct (seedAliases sn conA !! key) as [v |] eqn:Hv.
    + rewrite (HvalA _ _ Hv), addTo_idemp.
      destruct (addTo_elem ia (aliases c !! key)) as (cs & -> & Hin & Hnone).
      by exists cs.
    + destruct (addTo_elem ia (aliases c !! key)) as (cs & -> & Hin & Hnone).
      by exists cs.
  - rewrite Hal2', Hal2. apply map_eq. intros k.
    rewrite !installAliases_lookup, !lookup_insert.
    case_decide as Hk.
    + subst k. rewrite HkeyB.
      destruct (seedAliases sn conA !! key) as [v |] eqn:Hv; [| done].
      by rewrite (HvalA _ _ Hv), addTo_idemp.
    + destruct (seedAliases sn conA !! k) as [v |] eqn:Hv; [| done].
      by rewrite (Hdisj _ _ Hv).
Qed.

End Aliases.

(** ** Scopes: creation, resolution and removal *)

Section ScopeCreation.
Context `{!External}.

(** X1.  A gateway that [reserveGateway] gives is routable on the subnet of
    the scope, which is specified; it is the gateway asked for when one is
    asked for, and the scope keeps the number of its address spaces. *)
Theorem reserveGateway_routable (gateway : IP) (subnet : option IPNet)
    (spaces spaces' : list AddressSpace) (gw : IP) :
  reserveGateway gateway subnet spaces = Ok (gw, spaces') →
  ∃ n, subnet = Some n ∧ IsUnspecifiedSubnet subnet = false
       ∧ IsRoutableIP gw n = true
       ∧ (IsUnspecifiedIP gateway = false → gw = gateway)
       ∧ length spaces' = length spaces.
Proof.
  unfold reserveGateway. destruct subnet as [n |]; [| done].
  destruct (IsUnspecifiedSubnet (Some n)) eqn:Hn; [done |].
  destruct (IsUnspecifiedIP gateway) eqn:Hg; simpl.
  - destruct spaces as [| p ps]; [done |].
    destruct (ReserveNextIP4 p) as [[p' g] |]; [| done].
    destruct (IsRoutableIP g n) eqn:Hr; [| done]. simpl.
    intros [= <- <-]. exists n. by split_and!.
  - destruct (IsRoutableIP gateway n) eqn:Hr; [| done]. simpl.
    intros [= <- <-]. exists n. split_and!; try done.
    clear. induction spaces as [| p ps IH]; simpl; [done |].
    destruct (ReserveIP4 p gateway); simpl; by rewrite ?IH.
Qed.

Lemma reserveGateway_no_panic gateway subnet spaces :
  reserveGateway gateway subnet spaces ≠ Panic.
Proof.
  unfold reserveGateway. destruct subnet as [n |]; [| done].
  destruct (IsUnspecifiedSubnet (Some n)); [done |].
  destruct (negb (IsUnspecifiedIP gateway)).
  - by destruct (negb (IsRoutableIP gateway n)).
  - destruct spaces as [| p ps]; [done |].
    destruct (ReserveNextIP4 p) as [[p' g] |]; [| done].
    by destruct (negb (IsRoutableIP g n)).
Qed.

Lemma reservePools_no_panic space pools : reservePools space pools ≠ Panic.
Proof.
  unfold reservePools. destruct pools; [done |].
  by destruct (reservePools_loop _ _).
Qed.

Lemma setPool_same (c : Context) : setPool c (defaultBridgePool c) = c.
Proof. by destruct c. Qed.

Lemma release_reserved (p : AddressSpace) (n : IPNet) (pool space : AddressSpace) :
  ReserveIP4Net p n = Some (pool, space) →
  ReleaseIP4Range pool space = Some p.
Proof.
  unfold ReserveIP4Net. destruct (isFree p (netRange n)); [| done].
  intros [= <- <-]. unfold ReleaseIP4Range. simpl.
  rewrite decide_True by done. by destruct p.
Qed.

(** What [reserveSubnet] gives. *)
Lemma reserveSubnet_result (c c' : Context) (n : IPNet) (r : result (AddressSpace * bool)) :
  reserveSubnet c n = (c', r) →
  match r with
  | Ok (space, dp) =>
      checkNetOverlap c n = Ok tt
      ∧ Network space = Some (mkIPNet (lowestIP4 n) (net_Mask n))
      ∧ scopes c' = scopes c
      ∧ addScope_cleanup c' space dp = c
  | Err e => c' = c ∧ checkNetOverlap c n = Err e
  | Panic => False
  end.
Proof.
  unfold reserveSubnet, checkNetOverlap.
  destruct (existsb _ _); [by intros [= <- <-] |].
  destruct (ReserveIP4Net (defaultBridgePool c) n) as [[pool space] |] eqn:Hres.
  - intros [= <- <-]. split_and!; try done.
    + unfold ReserveIP4Net in Hres. destruct (isFree _ _); [| done].
      by injection Hres as <- <-.
    + unfold addScope_cleanup. simpl. rewrite (release_reserved _ _ _ _ Hres). simpl.
      by destruct c.
  - by intros [= <- <-].
Qed.

(** [addScope] either installs the scope or leaves the context as it
    was. *)
Lemma addScope_result (c c' : Context) (s : Scope) (r : result Scope) :
  addScope c s = (c', r) →
  match r with
  | Ok s' =>
      scopes c !! s_name s = None
      ∧ scopes c' = <[s_name s := s']> (scopes c)
      ∧ s_name s' = s_name s ∧ s_id s' = s_id s ∧ s_scopeType s' = s_scopeType s
      ∧ s_builtin s' = s_builtin s ∧ s_endpoints s' = s_endpoints s
      ∧ s_internal s' = s_internal s ∧ s_network s' = s_network s
      ∧ kv c' = kv c ∧ containers c' = containers c ∧ aliases c' = aliases c
      ∧ config c' = config c ∧ defaultScope c' = defaultScope c
      ∧ defaultBridgeMask c' = defaultBridgeMask c
  | Err e => c' = c
  | Panic => False
  end.
Proof.
  unfold addScope. destruct (scopes c !! s_name s) eqn:Hname; [by intros [= <- <-] |].
  destruct (s_subnet s) as [subnet0 |] eqn:Hsub; [| by intros [= <- <-]].
  destruct (IsUnspecifiedSubnet (Some subnet0)); [by intros [= <- <-] |].
  destruct (reserveSubnet c subnet0) as [c1 r1] eqn:Hres.
  apply reserveSubnet_result in Hres.
  destruct r1 as [[space dp] | e |]; [| destruct Hres as [-> _]; by intros [= <- <-] | done].
  destruct Hres as (Hcheck & Hnet & Hscopes & Hclean). rewrite Hnet.
  destruct (reservePools space (s_spaces s)) as [spaces | e |] eqn:Hpools;
    [| by intros [= <- <-] | by apply reservePools_no_panic in Hpools].
  destruct (reserveGateway _ _ _) as [[gw spaces'] | e |] eqn:Hgw;
    [| by intros [= <- <-] | by apply reserveGateway_no_panic in Hgw].
  intros [= <- <-]. simpl. rewrite Hscopes. split_and!; try done.
  all: unfold reserveSubnet in *; clear -Hclean;
    unfold addScope_cleanup in Hclean; destruct dp; by rewrite <- Hclean.
Qed.


Lemma newScopeCommon_result (c c' : Context) (id scopeType : string)
    (network : option string) (d : ScopeData) (r : result Scope) :
  newScopeCommon c id scopeType network d = (c', r) →
  match r with
  | Ok s =>
      scopes c !! Name d = None
      ∧ scopes c' = <[Name d := s]> (scopes c)
      ∧ s_name s = Name d ∧ s_id s = id ∧ s_scopeType s = scopeType
      ∧ s_builtin s = false ∧ s_endpoints s = []
      ∧ s_internal s = Internal d ∧ s_network s = network
      ∧ kv c' = kv c ∧ containers c' = containers c ∧ aliases c' = aliases c
      ∧ config c' = config c ∧ defaultScope c' = defaultScope c
      ∧ defaultBridgeMask c' = defaultBridgeMask c
  | Err e => c' = c
  | Panic => False
  end.
Proof.
  unfold newScopeCommon. destruct (parsePools (Pools d)) as [p | spaces];
    [by intros [= <- <-] |].
  intros Hadd. apply addScope_result in Hadd. destruct r as [s | e |]; [| done | done].
  simpl in Hadd. by destruct Hadd as (? & ? & -> & -> & -> & -> & -> & -> & -> & ?).
Qed.

(** What [Context.newScope] gives: a scope installed under the name of
    the scope data, or the context as it was. *)
Lemma Context_newScope_result (c c' : Context) (id : string) (d : ScopeData)
    (r : result Scope) :
  Context_newScope c id d = (c', r) →
  match r with
  | Ok s =>
      Name d ≠ ""%string ∧ scopes c !! Name d = None
      ∧ scopes c' = <[Name d := s]> (scopes c)
      ∧ s_name s = Name d ∧ s_id s = id ∧ s_scopeType s = ScopeType d
      ∧ (ScopeType d = BridgeScopeType ∨ ScopeType d = ExternalScopeType)
      ∧ s_builtin s = false ∧ s_endpoints s = [] ∧ s_internal s = Internal d
      ∧ s_network s = PortGroups (config c)
                      !! (if String.eqb (ScopeType d) BridgeScopeType
                          then BridgeNetwork (config c) else Name d)
      ∧ kv c' = kv c ∧ containers c' = containers c ∧ aliases c' = aliases c
      ∧ defaultScope c' = defaultScope c
      ∧ defaultBridgeMask c' = defaultBridgeMask c
      ∧ PortGroups (config c') = PortGroups (config c)
      ∧ BridgeNetwork (config c') = BridgeNetwork (config c)
      ∧ BridgeLink (config c')
        = (if String.eqb (ScopeType d) BridgeScopeType
           then AddrAdd (BridgeLink (config c))
                  (mkIPNet (s_gateway s) (MaskOpt (s_subnet s)))
           else BridgeLink (config c))
  | Err e => c' = c
  | Panic => False
  end.
Proof.
  unfold Context_newScope.
  destruct (String.eqb_spec (Name d) "") as [Hempty | Hname]; [by intros [= <- <-] |].
  destruct (scopes c !! Name d) eqn:Hfree; [by intros [= <- <-] |].
  destruct (String.eqb_spec (ScopeType d) BridgeScopeType) as [Hb | Hnb].
  - unfold newBridgeScope.
    destruct (PortGroups (config c) !! BridgeNetwork (config c)) as [pg |] eqn:Hpg;
      [| by intros [= <- <-]].
    destruct (IsUnspecifiedSubnet (Subnet d)).
    + destruct (NextIP4Net _ _) as [n |]; [| by intros [= <- <-]].
      destruct (newScopeCommon c id BridgeScopeType (Some pg) (setSubnet d (Some n)))
        as [c1 r1] eqn:Hcommon.
      apply newScopeCommon_result in Hcommon.
      destruct r1 as [s | e |]; [| by intros [= <- <-]; subst | done].
      intros [= <- <-]. simpl in *.
      destruct Hcommon as (? & ? & ? & ? & ? & ? & ? & ? & ? & ? & ? & ? & Hcfg & ? & ?).
      rewrite Hcfg. split_and!; try done; try congruence. by left.
    + destruct (newScopeCommon c id BridgeScopeType (Some pg) d) as [c1 r1] eqn:Hcommon.
      apply newScopeCommon_result in Hcommon.
      destruct r1 as [s | e |]; [| by intros [= <- <-]; subst | done].
      intros [= <- <-]. simpl in *.
      destruct Hcommon as (? & ? & ? & ? & ? & ? & ? & ? & ? & ? & ? & ? & Hcfg & ? & ?).
      rewrite Hcfg. split_and!; try done; try congruence. by left.
  - destruct (String.eqb_spec (ScopeType d) ExternalScopeType) as [He | Hne];
      [| by intros [= <- <-]].
    unfold newExternalScope.
    destruct (_ && _); [by intros [= <- <-] |].
    match goal with |- context [if ?b then _ else _] => destruct b end;
      [by intros [= <- <-] |].
    destruct (PortGroups (config c) !! Name d) as [pg |] eqn:Hpg; [| by intros [= <- <-]].
    intros Hcommon. apply newScopeCommon_result in Hcommon.
    destruct r as [s | e |]; [| done | done].
    destruct Hcommon as (? & ? & ? & ? & ? & ? & ? & ? & ? & ? & ? & ? & Hcfg & ? & ?).
    rewrite Hcfg. split_and!; try done; try congruence. by right.
Qed.


Lemma kv_deleteScope (c : Context) (s : Scope) : kv (deleteScope c s) = kv c.
Proof. unfold deleteScope. by destruct (String.eqb _ _). Qed.

Lemma containers_deleteScope (c : Context) (s : Scope) :
  containers (deleteScope c s) = containers c
  ∧ aliases (deleteScope c s) = aliases c
  ∧ defaultScope (deleteScope c s) = defaultScope c.
Proof. unfold deleteScope. by destruct (String.eqb _ _). Qed.

Lemma link_deleteScope (c : Context) (s : Scope) :
  BridgeLink (config (deleteScope c s))
  = if String.eqb (s_scopeType s) BridgeScopeType
    then AddrDel (BridgeLink (config c)) (mkIPNet (s_gateway s) (MaskOpt (s_subnet s)))
    else BridgeLink (config c).
Proof. unfold deleteScope. by destruct (String.eqb _ _). Qed.

(** X2.  [NewScope] refuses an empty name, a name that a scope has already
    and a type that is neither bridge nor external, and leaves the context
    as it is. *)
Theorem NewScope_rejects (c : Context) (id : string) (d : ScopeData) :
  (Name d = ""%string →
   NewScope c id d = (c, Err (Errorf "scope name must not be empty")))
  ∧ (Name d ≠ ""%string → is_Some (scopes c !! Name d) →
     NewScope c id d = (c, Err (DuplicateResourceError (Name d))))
  ∧ (Name d ≠ ""%string → scopes c !! Name d = None →
     ScopeType d ≠ BridgeScopeType → ScopeType d ≠ ExternalScopeType →
     NewScope c id d = (c, Err (Errorf "scope type not supported"))).
Proof.
  unfold NewScope, Context_newScope. split_and!.
  - by intros ->.
  - intros Hname [s Hs]. destruct (String.eqb_spec (Name d) ""); [done |].
    by rewrite Hs.
  - intros Hname Hfree Hb He. destruct (String.eqb_spec (Name d) ""); [done |].
    rewrite Hfree.
    destruct (String.eqb_spec (ScopeType d) BridgeScopeType); [done |].
    by destruct (String.eqb_spec (ScopeType d) ExternalScopeType).
Qed.

(** X3.  A [NewScope] that fails, for whatever reason, leaves the scopes, the
    two indexes, the store and the default scope as they were. *)
Theorem NewScope_failure_keeps_scopes (c c' : Context) (id : string) (d : ScopeData)
    (r : result Scope) :
  NewScope c id d = (c', r) → isOk r = false →
  scopes c' = scopes c ∧ containers c' = containers c ∧ aliases c' = aliases c
  ∧ kv c' = kv c ∧ defaultScope c' = defaultScope c.
Proof.
  unfold NewScope. destruct (Context_newScope c id d) as [c1 r1] eqn:Hnew.
  apply Context_newScope_result in Hnew.
  destruct r1 as [s | e |]; [| intros [= <- <-] _; by subst | done].
  destruct Hnew as (_ & Hfree & Hscopes & Hn & _ & _ & _ & _ & _ & _ & _ & Hkv & Hcon
                    & Hal & Hdef & _).
  assert (Hback : scopes (deleteScope c1 s) = scopes c).
  { rewrite scopes_deleteScope, Hscopes, Hn. by apply delete_insert_id. }
  destruct (containers_deleteScope c1 s) as (Hc & Ha & Hd).
  assert (Hdel : scopes (deleteScope c1 s) = scopes c
                 ∧ containers (deleteScope c1 s) = containers c
                 ∧ aliases (deleteScope c1 s) = aliases c
                 ∧ kv (deleteScope c1 s) = kv c
                 ∧ defaultScope (deleteScope c1 s) = defaultScope c).
  { rewrite kv_deleteScope. split_and!; congruence. }
  destruct (kv c1) as [store |]; [| by intros [= <- <-]].
  destruct (MarshalJSON s) as [bytes |]; [| by intros [= <- <-]].
  unfold kv_Put. destruct (kv_fails store); by intros [= <- <-].
Qed.


Lemma resolveScope_name (c : Context) (n : string) (s : Scope) :
  n ≠ ""%string → n ≠ "default"%string → scopes c !! n = Some s →
  resolveScope c n = Ok (Some s).
Proof.
  intros Hne Hnd Hs. unfold resolveScope, findScopes.
  destruct (String.eqb_spec n ""); [done |].
  destruct (String.eqb_spec n "default"); [done |]. by rewrite Hs.
Qed.



Lemma AddrDel_AddrAdd (link : list IPNet) (a : IPNet) :
  AddrDel (AddrAdd link a) a = AddrDel link a ∧ a ∉ AddrDel link a.
Proof.
  unfold AddrDel, AddrAdd. split.
  - case_decide; [done |].
    rewrite filter_app, filter_cons_False, filter_nil, app_nil_r; [done |].
    intros Hne. by apply Hne.
  - intros Hin. apply list_elem_of_filter in Hin as [Hne _]. done.
Qed.



(** X6.  [DeleteScope] of a scope that is not builtin and has no endpoint,
    with a store: when the store fails the scope stays and the error is
    returned; otherwise the scope and its key are removed, a key that the
    store does not have being no error. *)
Theorem DeleteScope_store (c : Context) (name : string) (s : Scope)
    (store : KeyValueStore) :
  resolveScope c name = Ok (Some s) →
  s_builtin s = false → s_endpoints s = [] → kv c = Some store →
  (kv_fails store = true → DeleteScope c name = (c, Err ErrKVStore))
  ∧ (kv_fails store = false →
     ∃ c', DeleteScope c name = (c', Ok tt)
           ∧ scopes c' !! s_name s = None
           ∧ kv c' = Some (mkKeyValueStore
                             (delete (scopeKey (s_name s)) (kv_data store)) false)
           ∧ (s_scopeType s = BridgeScopeType →
              mkIPNet (s_gateway s) (MaskOpt (s_subnet s))
              ∉ BridgeLink (config c'))
           ∧ containers c' = containers c ∧ aliases c' = aliases c).
Proof.
  intros Hres Hb He Hkv. unfold DeleteScope. rewrite Hres, Hb, He, Hkv. simpl.
  unfold kv_Delete. split.
  - by intros ->.
  - intros Hf. rewrite Hf.
    assert (Hgone : ∀ c0, scopes (deleteScope c0 s) !! s_name s = None)
      by (intros c0; rewrite scopes_deleteScope; apply lookup_delete_eq).
    assert (Hlink : ∀ c0, s_scopeType s = BridgeScopeType →
              mkIPNet (s_gateway s) (MaskOpt (s_subnet s))
              ∉ BridgeLink (config (deleteScope c0 s))).
    { intros c0 Hbr. rewrite link_deleteScope, Hbr. simpl.
      intros Hin. apply list_elem_of_filter in Hin as [Hne _]. done. }
    destruct (kv_data store !! scopeKey (s_name s)) as [v |] eqn:Hkey.
    + eexists. split; [done |].
      match goal with
      | |- context [deleteScope ?c0 s] =>
          destruct (containers_deleteScope c0 s) as (-> & -> & _);
          rewrite (kv_deleteScope c0)
      end.
      split_and!; by auto.
    + eexists. split; [done |].
      destruct (containers_deleteScope c s) as (-> & -> & _).
      rewrite kv_deleteScope, Hkv. split_and!; auto.
      rewrite delete_id by done. destruct store. simpl in *. by subst.
Qed.

Lemma filter_none {A} (P : A → Prop) `{!∀ x, Decision (P x)} (l : list A) :
  Forall (fun x => ¬ P x) l → filter P l = [].
Proof.
  induction 1 as [| x l Hx _ IH]; [done |]. by rewrite filter_cons_False.
Qed.

Lemma values_Forall (P : Scope → Prop) (m : gmap string Scope) :
  map_Forall (fun _ s => P s) m → Forall P (map snd (map_to_list m)).
Proof.
  intros Hm. apply Forall_forall. intros s Hs.
  apply list_elem_of_fmap in Hs as ([k s'] & -> & Hin).
  apply elem_of_map_to_list in Hin. by apply (Hm k).
Qed.

Lemma values_delete (m : gmap string Scope) (k : string) (s : Scope) :
  m !! k = Some s →
  map snd (map_to_list m) ≡ₚ s :: map snd (map_to_list (delete k m)).
Proof.
  intros Hk. rewrite <- (insert_delete_id m k s Hk) at 1.
  by rewrite map_to_list_insert by apply lookup_delete_eq.
Qed.

(** X7.  [resolveScope]: the name default gives the default scope; a name of
    the map gives the scope under it; a name that is neither a name nor a
    prefix of an id gives the error that the scope is not found; a prefix
    of the id of one scope gives that scope, and a prefix of the ids of two
    scopes gives neither a scope nor an error. *)
Theorem resolveScope_cases (c : Context) (n : string) :
  (n = "default"%string → resolveScope c n = Ok (DefaultScope c))
  ∧ (∀ s, n ≠ ""%string → n ≠ "default"%string → scopes c !! n = Some s →
          resolveScope c n = Ok (Some s))
  ∧ (n ≠ ""%string → n ≠ "default"%string → scopes c !! n = None →
     map_Forall (fun _ s => HasPrefix (s_id s) n ≠ true) (scopes c) →
     resolveScope c n = Err (ResourceNotFoundError ("scope " +:+ n +:+ " not found")))
  ∧ (∀ k s, n ≠ ""%string → n ≠ "default"%string → scopes c !! n = None →
            scopes c !! k = Some s → HasPrefix (s_id s) n = true →
            map_Forall (fun _ s' => HasPrefix (s_id s') n ≠ true)
              (delete k (scopes c)) →
            resolveScope c n = Ok (Some s))
  ∧ (∀ k1 k2 s1 s2, n ≠ ""%string → n ≠ "default"%string → scopes c !! n = None →
            k1 ≠ k2 → scopes c !! k1 = Some s1 → scopes c !! k2 = Some s2 →
            HasPrefix (s_id s1) n = true → HasPrefix (s_id s2) n = true →
            resolveScope c n = Ok None).
Proof.
  unfold resolveScope, findScopes. split_and!.
  - by intros ->.
  - intros s Hne Hnd Hs. destruct (String.eqb_spec n ""); [done |].
    destruct (String.eqb_spec n "default"); [done |]. by rewrite Hs.
  - intros Hne Hnd Hs Hall. destruct (String.eqb_spec n ""); [done |].
    destruct (String.eqb_spec n "default"); [done |]. rewrite Hs.
    by rewrite (filter_none _ _ (values_Forall _ _ Hall)).
  - intros k s Hne Hnd Hs Hk Hp Hall. destruct (String.eqb_spec n ""); [done |].
    destruct (String.eqb_spec n "default"); [done |]. rewrite Hs.
    assert (Hone : filter (fun s => HasPrefix (s_id s) n = true)
                     (map snd (map_to_list (scopes c))) = [s]).
    { apply Permutation_singleton_r.
      rewrite (values_delete _ _ _ Hk), filter_cons_True by done.
      by rewrite (filter_none _ _ (values_Forall _ _ Hall)). }
    by rewrite Hone.
  - intros k1 k2 s1 s2 Hne Hnd Hs Hk Hk1 Hk2 Hp1 Hp2.
    destruct (String.eqb_spec n ""); [done |].
    destruct (String.eqb_spec n "default"); [done |]. rewrite Hs.
    assert (Hk2' : delete k1 (scopes c) !! k2 = Some s2)
      by (by rewrite lookup_delete_ne).
    assert (Htwo : ∃ rest, filter (fun s => HasPrefix (s_id s) n = true)
                             (map snd (map_to_list (scopes c)))
                           ≡ₚ s1 :: s2 :: rest).
    { eexists. rewrite (values_delete _ _ _ Hk1), filter_cons_True by done.
      rewrite (values_delete _ _ _ Hk2'), filter_cons_True by done. done. }
    destruct Htwo as [rest Hperm].
    destruct (filter _ _) as [| a [| b l]] eqn:Hf.
    + by apply Permutation_nil_cons in Hperm.
    + apply Permutation_length in Hperm. done.
    + done.
Qed.






End ScopeCreation.

(** ** Refusals *)

Section Refusals.
Context `{!External}.


(** X10.  [AddContainer] refuses an external scope for a handle of which
    every declared network resolves and one resolves to an external
    scope, and leaves the handle as it is. *)
Theorem AddContainer_second_external (c : Context) (h : Handle)
    (o : AddContainerOptions) (s : Scope) :
  resolveScope c (opt_Scope o) = Ok (Some s) →
  s_scopeType s = ExternalScopeType →
  lookupNet (h_Networks h) (s_name s) = None →
  Forall (fun kv => ∃ sc, resolveScope c kv.1 = Ok (Some sc)) (h_Networks h) →
  Exists (fun kv => ∃ sc, resolveScope c kv.1 = Ok (Some sc)
                          ∧ s_scopeType sc = ExternalScopeType) (h_Networks h) →
  AddContainer c h o
  = (h, Err (Errorf "container can only be added to at most one mapped network")).
Proof.
  intros Hres Hext Hfree Hall Hex. unfold AddContainer. rewrite Hres, Hfree, Hext.
  simpl. rewrite (checkExternal_rejects c (map fst (h_Networks h))); [done | |].
  - by apply Forall_fmap.
  - by apply Exists_fmap.
Qed.

End Refusals.

(** ** What a bind and an unbind leave alone *)

Section Frames.
Context `{!External}.

Lemma frame_putScope (c : Context) (s : Scope) : frame (putScope c s) = frame c.
Proof. done. Qed.

Lemma frame_putEndpoint (c : Context) (e : Endpoint) : frame (putEndpoint c e) = frame c.
Proof. unfold putEndpoint. by destruct (scopes c !! ep_scope e). Qed.

Lemma frame_unwindScopes (visited : list string) :
  ∀ (c : Context) (con : Container), frame (unwindScopes c con visited) = frame c.
Proof.
  induction visited as [| sn rest IH]; intros c con; simpl; [done |].
  rewrite IH. destruct (scopes c !! sn) as [s |]; [| done].
  by destruct (Scope_RemoveContainer s con).
Qed.

Lemma bindRound_frame (st : bindState) (k : string) (ne ne' : NetworkEndpoint)
    (c' : Context) (r : result bindState) :
  bindRound st k ne = (c', ne', r) →
  frame c' = frame (bs_ctx st) ∧ (∀ st', r = Ok st' → bs_ctx st' = c').
Proof.
  unfold bindRound.
  destruct (scopes (bs_ctx st) !! cn_Name (ne_Network ne)) as [s |];
    [| by intros [= <- <- <-]].
  match goal with
  | |- context [?m ≫= ?f] => destruct (m ≫= f) as [[[s1 con1] e1] | err |]
  end.
  - destruct (ParsePortSpecs (ne_Ports ne)) as [ports |];
      [| by intros [= <- <- <-]].
    destruct (addPorts e1 ports) as [e2 [err |]].
    + intros [= <- <- <-]. by rewrite frame_putEndpoint.
    + match goal with
      | |- context [addAliases ?c0 ?con0 ?e0 ?als0 ?decl] =>
          destruct (addAliases c0 con0 e0 als0 decl) as [[e3 als3] [err |]]
      end.
      * intros [= <- <- <-]. by rewrite !frame_putEndpoint.
      * intros [= <- <- <-]. rewrite !frame_putEndpoint. split; [done |].
        by intros st' [= <-].
  - intros [= <- <- <-]. split; [apply (frame_unwindScopes (_ :: _)) | done].
  - by intros [= <- <- <-].
Qed.

Lemma bindLoop_frame (todo : list (string * NetworkEndpoint)) :
  ∀ (st : bindState) (c' : Context) (nets : list (string * NetworkEndpoint))
    (r : result bindState),
    bindLoop st todo = (c', nets, r) →
    frame c' = frame (bs_ctx st) ∧ (∀ st', r = Ok st' → bs_ctx st' = c').
Proof.
  induction todo as [| [k ne] rest IH]; intros st c' nets r; simpl.
  - intros [= <- <- <-]. split; [done |]. by intros st' [= <-].
  - destruct (bindRound st k ne) as [[c1 ne1] r1] eqn:Hround.
    apply bindRound_frame in Hround as [Hf Hst].
    destruct r1 as [st1 | e |].
    + intros Hloop. apply IH in Hloop as [Hf' Hst'].
      rewrite (Hst st1 eq_refl) in Hf'. split; [congruence | done].
    + by intros [= <- <- <-].
    + by intros [= <- <- <-].
Qed.

Lemma unbindLoop_frame (todo : list (string * NetworkEndpoint)) :
  ∀ (c c' : Context) (con : Container) (dn nets : list (string * NetworkEndpoint))
    (als : list string) (eps : list Endpoint) (r : result (list string * list Endpoint)),
    unbindLoop c con dn als eps todo = (c', nets, r) → frame c' = frame c.
Proof.
  induction todo as [| [k ne] rest IH]; intros c c' con dn nets als eps r; simpl.
  - by intros [= <- <- <-].
  - destruct (scopes c !! cn_Name (ne_Network ne)) as [s |]; [| by intros [= <- <- <-]].
    destruct (Container_Endpoint con s) as [e |]; [| by intros [= <- <- <-]].
    destruct (Scope_RemoveContainer s con) as [s' | err |];
      [| by intros [= <- <- <-] | by intros [= <- <- <-]].
    intros Hloop. apply IH in Hloop. by rewrite Hloop.
Qed.

(** X11.  [BindContainer] and [UnbindContainer] leave the configuration, the
    default bridge pool, the default scope, the store and the identity of
    the handle as they are; one that fails leaves the two indexes as they
    were. *)
Theorem bind_unbind_frame (c c' : Context) (h h' : Handle)
    (r : result (list Endpoint)) :
  BindContainer c h = (c', h', r) ∨ UnbindContainer c h = (c', h', r) →
  config c' = config c ∧ defaultBridgePool c' = defaultBridgePool c
  ∧ defaultBridgeMask c' = defaultBridgeMask c
  ∧ defaultScope c' = defaultScope c ∧ kv c' = kv c
  ∧ h_ID h' = h_ID h ∧ h_Name h' = h_Name h ∧ h_DeviceChange h' = h_DeviceChange h
  ∧ (isOk r = false → containers c' = containers c ∧ aliases c' = aliases c).
Proof.
  assert (Hframe : ∀ c1 c2, frame c2 = frame c1 →
            config c2 = config c1 ∧ defaultBridgePool c2 = defaultBridgePool c1
            ∧ defaultBridgeMask c2 = defaultBridgeMask c1
            ∧ defaultScope c2 = defaultScope c1 ∧ kv c2 = kv c1
            ∧ containers c2 = containers c1 ∧ aliases c2 = aliases c1).
  { unfold frame. intros c1 c2 [= -> -> -> -> -> -> ->]. by split_and!. }
  intros [Hbind | Hunbind].
  - unfold BindContainer, bindContainer in Hbind.
    destruct (container c h) as [con | err |].
    + injection Hbind as <- <- <-. by split_and!.
    + destruct (isResourceNotFound err); simpl in Hbind;
        [| injection Hbind as <- <- <-; by split_and!].
      destruct (bindLoop _ _) as [[c1 nets] r1] eqn:Hloop.
      apply bindLoop_frame in Hloop as [Hf Hst]. simpl in Hf.
      destruct (Hframe _ _ Hf) as (? & ? & ? & ? & ? & ? & ?).
      destruct r1 as [st | e |].
      * injection Hbind as <- <- <-. rewrite (Hst st eq_refl). simpl.
        by split_and!.
      * injection Hbind as <- <- <-. by split_and!.
      * injection Hbind as <- <- <-. by split_and!.
    + injection Hbind as <- <- <-. by split_and!.
  - unfold UnbindContainer in Hunbind.
    destruct (container c h) as [con | err |].
    + destruct (unbindLoop _ _ _ _ _ _) as [[c1 nets] r1] eqn:Hloop.
      apply unbindLoop_frame in Hloop.
      destruct (Hframe _ _ Hloop) as (? & ? & ? & ? & ? & ? & ?).
      destruct r1 as [[als eps] | e |]; injection Hunbind as <- <- <-; simpl;
        by split_and!.
    + destruct (isResourceNotFound err); injection Hunbind as <- <- <-; by split_and!.
    + injection Hunbind as <- <- <-. by split_and!.
Qed.

End Frames.

(** ** The scopes under their names *)

Section Stable.
Context `{!External}.

Lemma sameSettings_refl (s : Scope) : sameSettings s s.
Proof. unfold sameSettings. by split_and!. Qed.

Lemma sameSettings_trans (s1 s2 s3 : Scope) :
  sameSettings s1 s2 → sameSettings s2 s3 → sameSettings s1 s3.
Proof.
  unfold sameSettings.
  intros (? & ? & ? & ? & ? & ? & ? & ? & ? & ? & ?)
         (? & ? & ? & ? & ? & ? & ? & ? & ? & ? & ?).
  split_and!; congruence.
Qed.

Lemma scopesStable_refl (c : Context) : scopesStable c c.
Proof.
  intros k. destruct (scopes c !! k); constructor. apply sameSettings_refl.
Qed.

Lemma scopesStable_trans (c1 c2 c3 : Context) :
  scopesStable c1 c2 → scopesStable c2 c3 → scopesStable c1 c3.
Proof.
  intros H12 H23 k. specialize (H12 k). specialize (H23 k).
  destruct H12 as [s1 s2 Hs |]; inversion H23; subst; constructor.
  by apply (sameSettings_trans s1 s2).
Qed.

Lemma scopesStable_eq (c c' : Context) : scopes c' = scopes c → scopesStable c c'.
Proof. intros Heq k. rewrite Heq. apply scopesStable_refl. Qed.

Lemma scopesKeyed_stable (c c' : Context) :
  scopesKeyed c → scopesStable c c' → scopesKeyed c'.
Proof.
  intros Hk Hst k s' Hs'. specialize (Hst k). rewrite Hs' in Hst.
  inversion Hst as [s s0 Hsame Hs |]; subst.
  destruct Hsame as (_ & Hn & _). rewrite Hn. by apply (Hk k).
Qed.

Lemma scopesStable_putScope (c : Context) (s s' : Scope) :
  scopes c !! s_name s' = Some s → sameSettings s s' → scopesStable c (putScope c s').
Proof.
  intros Hs Hsame k. unfold putScope. simpl.
  destruct (decide (k = s_name s')) as [-> | Hne].
  - rewrite lookup_insert_eq, Hs. by constructor.
  - rewrite lookup_insert_ne by done. apply scopesStable_refl.
Qed.

Lemma scopesStable_putEndpoint (c : Context) (e : Endpoint) :
  scopesKeyed c → scopesStable c (putEndpoint c e).
Proof.
  intros Hk. unfold putEndpoint.
  destruct (scopes c !! ep_scope e) as [s |] eqn:Hs; [| apply scopesStable_refl].
  apply (scopesStable_putScope c s).
  - simpl. by rewrite (Hk _ _ Hs).
  - unfold sameSettings. by split_and!.
Qed.

Lemma Scope_RemoveContainer_settings (s s' : Scope) (con : Container) :
  Scope_RemoveContainer s con = Ok s' → sameSettings s s'.
Proof.
  unfold Scope_RemoveContainer. destruct (find _ _); [| done].
  intros [= <-]. unfold sameSettings. by split_and!.
Qed.

Lemma Scope_AddContainer_settings (s s1 : Scope) (con con1 : Container) (e e1 : Endpoint) :
  Scope_AddContainer s con e = Ok (s1, con1, e1) → sameSettings s s1.
Proof.
  unfold Scope_AddContainer.
  destruct (isDynamic s); [intros [= <- <- <-]; unfold sameSettings; by split_and! |].
  destruct (IsUnspecifiedIP (ep_ip e)).
  - destruct (reserveNextIn (s_spaces s)) as [[spaces a] |]; [| done].
    intros [= <- <- <-]. unfold sameSettings. by split_and!.
  - destruct (reserveIn (s_spaces s) (ep_ip e)); [| done].
    intros [= <- <- <-]. unfold sameSettings. by split_and!.
Qed.

Lemma scopesStable_unwindScopes (visited : list string) :
  ∀ (c : Context) (con : Container),
    scopesKeyed c → scopesStable c (unwindScopes c con visited).
Proof.
  induction visited as [| sn rest IH]; intros c con Hk; simpl;
    [apply scopesStable_refl |].
  assert (Hstep : scopesStable c
            match scopes c !! sn with
            | Some s => match Scope_RemoveContainer s con with
                        | Ok s' => putScope c s'
                        | _ => c
                        end
            | None => c
            end).
  { destruct (scopes c !! sn) as [s |] eqn:Hs; [| apply scopesStable_refl].
    destruct (Scope_RemoveContainer s con) as [s' | |] eqn:Hrm;
      try apply scopesStable_refl.
    apply Scope_RemoveContainer_settings in Hrm.
    apply (scopesStable_putScope c s); [| done].
    destruct Hrm as (_ & -> & _). by rewrite (Hk _ _ Hs). }
  eapply scopesStable_trans; [exact Hstep |].
  apply IH. by apply (scopesKeyed_stable c).
Qed.

Lemma bindRound_stable (st : bindState) (k : string) (ne ne' : NetworkEndpoint)
    (c' : Context) (r : result bindState) :
  scopesKeyed (bs_ctx st) → bindRound st k ne = (c', ne', r) →
  scopesStable (bs_ctx st) c'.
Proof.
  intros Hk. unfold bindRound.
  destruct (scopes (bs_ctx st) !! cn_Name (ne_Network ne)) as [s |] eqn:Hs;
    [| intros [= <- <- <-]; apply scopesStable_refl].
  match goal with
  | |- context [?m ≫= ?f] => destruct (m ≫= f) as [[[s1 con1] e1] | err |] eqn:Hadd
  end.
  - assert (Hsame : sameSettings s s1).
    { destruct (ne_Static ne); [destruct (ne_IP ne); [| done] |];
        simpl in Hadd; try destruct (negb _); simpl in Hadd;
        by apply Scope_AddContainer_settings in Hadd. }
    assert (H1 : scopesStable (bs_ctx st) (putScope (bs_ctx st) s1)).
    { apply (scopesStable_putScope _ s); [| done].
      destruct Hsame as (_ & -> & _). by rewrite (Hk _ _ Hs). }
    assert (Hk1 : scopesKeyed (putScope (bs_ctx st) s1))
      by (by apply (scopesKeyed_stable (bs_ctx st))).
    destruct (ParsePortSpecs (ne_Ports ne)) as [ports |];
      [| by intros [= <- <- <-]].
    destruct (addPorts e1 ports) as [e2 [err |]].
    + intros [= <- <- <-].
      eapply scopesStable_trans; [exact H1 |]. by apply scopesStable_putEndpoint.
    + assert (H2 : scopesStable (bs_ctx st) (putEndpoint (putScope (bs_ctx st) s1) e2)).
      { eapply scopesStable_trans; [exact H1 |]. by apply scopesStable_putEndpoint. }
      assert (Hk2 : scopesKeyed (putEndpoint (putScope (bs_ctx st) s1) e2))
        by (by apply (scopesKeyed_stable (bs_ctx st))).
      match goal with
      | |- context [addAliases ?c0 ?con0 ?e0 ?als0 ?decl] =>
          destruct (addAliases c0 con0 e0 als0 decl) as [[e3 als3] [err |]]
      end.
      * intros [= <- <- <-].
        eapply scopesStable_trans; [exact H2 |]. by apply scopesStable_putEndpoint.
      * intros [= <- <- <-].
        eapply scopesStable_trans; [exact H2 |]. by apply scopesStable_putEndpoint.
  - intros [= <- <- <-]. by apply (scopesStable_unwindScopes (_ :: _)).
  - intros [= <- <- <-]. apply scopesStable_refl.
Qed.

Lemma bindLoop_stable (todo : list (string * NetworkEndpoint)) :
  ∀ (st : bindState) (c' : Context) (nets : list (string * NetworkEndpoint))
    (r : result bindState),
    scopesKeyed (bs_ctx st) → bindLoop st todo = (c', nets, r) →
    scopesStable (bs_ctx st) c'.
Proof.
  induction todo as [| [k ne] rest IH]; intros st c' nets r Hk; simpl.
  - intros [= <- <- <-]. apply scopesStable_refl.
  - destruct (bindRound st k ne) as [[c1 ne1] r1] eqn:Hround.
    pose proof (bindRound_stable _ _ _ _ _ _ Hk Hround) as Hst.
    apply bindRound_frame in Hround as [_ Hctx].
    destruct r1 as [st1 | e |].
    + rewrite <- (Hctx st1 eq_refl) in Hst. intros Hloop.
      eapply scopesStable_trans; [exact Hst |].
      apply (IH _ _ _ _ (scopesKeyed_stable _ _ Hk Hst) Hloop).
    + by intros [= <- <- <-].
    + by intros [= <- <- <-].
Qed.

Lemma unbindLoop_stable (todo : list (string * NetworkEndpoint)) :
  ∀ (c c' : Context) (con : Container) (dn nets : list (string * NetworkEndpoint))
    (als : list string) (eps : list Endpoint) (r : result (list string * list Endpoint)),
    scopesKeyed c → unbindLoop c con dn als eps todo = (c', nets, r) →
    scopesStable c c'.
Proof.
  induction todo as [| [k ne] rest IH]; intros c c' con dn nets als eps r Hk; simpl.
  - intros [= <- <- <-]. apply scopesStable_refl.
  - destruct (scopes c !! cn_Name (ne_Network ne)) as [s |] eqn:Hs;
      [| intros [= <- <- <-]; apply scopesStable_refl].
    destruct (Container_Endpoint con s) as [e |];
      [| intros [= <- <- <-]; apply scopesStable_refl].
    destruct (Scope_RemoveContainer s con) as [s' | err |] eqn:Hrm;
      [| intros [= <- <- <-]; apply scopesStable_refl
       | intros [= <- <- <-]; apply scopesStable_refl].
    apply Scope_RemoveContainer_settings in Hrm.
    assert (Hst : scopesStable c (putScope c s')).
    { apply (scopesStable_putScope c s); [| done].
      destruct Hrm as (_ & -> & _). by rewrite (Hk _ _ Hs). }
    intros Hloop. eapply scopesStable_trans; [exact Hst |].
    apply (IH _ _ _ _ _ _ _ _ (scopesKeyed_stable _ _ Hk Hst) Hloop).
Qed.

Lemma bindContainer_stable (c c' : Context) (h h' : Handle) (r : result (list Endpoint)) :
  scopesKeyed c → bindContainer c h = (c', h', r) → scopesStable c c'.
Proof.
  intros Hk. unfold bindContainer.
  destruct (container c h) as [con | err |];
    [intros [= <- <- <-]; apply scopesStable_refl | |
     intros [= <- <- <-]; apply scopesStable_refl].
  destruct (isResourceNotFound err); simpl;
    [| intros [= <- <- <-]; apply scopesStable_refl].
  destruct (bindLoop _ _) as [[c1 nets] r1] eqn:Hloop.
  pose proof (bindLoop_stable _ _ _ _ _ (Hk : scopesKeyed (bs_ctx (mkBindState c _ _ _ _ _ _)))
                Hloop) as Hst. simpl in Hst.
  apply bindLoop_frame in Hloop as [_ Hctx].
  destruct r1 as [st | e |]; intros [= <- <- <-]; [| done | done].
  rewrite (Hctx st eq_refl). intros k. apply Hst.
Qed.

Lemma UnbindContainer_stable (c c' : Context) (h h' : Handle)
    (r : result (list Endpoint)) :
  scopesKeyed c → UnbindContainer c h = (c', h', r) → scopesStable c c'.
Proof.
  intros Hk. unfold UnbindContainer.
  destruct (container c h) as [con | err |].
  - destruct (unbindLoop _ _ _ _ _ _) as [[c1 nets] r1] eqn:Hloop.
    pose proof (unbindLoop_stable _ _ _ _ _ _ _ _ _ Hk Hloop) as Hst.
    destruct r1 as [[als eps] | e |]; intros [= <- <- <-]; done.
  - destruct (isResourceNotFound err); intros [= <- <- <-]; apply scopesStable_refl.
  - intros [= <- <- <-]. apply scopesStable_refl.
Qed.

(** X12.  [BindContainer] and [UnbindContainer] never add, remove, rename or
    reconfigure a scope, whether they succeed or fail: the scopes have
    the same names and the same settings after, and resolve as before. *)
Theorem bind_unbind_scopes_stable (c c' : Context) (h h' : Handle)
    (r : result (list Endpoint)) :
  scopesKeyed c →
  BindContainer c h = (c', h', r) ∨ UnbindContainer c h = (c', h', r) →
  scopesStable c c'
  ∧ dom (scopes c') = dom (scopes c)
  ∧ (∀ name s s', name ≠ ""%string → name ≠ "default"%string →
       scopes c !! name = Some s → scopes c' !! name = Some s' →
       resolveScope c' name = Ok (Some s')
       ∧ s_id s' = s_id s ∧ s_scopeType s' = s_scopeType s
       ∧ s_subnet s' = s_subnet s ∧ s_gateway s' = s_gateway s
       ∧ s_builtin s' = s_builtin s ∧ s_internal s' = s_internal s).
Proof.
  intros Hk Hop.
  assert (Hst : scopesStable c c').
  { destruct Hop as [Hb | Hu];
      [by apply (bindContainer_stable c c' h h' r)
      | by apply (UnbindContainer_stable c c' h h' r)]. }
  split; [done |]. split.
  - apply set_eq. intros k. rewrite !elem_of_dom. specialize (Hst k).
    inversion Hst; split; intros [? ?]; by eauto || congruence.
  - intros name s s' Hne Hnd Hs Hs'. split; [by apply resolveScope_name |].
    specialize (Hst name). rewrite Hs, Hs' in Hst.
    inversion Hst as [? ? Hsame |]; subst.
    unfold sameSettings in Hsame. by destruct_and!.
Qed.

Lemma scopesKeyed_insert (c c' : Context) (s : Scope) :
  scopesKeyed c → scopes c' = <[s_name s := s]> (scopes c) → scopesKeyed c'.
Proof.
  intros Hk Heq. unfold scopesKeyed. rewrite Heq. by apply map_Forall_insert_2.
Qed.

Lemma scopesKeyed_delete (c c' : Context) (k : string) :
  scopesKeyed c → scopes c' = delete k (scopes c) → scopesKeyed c'.
Proof.
  intros Hk Heq. unfold scopesKeyed. rewrite Heq. by apply map_Forall_delete.
Qed.

Lemma scopesKeyed_eq (c c' : Context) :
  scopesKeyed c → scopes c' = scopes c → scopesKeyed c'.
Proof. unfold scopesKeyed. by intros Hk ->. Qed.

Lemma Context_newScope_keyed (c c' : Context) (id : string) (d : ScopeData)
    (r : result Scope) :
  scopesKeyed c → Context_newScope c id d = (c', r) → scopesKeyed c'.
Proof.
  intros Hk Hnew. apply Context_newScope_result in Hnew.
  destruct r as [s | e |]; [| by subst | done].
  destruct Hnew as (_ & _ & Hscopes & Hn & _).
  apply (scopesKeyed_insert c c' s Hk). by rewrite Hn.
Qed.

Lemma NewScope_keyed (c c' : Context) (id : string) (d : ScopeData) (r : result Scope) :
  scopesKeyed c → NewScope c id d = (c', r) → scopesKeyed c'.
Proof.
  intros Hk. unfold NewScope.
  destruct (Context_newScope c id d) as [c1 r1] eqn:Hnew.
  apply (Context_newScope_keyed _ _ _ _ _ Hk) in Hnew.
  assert (Hdel : ∀ s, scopesKeyed (deleteScope c1 s)).
  { intros s. apply (scopesKeyed_delete c1 _ (s_name s) Hnew), scopes_deleteScope. }
  destruct r1 as [s | e |]; [| by intros [= <- <-] | by intros [= <- <-]].
  destruct (kv c1) as [store |]; [| by intros [= <- <-]].
  destruct (MarshalJSON s) as [bytes |]; [| by intros [= <- <-]].
  destruct (kv_Put store _ bytes); by intros [= <- <-].
Qed.

Lemma DeleteScope_keyed (c c' : Context) (name : string) (r : result unit) :
  scopesKeyed c → DeleteScope c name = (c', r) → scopesKeyed c'.
Proof.
  intros Hk. unfold DeleteScope.
  assert (Hdel : ∀ c0 s, scopes c0 = scopes c → scopesKeyed (deleteScope c0 s)).
  { intros c0 s Heq. apply (scopesKeyed_delete c _ (s_name s) Hk).
    by rewrite scopes_deleteScope, Heq. }
  destruct (resolveScope c name) as [[s |] | e |]; try by intros [= <- <-].
  destruct (s_builtin s); [by intros [= <- <-] |].
  destruct (negb _); [by intros [= <- <-] |].
  destruct (kv c) as [store |]; [| intros [= <- <-]; by apply Hdel].
  destruct (kv_Delete store _) as [store' | e |]; try by intros [= <- <-].
  - intros [= <- <-]. by apply Hdel.
  - destruct e; intros [= <- <-]; try done; by apply Hdel.
Qed.

(** X13.  Every operation keeps each scope under its own name in the map of
    the scopes, whether it succeeds or fails. *)
Theorem scopesKeyed_preserved (c : Context) :
  scopesKeyed c →
  (∀ id d c' r, NewScope c id d = (c', r) → scopesKeyed c')
  ∧ (∀ name c' r, DeleteScope c name = (c', r) → scopesKeyed c')
  ∧ (∀ h c' h' r, BindContainer c h = (c', h', r) → scopesKeyed c')
  ∧ (∀ h c' h' r, UnbindContainer c h = (c', h', r) → scopesKeyed c').
Proof.
  intros Hk. split_and!.
  - intros id d c' r. by apply NewScope_keyed.
  - intros name c' r. by apply DeleteScope_keyed.
  - intros h c' h' r Hb. apply (scopesKeyed_stable c c' Hk).
    by apply (bindContainer_stable c c' h h' r).
  - intros h c' h' r Hu. apply (scopesKeyed_stable c c' Hk).
    by apply (UnbindContainer_stable c c' h h' r).
Qed.







End Stable.

(** ** The declarations of a handle *)

Section Declarations.
Context `{!External}.

Lemma sameDeclaration_refl (ne : NetworkEndpoint) : sameDeclaration ne ne.
Proof. unfold sameDeclaration. by split_and!. Qed.

Lemma sameDeclarations_refl (nets : list (string * NetworkEndpoint)) :
  sameDeclarations nets nets.
Proof.
  induction nets as [| a l IH]; constructor; [| done].
  split; [done | apply sameDeclaration_refl].
Qed.

Lemma sameDeclaration_setDefault (ne ne' : NetworkEndpoint) (b : bool) :
  sameDeclaration ne ne' → sameDeclaration ne (setDefault ne' b).
Proof. unfold sameDeclaration. intros ?. simpl. done. Qed.

Lemma sameDeclaration_writeBack (ne : NetworkEndpoint) (e : Endpoint) (s : Scope) :
  sameDeclaration ne (writeBack ne e s).
Proof. unfold sameDeclaration. simpl. by split_and!. Qed.

Lemma sameDeclaration_trans (n1 n2 n3 : NetworkEndpoint) :
  sameDeclaration n1 n2 → sameDeclaration n2 n3 → sameDeclaration n1 n3.
Proof.
  unfold sameDeclaration.
  intros (? & ? & ? & ? & ? & ? & ? & ? & ?) (? & ? & ? & ? & ? & ? & ? & ? & ?).
  split_and!; congruence.
Qed.

Lemma sameDeclarations_trans (n1 n2 n3 : list (string * NetworkEndpoint)) :
  sameDeclarations n1 n2 → sameDeclarations n2 n3 → sameDeclarations n1 n3.
Proof.
  unfold sameDeclarations. intros H12. revert n3.
  induction H12 as [| a b l1 l2 [Hab Hab'] _ IH]; intros n3 H23; [done |].
  inversion H23 as [| b' d l2' l3 [Hbd Hbd'] Hrest]; subst.
  constructor; [| by apply IH]. split; [congruence |].
  by apply (sameDeclaration_trans _ b.2).
Qed.

Lemma bindRound_declaration (st : bindState) (k : string) (ne ne' : NetworkEndpoint)
    (c' : Context) (r : result bindState) :
  bindRound st k ne = (c', ne', r) →
  sameDeclaration ne ne'
  ∧ (∀ st', r = Ok st' →
       bs_done st' = bs_done st ++ [(k, ne')]
       ∧ length (bs_endpoints st') = S (length (bs_endpoints st))).
Proof.
  unfold bindRound.
  destruct (scopes (bs_ctx st) !! cn_Name (ne_Network ne)) as [s |];
    [| intros [= <- <- <-]; split; [apply sameDeclaration_refl | done]].
  match goal with
  | |- context [?m ≫= ?f] => destruct (m ≫= f) as [[[s1 con1] e1] | err |]
  end; [| intros [= <- <- <-]; split; [apply sameDeclaration_refl | done] ..].
  destruct (ParsePortSpecs (ne_Ports ne)) as [ports |];
    [| intros [= <- <- <-]; split; [apply sameDeclaration_refl | done]].
  destruct (addPorts e1 ports) as [e2 [err |]];
    [intros [= <- <- <-]; split; [apply sameDeclaration_refl | done] |].
  assert (Hsame : sameDeclaration ne
            (if s_internal s1
             then setDefault
                    (if negb (bs_defaultMarked st)
                        && String.eqb (s_scopeType s1) ExternalScopeType
                     then setDefault (writeBack ne e2 s1) true
                     else writeBack ne e2 s1) false
             else if negb (bs_defaultMarked st)
                     && String.eqb (s_scopeType s1) ExternalScopeType
                  then setDefault (writeBack ne e2 s1) true
                  else writeBack ne e2 s1)).
  { destruct (s_internal s1), (negb _ && _);
      repeat apply sameDeclaration_setDefault; apply sameDeclaration_writeBack. }
  match goal with
  | |- context [addAliases ?c0 ?con0 ?e0 ?als0 ?decl] =>
      destruct (addAliases c0 con0 e0 als0 decl) as [[e3 als3] [err |]]
  end.
  - intros [= <- <- <-]. by split.
  - intros [= <- <- <-]. split; [done |]. intros st' [= <-]. simpl.
    split; [done |]. rewrite length_app. simpl. lia.
Qed.

Lemma bindLoop_declarations (todo : list (string * NetworkEndpoint)) :
  ∀ (st : bindState) (c' : Context) (nets : list (string * NetworkEndpoint))
    (r : result bindState),
    bindLoop st todo = (c', nets, r) →
    sameDeclarations (bs_done st ++ todo) nets
    ∧ (∀ st', r = Ok st' →
         nets = bs_done st'
         ∧ length (bs_endpoints st')
           = (length (bs_endpoints st) + length todo)%nat).
Proof.
  induction todo as [| [k ne] rest IH]; intros st c' nets r; simpl.
  - intros [= <- <- <-]. rewrite app_nil_r. split; [apply sameDeclarations_refl |].
    intros st' [= <-]. split; [done | lia].
  - destruct (bindRound st k ne) as [[c1 ne1] r1] eqn:Hround.
    apply bindRound_declaration in Hround as [Hsame Hst].
    assert (Hone : sameDeclarations (bs_done st ++ (k, ne) :: rest)
                     (bs_done st ++ (k, ne1) :: rest)).
    { apply Forall2_app; [apply sameDeclarations_refl |].
      constructor; [by split | apply sameDeclarations_refl]. }
    destruct r1 as [st1 | e |]; [| by intros [= <- <- <-] ..].
    destruct (Hst st1 eq_refl) as [Hdone Hlen].
    intros Hloop. apply IH in Hloop as [Hall Hok].
    rewrite Hdone, <- app_assoc in Hall. simpl in Hall. split.
    + by apply (sameDeclarations_trans _ _ _ Hone).
    + intros st' Hr. destruct (Hok st' Hr) as [-> Hlen']. split; [done | lia].
Qed.

Lemma markFirstNotInternal_declarations (c : Context)
    (nets : list (string * NetworkEndpoint)) :
  sameDeclarations nets (markFirstNotInternal c nets).
Proof.
  induction nets as [| [k ne] rest IH]; simpl; [constructor |].
  assert (Hmark : sameDeclarations ((k, ne) :: rest) ((k, setDefault ne true) :: rest)).
  { constructor; [| apply sameDeclarations_refl].
    split; [done |]. apply sameDeclaration_setDefault, sameDeclaration_refl. }
  destruct (scopes c !! cn_Name (ne_Network ne)) as [s |]; [| done].
  destruct (s_internal s); [| done].
  constructor; [| done]. split; [done | apply sameDeclaration_refl].
Qed.

(** X15.  [BindContainer] keeps the declarations of the handle, also when it
    fails: it writes back addresses and the default mark only; a bind of a
    container that is not bound yet gives one endpoint for each. *)
Theorem bind_declarations (c c' : Context) (h h' : Handle) (r : result (list Endpoint)) :
  BindContainer c h = (c', h', r) →
  sameDeclarations (h_Networks h) (h_Networks h')
  ∧ map fst (h_Networks h') = map fst (h_Networks h)
  ∧ (∀ eps, r = Ok eps → containers c !! uid_Parse (h_ID h) = None →
       length eps = length (h_Networks h)).
Proof.
  intros Hbind.
  assert (Hkeys : ∀ n1 n2, sameDeclarations n1 n2 → map fst n2 = map fst n1).
  { intros n1 n2 Hs. induction Hs as [| a b l1 l2 [Hab _] _ IH]; simpl; congruence. }
  unfold BindContainer, bindContainer in Hbind.
  assert (Hsame : sameDeclarations (h_Networks h) (h_Networks h')
                  ∧ (∀ eps, r = Ok eps → containers c !! uid_Parse (h_ID h) = None →
                       length eps = length (h_Networks h))).
  { unfold container in Hbind.
    destruct (String.eqb (uid_Parse (h_ID h)) NilUID).
    { injection Hbind as <- <- <-. split; [apply sameDeclarations_refl | done]. }
    destruct (containers c !! uid_Parse (h_ID h)) as [con |].
    { injection Hbind as <- <- <-. split; [apply sameDeclarations_refl | done]. }
    simpl in Hbind.
    destruct (bindLoop _ _) as [[c1 nets] r1] eqn:Hloop.
    apply bindLoop_declarations in Hloop as [Hall Hok]. simpl in Hall, Hok.
    destruct r1 as [st | e |]; injection Hbind as <- <- <-; simpl; [| done ..].
    destruct (Hok st eq_refl) as [-> Hlen]. split.
    - destruct (negb (bs_defaultMarked st)); [| done].
      eapply sameDeclarations_trans; [exact Hall |].
      apply markFirstNotInternal_declarations.
    - by intros eps [= <-] _. }
  destruct Hsame as [Hsame Hlen]. split_and!; [done | by apply Hkeys | done].
Qed.

Lemma unbindLoop_declarations (todo : list (string * NetworkEndpoint)) :
  ∀ (c c' : Context) (con : Container) (dn nets : list (string * NetworkEndpoint))
    (als als' : list string) (eps eps' : list Endpoint),
    unbindLoop c con dn als eps todo = (c', nets, Ok (als', eps')) →
    nets = dn ++ map (fun kv => (kv.1, clearAssigned kv.2)) todo
    ∧ ∃ new, eps' = eps ++ new ∧ length new = length todo
             ∧ Forall (fun e => ep_container e = con_id con) new.
Proof.
  induction todo as [| [k ne] rest IH]; intros c c' con dn nets als als' eps eps'; simpl.
  - intros [= <- <- <- <-]. rewrite app_nil_r. split; [done |].
    exists []. by rewrite app_nil_r.
  - destruct (scopes c !! cn_Name (ne_Network ne)) as [s |]; [| done].
    destruct (Container_Endpoint con s) as [e |] eqn:He; [| done].
    destruct (Scope_RemoveContainer s con) as [s' | err |]; [| done | done].
    intros Hloop. apply IH in Hloop as (-> & new & -> & Hlen & Hall).
    rewrite <- app_assoc. split; [done |].
    exists (e :: new). rewrite <- app_assoc. split_and!; [done | simpl; lia |].
    constructor; [| done].
    unfold Container_Endpoint in He. case_decide; [| done].
    apply find_some in He as [_ He]. by apply String.eqb_eq in He.
Qed.

(** X16.  An [UnbindContainer] of a bound container that succeeds clears the
    assigned address of every declaration of the handle and gives one
    endpoint of the container for each. *)
Theorem unbind_declarations (c c' : Context) (h h' : Handle) (con : Container)
    (eps : list Endpoint) :
  uid_Parse (h_ID h) ≠ NilUID →
  containers c !! uid_Parse (h_ID h) = Some con →
  UnbindContainer c h = (c', h', Ok eps) →
  h_Networks h' = map (fun kv => (kv.1, clearAssigned kv.2)) (h_Networks h)
  ∧ Forall (fun kv => ne_Assigned_IP kv.2 = 0) (h_Networks h')
  ∧ length eps = length (h_Networks h)
  ∧ Forall (fun e => ep_container e = con_id con) eps.
Proof.
  intros Hid Hcon. unfold UnbindContainer.
  rewrite (container_found c h con Hid Hcon).
  destruct (unbindLoop _ _ _ _ _ _) as [[c1 nets] [[als eps1] | e |]] eqn:Hloop;
    [| done | done].
  apply unbindLoop_declarations in Hloop as (-> & new & -> & Hlen & Hall).
  intros [= <- <- <-]. simpl. split_and!; try done.
  apply Forall_forall. intros kv Hin.
  apply list_elem_of_fmap in Hin as (kv0 & -> & _). done.
Qed.

(** X17.  A handle whose id does not parse is refused by [BindContainer] and
    by [UnbindContainer], which change nothing. *)
Theorem invalid_container_id (c : Context) (h : Handle) :
  uid_Parse (h_ID h) = NilUID →
  BindContainer c h = (c, h, Err (Errorf ("invalid container id " +:+ h_ID h)))
  ∧ UnbindContainer c h = (c, h, Err (Errorf ("invalid container id " +:+ h_ID h))).
Proof.
  intros Hid. unfold BindContainer, bindContainer, UnbindContainer, container.
  by rewrite Hid.
Qed.

End Declarations.

(** ** The lists of the alias index *)

Section AliasIndex.
Context `{!External}.







End AliasIndex.

(** ** Staging and removal of a network on a handle *)

Section Handles.
Context `{!External}.
Variable removeEthernetCard : Scope -> result (list DeviceChange).

Lemma lookupNet_app (nets : list (string * NetworkEndpoint)) (k : string)
    (ne : NetworkEndpoint) :
  is_Some (lookupNet (nets ++ [(k, ne)]) k).
Proof.
  unfold lookupNet. induction nets as [| [k' ne'] l IH]; simpl.
  - by rewrite String.eqb_refl.
  - by destruct (String.eqb k' k).
Qed.

Lemma lookupNet_None (nets : list (string * NetworkEndpoint)) (k : string) :
  lookupNet nets k = None → Forall (fun kv => kv.1 ≠ k) nets.
Proof.
  unfold lookupNet. induction nets as [| [k' ne'] l IH]; simpl; [constructor |].
  destruct (String.eqb_spec k' k); [done |]. intros Hl. constructor; auto.
Qed.

Lemma filter_all {A} (P : A → Prop) `{!∀ x, Decision (P x)} (l : list A) :
  Forall P l → filter P l = l.
Proof.
  induction 1 as [| x l Hx _ IH]; [done |]. by rewrite filter_cons_True, IH.
Qed.

(** X19.  An [AddContainer] that fails leaves the handle as it was; after one
    that succeeds the handle declares the scope, so that a second call
    changes nothing. *)
Theorem AddContainer_repeat (c : Context) (h h1 : Handle) (o : AddContainerOptions)
    (r : result unit) :
  AddContainer c h o = (h1, r) →
  (isOk r = false → h1 = h)
  ∧ (r = Ok tt → AddContainer c h1 o = (h1, Ok tt)).
Proof.
  unfold AddContainer.
  destruct (resolveScope c (opt_Scope o)) as [[s |] | err |];
    try (intros [= <- <-]; by split).
  destruct (lookupNet (h_Networks h) (s_name s)) as [ne0 |] eqn:Hdeclared.
  { intros [= <- <-]. split; [done |]. intros _. by rewrite Hdeclared. }
  match goal with
  | |- context [mbind ?f ?m] => destruct (mbind f m) as [slot | err |]
  end; try (intros [= <- <-]; by split).
  match goal with
  | |- context [addEthernetCard h s] =>
      destruct (if slot =? 0 then addEthernetCard h s else Ok (h, slot))
        as [[h2 slot2] | err |]
  end; try (intros [= <- <-]; by split).
  intros [= <- <-]. split; [done |]. intros _. simpl.
  match goal with
  | |- context [lookupNet (?n ++ [(?k, ?ne)]) ?k] =>
      destruct (lookupNet_app n k ne) as [ne1 ->]
  end.
  done.
Qed.

Lemma lookupNet_filter (nets : list (string * NetworkEndpoint)) (k : string) :
  lookupNet (filter (fun kv => kv.1 ≠ k) nets) k = None.
Proof.
  unfold lookupNet.
  destruct (find _ _) as [[k0 ne0] |] eqn:Hfind; [| done].
  apply find_some in Hfind as [Hin Hk0].
  apply list_elem_of_In, list_elem_of_filter in Hin as [Hk _].
  simpl in *. by apply String.eqb_eq in Hk0.
Qed.

Lemma card_shared (nets : list (string * NetworkEndpoint)) (name k : string)
    (ne ne2 : NetworkEndpoint) :
  (k, ne2) ∈ nets → k ≠ name → ne_ID ne2 = ne_ID ne →
  existsb (fun kv => negb (String.eqb kv.1 name) && String.eqb (ne_ID kv.2) (ne_ID ne))
    nets = true.
Proof.
  intros Hin Hk Hid. apply existsb_exists. exists (k, ne2).
  split; [by apply list_elem_of_In |]. simpl.
  apply andb_true_iff. split; [| by apply String.eqb_eq].
  apply negb_true_iff. by apply String.eqb_neq.
Qed.

(** X20.  [RemoveContainer] refuses a container that is bound and a network
    that the handle does not declare; one that fails leaves the handle as
    it was, and one that succeeds removes the declaration of the scope
    only, and no device when another declaration uses the card. *)
Theorem RemoveContainer_result (c : Context) (h h' : Handle) (scope : string)
    (r : result unit) :
  RemoveContainer removeEthernetCard c h scope = (h', r) →
  (isOk r = false → h' = h)
  ∧ (∀ con, container c h = Ok con → r = Err (Errorf "container is bound"))
  ∧ (∀ s, resolveScope c scope = Ok (Some s) →
          lookupNet (h_Networks h) (s_name s) = None → isOk r = false)
  ∧ (r = Ok tt →
     ∃ s ne, resolveScope c scope = Ok (Some s)
             ∧ lookupNet (h_Networks h) (s_name s) = Some ne
             ∧ h_Networks h' = filter (fun kv => kv.1 ≠ s_name s) (h_Networks h)
             ∧ lookupNet (h_Networks h') (s_name s) = None
             ∧ (∀ k ne2, (k, ne2) ∈ h_Networks h → k ≠ s_name s →
                         ne_ID ne2 = ne_ID ne →
                         h_DeviceChange h' = h_DeviceChange h)).
Proof.
  unfold RemoveContainer.
  destruct (container c h) as [con | err0 |] eqn:Hcon.
  { intros [= <- <-]. by split_and!. }
  all: destruct (resolveScope c scope) as [[s |] | err |];
    try (intros [= <- <-]; by split_and!).
  all: destruct (lookupNet (h_Networks h) (s_name s)) as [ne |] eqn:Hne;
    try (intros [= <- <-]; by split_and!).
  all: match goal with
       | |- context [existsb ?f ?l] => destruct (existsb f l) eqn:Hshared
       end; simpl.
  all: try (destruct (removeEthernetCard s) as [dc | err |];
            try (intros [= <- <-]; split_and!; try done;
                 intros s0 [= <-]; congruence)).
  all: intros [= <- <-]; split_and!; try done;
    try (intros s0 [= <-]; congruence).
  all: intros _; exists s, ne; simpl; split_and!; try done;
    try apply lookupNet_filter.
  all: intros k ne2 Hin Hk Hid;
    pose proof (card_shared _ _ _ ne _ Hin Hk Hid) as Hex; congruence.
Qed.

(** X21.  A network that [AddContainer] declared on the handle of a container
    that is not bound is taken off again by [RemoveContainer]: the declared
    networks are those before, when the hook that adds the card does not
    touch them. *)
Theorem AddContainer_RemoveContainer (c : Context) (h h1 h2 : Handle)
    (o : AddContainerOptions) (s : Scope) (r : result unit) :
  (∀ h0 s0 h0' z, addEthernetCard h0 s0 = Ok (h0', z) →
                  h_ID h0' = h_ID h0 ∧ h_Networks h0' = h_Networks h0) →
  resolveScope c (opt_Scope o) = Ok (Some s) →
  lookupNet (h_Networks h) (s_name s) = None →
  containers c !! uid_Parse (h_ID h) = None →
  AddContainer c h o = (h1, Ok tt) →
  RemoveContainer removeEthernetCard c h1 (opt_Scope o) = (h2, r) →
  (∃ ne, h_Networks h1 = h_Networks h ++ [(s_name s, ne)]
         ∧ cn_Name (ne_Network ne) = s_name s
         ∧ ne_Static ne = negb (IsUnspecifiedIP (opt_IP o))
         ∧ ne_Ports ne = opt_Ports o
         ∧ cn_Aliases (ne_Network ne) = opt_Aliases o)
  ∧ (r = Ok tt → h_Networks h2 = h_Networks h)
  ∧ (isOk r = false → h2 = h1).
Proof.
  intros Hhook Hres Hfree Hunbound. unfold AddContainer. rewrite Hres, Hfree.
  match goal with
  | |- context [mbind ?f ?m] => destruct (mbind f m) as [slot | err |]
  end; try done.
  assert (Hcard : ∀ h3 slot3,
            (if slot =? 0 then addEthernetCard h s else Ok (h, slot)) = Ok (h3, slot3) →
            h_ID h3 = h_ID h ∧ h_Networks h3 = h_Networks h).
  { intros h3 slot3. destruct (slot =? 0); [apply Hhook | by intros [= <- <-]]. }
  destruct (if slot =? 0 then addEthernetCard h s else Ok (h, slot))
    as [[h3 slot3] | err |]; try done.
  destruct (Hcard h3 slot3 eq_refl) as [Hid Hnets].
  intros [= <-]. simpl. rewrite Hnets.
  intros Hrm. split; [eexists; split; [done |]; by simpl |].
  unfold RemoveContainer, container in Hrm. simpl in Hrm. rewrite Hid in Hrm.
  destruct (String.eqb (uid_Parse (h_ID h)) NilUID).
  all: rewrite ?Hunbound, Hres in Hrm.
  all: match type of Hrm with
       | context [lookupNet (?n ++ [(?k, ?ne)]) ?k] =>
           destruct (lookupNet_app n k ne) as [ne1 Hne1]
       end; simpl in Hrm; rewrite ?Hnets in Hrm; rewrite Hne1 in Hrm.
  all: match type of Hrm with
       | context [existsb ?f ?l] => destruct (existsb f l)
       end; simpl in Hrm.
  all: try (destruct (removeEthernetCard s) as [dc | err |]).
  all: injection Hrm as <- <-; split; try done.
  all: intros _; simpl; rewrite filter_app, filter_cons_False by (by intros Hk).
  all: rewrite filter_nil, app_nil_r; by apply filter_all, lookupNet_None.
Qed.

End Handles.

(** ** A bind followed by an unbind *)

Section RoundTrip.
Context `{!External}.

Lemma bindContainer_handle (c c' : Context) (h h' : Handle) (r : result (list Endpoint)) :
  bindContainer c h = (c', h', r) → h_ID h' = h_ID h ∧ h_Name h' = h_Name h.
Proof.
  unfold bindContainer.
  destruct (container c h) as [con | err |]; [by intros [= <- <- <-] | |
    by intros [= <- <- <-]].
  destruct (isResourceNotFound err); simpl; [| by intros [= <- <- <-]].
  destruct (bindLoop _ _) as [[c1 nets] [st | e |]]; by intros [= <- <- <-].
Qed.

(** X22.  A container that is bound and then unbound leaves the index of the
    containers as it was, when its three keys were free; the unbind gives
    as many endpoints as the bind. *)
Theorem bind_unbind_containers (c c1 c2 : Context) (h h1 h2 : Handle)
    (eps eps' : list Endpoint) :
  uid_Parse (h_ID h) ≠ NilUID →
  containers c !! uid_Parse (h_ID h) = None →
  containers c !! uid_Truncate (uid_Parse (h_ID h)) = None →
  containers c !! h_Name h = None →
  BindContainer c h = (c1, h1, Ok eps) →
  UnbindContainer c1 h1 = (c2, h2, Ok eps') →
  containers c2 = containers c
  ∧ length eps' = length eps
  ∧ h_ID h2 = h_ID h ∧ map fst (h_Networks h2) = map fst (h_Networks h).
Proof.
  intros Hid Hfree Hshort Hname Hbind Hunbind.
  destruct (bindContainer_handle _ _ _ _ _ Hbind) as [Hid1 Hname1].
  destruct (bind_installs c c1 h h1 eps Hid Hfree Hbind) as (con & Hcid & Hcname & Hc1).
  assert (Hcon : containers c1 !! uid_Parse (h_ID h1) = Some con).
  { rewrite Hid1, Hc1, <- Hcid. apply lookup_installed. unfold indexKeys. by left. }
  assert (Hid' : uid_Parse (h_ID h1) ≠ NilUID) by (by rewrite Hid1).
  pose proof (unbind_deletes c1 c2 h1 h2 con eps' Hid' Hcon Hunbind) as Hc2.
  split_and!.
  - rewrite Hc2, Hc1. apply map_eq. intros k.
    destruct (decide (k ∈ indexKeys con)) as [Hin | Hout].
    + rewrite lookup_deleted by done. unfold indexKeys in Hin.
      rewrite Hcid, Hcname in Hin.
      repeat (apply elem_of_cons in Hin as [-> | Hin]; [done |]).
      by apply elem_of_nil in Hin.
    + rewrite lookup_deleted_other by done. by apply lookup_installed_other.
  - unfold UnbindContainer in Hunbind.
    rewrite (container_found c1 h1 con Hid' Hcon) in Hunbind.
    destruct (unbindLoop _ _ _ _ _ _) as [[c3 nets] [[als eps3] | e |]] eqn:Hloop;
      [| done | done].
    apply unbindLoop_declarations in Hloop as (_ & new & -> & Hlen & _).
    injection Hunbind as <- <- <-. simpl. rewrite Hlen.
    unfold BindContainer, bindContainer in Hbind.
    rewrite (container_not_found c h Hid Hfree) in Hbind. simpl in Hbind.
    destruct (bindLoop _ _) as [[c4 nets4] [st | e |]] eqn:Hloop4; [| done | done].
    apply bindLoop_declarations in Hloop4 as [Hall Hok].
    destruct (Hok st eq_refl) as [-> Hlen4].
    injection Hbind as <- <- <-. simpl in *.
    apply Forall2_length in Hall.
    assert (Hmark : ∀ c0 l, length (markFirstNotInternal c0 l) = length l).
    { clear. intros c0 l. induction l as [| [k ne] l IH]; simpl; [done |].
      destruct (scopes c0 !! cn_Name (ne_Network ne)) as [s |]; [| done].
      destruct (s_internal s); simpl; by rewrite ?IH. }
    destruct (negb (bs_defaultMarked st)); simpl; rewrite ?Hmark; simpl in *; lia.
  - unfold UnbindContainer in Hunbind.
    destruct (container c1 h1); [| destruct (isResourceNotFound _) |];
      try destruct (unbindLoop _ _ _ _ _ _) as [[c3 nets] [[als eps3] | e |]];
      try done; injection Hunbind as <- <- <-; by simpl.
  - unfold UnbindContainer in Hunbind.
    rewrite (container_found c1 h1 con Hid' Hcon) in Hunbind.
    destruct (unbindLoop _ _ _ _ _ _) as [[c3 nets] [[als eps3] | e |]] eqn:Hloop;
      [| done | done].
    apply unbindLoop_declarations in Hloop as (-> & _).
    injection Hunbind as <- <- <-. simpl. rewrite <- list_fmap_compose.
    unfold BindContainer, bindContainer in Hbind.
    rewrite (container_not_found c h Hid Hfree) in Hbind. simpl in Hbind.
    destruct (bindLoop _ _) as [[c4 nets4] [st | e |]] eqn:Hloop4; [| done | done].
    apply bindLoop_declarations in Hloop4 as [Hall Hok].
    destruct (Hok st eq_refl) as [-> Hlen4].
    injection Hbind as <- <- <-. simpl in *.
    assert (Hkeys : ∀ n1 n2, sameDeclarations n1 n2 → map fst n2 = map fst n1).
    { intros n1 n2 Hs. induction Hs as [| a b l1 l2 [Hab _] _ IH]; simpl; congruence. }
    transitivity (map fst (bs_done st)); [| by apply Hkeys].
    destruct (negb (bs_defaultMarked st)); [| done].
    apply Hkeys, markFirstNotInternal_declarations.
Qed.

End RoundTrip.

(** ** The card of the bridge scopes *)

Section Cards.
Context `{!External}.



End Cards.

(** ** The properties at the states of the runs *)

Module Witnesses.

Import Runs.

#[local] Existing Instance testExternal.

Lemma bind_unbind_idempotent_witness :
  uid_Parse (h_ID c4_hA) ≠ NilUID
  ∧ BindContainer c4_A.1.1 c4_A.1.2 = (c4_A.1.1, c4_A.1.2, c4_A.2)
  ∧ UnbindContainer c4_ctx c4_hA = (c4_ctx, c4_hA, Ok []).
Proof.
  assert (Hid : uid_Parse (h_ID c4_hA) ≠ NilUID) by (vm_compute; discriminate).
  split; [exact Hid |]. split.
  - refine (eq_trans
              (proj1 (bind_unbind_idempotent c4_A.1.1 c4_A.1.2 _)
                 (mkContainer idA "A" ["bridge"%string]) _) _).
    + vm_compute. discriminate.
    + vm_compute. reflexivity.
    + vm_compute. reflexivity.
  - apply (bind_unbind_idempotent c4_ctx c4_hA Hid). vm_compute. reflexivity.
Defined.

Lemma lookups_read_only_witness :
  (Context_Container c4_A.1.1 "nobody").2 = None
  ∧ (ContainersByAlias c4_A.1.1 "nobody").2 = None.
Proof.
  destruct (lookups_read_only c4_A.1.1 "nobody") as (_ & _ & Hc & Ha). split.
  - apply Hc; apply (bool_decide_unpack _); vm_compute; exact I.
  - apply Ha. vm_compute. reflexivity.
Defined.

Lemma DeleteScope_guards_witness :
  DeleteScope c8_ctx "bridge" = (c8_ctx, Err (Errorf "cannot remove builtin scope"))
  ∧ DeleteScope c8_bound "net1" = (c8_bound, Err (Errorf "net1 has active endpoints"))
  ∧ scopes (DeleteScope c8_ctx "net1").1 = delete "net1"%string (scopes c8_ctx).
Proof.
  split_and!.
  - apply (DeleteScope_guards c8_ctx "bridge" (scopeNamed c8_ctx "bridge"));
      vm_compute; reflexivity.
  - refine (proj1 (proj2 (DeleteScope_guards c8_bound "net1"
                            (scopeNamed c8_bound "net1") _)) _ _).
    + vm_compute. reflexivity.
    + vm_compute. reflexivity.
    + vm_compute. discriminate.
  - refine (proj2 (proj2 (proj2 (proj2 (DeleteScope_guards c8_ctx "net1"
                                          (scopeNamed c8_ctx "net1") _))
                            (DeleteScope c8_ctx "net1").1 _))).
    + vm_compute. reflexivity.
    + vm_compute. reflexivity.
Defined.

Lemma AddContainer_external_ports_rejected_witness :
  ∃ r, AddContainer c6_ctx (mkHandle idA "A" [] []) (onScope "ext1" [] ["8080:80"%string])
       = (mkHandle idA "A" [] [], r)
       ∧ isOk r = false.
Proof.
  destruct (AddContainer_external_ports_rejected c6_ctx (mkHandle idA "A" [] [])
              (onScope "ext1" [] ["8080:80"%string]) (scopeNamed c6_ctx "ext1"))
    as (r & Hr & Hfail & _).
  - vm_compute. reflexivity.
  - vm_compute. reflexivity.
  - vm_compute. reflexivity.
  - left. exists "8080:80"%string. split; [left | vm_compute; reflexivity].
  - exists r. split; [exact Hr | exact Hfail].
Defined.

Lemma index_agreement_witness :
  (∃ con, con_id con = idA ∧ con_name con = "A"%string
          ∧ Forall (fun k => containers c4_A.1.1 !! k = Some con) (indexKeys con))
  ∧ indexAgree c4_AB.1.1.
Proof.
  assert (Hid : uid_Parse (h_ID c4_hA) ≠ NilUID) by (vm_compute; discriminate).
  split.
  - refine (proj1 (index_agreement c4_ctx c4_A.1.1 c4_hA c4_A.1.2
                     (endpointsOf c4_A.2) Hid) _ _); vm_compute; reflexivity.
  - refine (proj2 (proj2 (index_agreement c4_ctx c4_AB.1.1 c4_hA c4_A.1.2
                            (endpointsOf c4_A.2) Hid)) _ _).
    + apply (bool_decide_unpack _). vm_compute. exact I.
    + eapply rtc_l.
      * apply (step_bind c4_ctx c4_hA c4_A.1.1 c4_A.1.2 (endpointsOf c4_A.2));
          [vm_compute; reflexivity | intros _; split; vm_compute; reflexivity].
      * eapply rtc_l; [| apply rtc_refl].
        apply (step_bind c4_A.1.1 c4_hB c4_AB.1.1 c4_AB.1.2 (endpointsOf c4_AB.2));
          [vm_compute; reflexivity | intros _; split; vm_compute; reflexivity].
Defined.

Lemma alias_symmetry_witness :
  (∃ cs, (ContainersByAlias c4_AB.1.1 "bridge:A.app").2 = Some cs ∧ idA ∈ cs
         ∧ (aliases c4_ctx !! "bridge:A.app" = None → cs = [idA]))
  ∧ aliases c4_BA.1.1 = aliases c4_AB.1.1.
Proof.
  assert (Hn : h_Name c4_hA = "A"%string) by (vm_compute; reflexivity).
  assert (Hi : uid_Parse (h_ID c4_hA) = idA) by (vm_compute; reflexivity).
  pose proof
    (alias_symmetry c4_ctx c4_A.1.1 c4_AB.1.1 c4_B.1.1 c4_BA.1.1 "bridge"
       (scopeNamed c4_ctx "bridge") c4_hA c4_hB c4_A.1.2 c4_AB.1.2 c4_B.1.2
       c4_BA.1.2 "bridge" "bridge"
       (default (mkNetworkEndpoint "" bridgeNetwork false None 0 [])
          (lookupNet (h_Networks c4_hA) "bridge"))
       (default (mkNetworkEndpoint "" bridgeNetwork false None 0 [])
          (lookupNet (h_Networks c4_hB) "bridge"))
       (endpointsOf c4_A.2) (endpointsOf c4_AB.2) (endpointsOf c4_B.2)
       (endpointsOf c4_BA.2)) as Hsym.
  cbv zeta in Hsym. rewrite Hn, Hi in Hsym. apply Hsym.
  all: match goal with
       | |- _ = _ => vm_compute; reflexivity
       | |- _ ≠ _ => vm_compute; discriminate
       | |- _ => apply (bool_decide_unpack _); vm_compute; exact I
       end.
Defined.

End Witnesses.

(** ** The scopes and the handles at the states of the runs *)

Module LifecycleWitnesses.

Import Runs Lifecycle.

#[local] Existing Instance testExternal.

#[local] Ltac run :=
  match goal with
  | |- _ = _ => vm_compute; reflexivity
  | |- _ ≠ _ => vm_compute; discriminate
  | |- _ => apply (bool_decide_unpack _); vm_compute; exact I
  end.

Lemma reserveGateway_routable_witness :
  ∃ n, Some gw_subnet = Some n ∧ IsUnspecifiedSubnet (Some gw_subnet) = false
       ∧ IsRoutableIP gw_run.1 n = true
       ∧ (IsUnspecifiedIP (IPv4 10 1 0 1) = false → gw_run.1 = IPv4 10 1 0 1)
       ∧ length gw_run.2 = length gw_spaces.
Proof.
  apply (reserveGateway_routable (IPv4 10 1 0 1) (Some gw_subnet) gw_spaces gw_run.2
           gw_run.1).
  vm_compute. reflexivity.
Defined.

Lemma NewScope_rejects_witness :
  NewScope c2_start "id1" (scopeDataOf BridgeScopeType "" None false)
  = (c2_start, Err (Errorf "scope name must not be empty"))
  ∧ NewScope c2_start "id1" (scopeDataOf BridgeScopeType "bridge" None false)
    = (c2_start, Err (DuplicateResourceError "bridge"))
  ∧ NewScope c2_start "id1" (scopeDataOf "vlan" "net1" None false)
    = (c2_start, Err (Errorf "scope type not supported")).
Proof.
  split_and!.
  - apply (proj1 (NewScope_rejects c2_start "id1"
                    (scopeDataOf BridgeScopeType "" None false))).
    vm_compute. reflexivity.
  - apply (proj1 (proj2 (NewScope_rejects c2_start "id1"
                           (scopeDataOf BridgeScopeType "bridge" None false)))).
    + vm_compute. discriminate.
    + apply (bool_decide_unpack _). vm_compute. exact I.
  - apply (proj2 (proj2 (NewScope_rejects c2_start "id1"
                           (scopeDataOf "vlan" "net1" None false)))).
    all: run.
Defined.

Lemma NewScope_failure_keeps_scopes_witness :
  scopes c1_new.1 = scopes c1_start ∧ containers c1_new.1 = containers c1_start
  ∧ aliases c1_new.1 = aliases c1_start ∧ kv c1_new.1 = kv c1_start
  ∧ defaultScope c1_new.1 = defaultScope c1_start.
Proof.
  apply (NewScope_failure_keeps_scopes c1_start c1_new.1 "id1" net1_data c1_new.2).
  all: run.
Defined.



Lemma DeleteScope_store_witness :
  DeleteScope net1_failing "net1" = (net1_failing, Err ErrKVStore)
  ∧ ∃ c', DeleteScope c8_ctx "net1" = (c', Ok tt) ∧ scopes c' !! "net1" = None.
Proof.
  split.
  - refine (proj1 (DeleteScope_store net1_failing "net1" (scopeNamed c8_ctx "net1")
                     failingStore _ _ _ _) _); vm_compute; reflexivity.
  - destruct (proj2 (DeleteScope_store c8_ctx "net1" (scopeNamed c8_ctx "net1")
                       net1_store ltac:(vm_compute; reflexivity)
                       ltac:(vm_compute; reflexivity) ltac:(vm_compute; reflexivity)
                       ltac:(vm_compute; reflexivity)) ltac:(vm_compute; reflexivity))
      as (c' & Hd & Hs & _).
    exists c'. split; [exact Hd | exact Hs].
Defined.

Lemma resolveScope_cases_witness :
  resolveScope c7_ctx "default" = Ok (DefaultScope c7_ctx)
  ∧ resolveScope c7_ctx "ext2" = Ok (Some (scopeNamed c7_ctx "ext2"))
  ∧ resolveScope c7_ctx "zz"
    = Err (ResourceNotFoundError ("scope " +:+ "zz" +:+ " not found"))
  ∧ resolveScope c7_ctx "idE" = Ok (Some (scopeNamed c7_ctx "ext2"))
  ∧ resolveScope c7_ctx "id" = Ok None.
Proof.
  split_and!.
  - apply (proj1 (resolveScope_cases c7_ctx "default")). reflexivity.
  - apply (proj1 (proj2 (resolveScope_cases c7_ctx "ext2"))); run.
  - apply (proj1 (proj2 (proj2 (resolveScope_cases c7_ctx "zz")))); run.
  - apply (proj1 (proj2 (proj2 (proj2 (resolveScope_cases c7_ctx "idE")))) "ext2"%string);
      run.
  - apply (proj2 (proj2 (proj2 (proj2 (resolveScope_cases c7_ctx "id"))))
             "default"%string "ext2"%string (scopeNamed c7_ctx "default")
             (scopeNamed c7_ctx "ext2")); run.
Defined.



Lemma scopesKeyed_preserved_witness :
  scopesKeyed c8_ctx ∧ scopesKeyed net1_deleted ∧ scopesKeyed c4_A.1.1
  ∧ scopesKeyed a_unbound.1.1.
Proof.
  split_and!.
  - apply (proj1 (scopesKeyed_preserved net1_start ltac:(run)) "id1"%string net1_data
             c8_ctx (NewScope net1_start "id1" net1_data).2).
    run.
  - apply (proj1 (proj2 (scopesKeyed_preserved c8_ctx ltac:(run))) "net1"%string
             net1_deleted (DeleteScope c8_ctx "net1").2).
    run.
  - apply (proj1 (proj2 (proj2 (scopesKeyed_preserved c4_ctx ltac:(run)))) c4_hA
             c4_A.1.1 c4_A.1.2 c4_A.2).
    run.
  - apply (proj2 (proj2 (proj2 (scopesKeyed_preserved c4_A.1.1 ltac:(run)))) c4_A.1.2
             a_unbound.1.1 a_unbound.1.2 a_unbound.2).
    run.
Defined.

Lemma bind_unbind_scopes_stable_witness :
  dom (scopes c4_A.1.1) = dom (scopes c4_ctx)
  ∧ dom (scopes a_unbound.1.1) = dom (scopes c4_A.1.1).
Proof.
  split.
  - refine (proj1 (proj2 (bind_unbind_scopes_stable c4_ctx c4_A.1.1 c4_hA c4_A.1.2 c4_A.2
                            _ (or_introl _)))); run.
  - refine (proj1 (proj2 (bind_unbind_scopes_stable c4_A.1.1 a_unbound.1.1 c4_A.1.2
                            a_unbound.1.2 a_unbound.2 _ (or_intror _)))); run.
Defined.

Lemma bind_unbind_frame_witness :
  kv lost_bind.1.1 = kv c4_ctx
  ∧ containers lost_bind.1.1 = containers c4_ctx
  ∧ aliases lost_bind.1.1 = aliases c4_ctx.
Proof.
  destruct (bind_unbind_frame c4_ctx lost_bind.1.1 lost_handle lost_bind.1.2 lost_bind.2)
    as (_ & _ & _ & _ & Hkv & _ & _ & _ & Hfail).
  - left. vm_compute. reflexivity.
  - split; [exact Hkv |]. apply Hfail. vm_compute. reflexivity.
Defined.

Lemma invalid_container_id_witness :
  BindContainer c4_ctx (mkHandle "" "A" [] [])
  = (c4_ctx, mkHandle "" "A" [] [], Err (Errorf ("invalid container id " +:+ "")))
  ∧ UnbindContainer c4_ctx (mkHandle "" "A" [] [])
    = (c4_ctx, mkHandle "" "A" [] [], Err (Errorf ("invalid container id " +:+ ""))).
Proof.
  apply (invalid_container_id c4_ctx (mkHandle "" "A" [] [])). vm_compute. reflexivity.
Defined.

Lemma bind_declarations_witness :
  sameDeclarations (h_Networks c4_hA) (h_Networks c4_A.1.2)
  ∧ length (endpointsOf c4_A.2) = length (h_Networks c4_hA).
Proof.
  destruct (bind_declarations c4_ctx c4_A.1.1 c4_hA c4_A.1.2 c4_A.2) as (Hsame & _ & Hlen).
  - vm_compute. reflexivity.
  - split; [exact Hsame |]. apply Hlen; vm_compute; reflexivity.
Defined.

Lemma unbind_declarations_witness :
  Forall (fun kv => ne_Assigned_IP kv.2 = 0) (h_Networks a_unbound.1.2)
  ∧ length (endpointsOf a_unbound.2) = length (h_Networks c4_A.1.2).
Proof.
  destruct (unbind_declarations c4_A.1.1 a_unbound.1.1 c4_A.1.2 a_unbound.1.2
              (mkContainer idA "A" ["bridge"%string]) (endpointsOf a_unbound.2))
    as (_ & Hclear & Hlen & _).
  - vm_compute. discriminate.
  - vm_compute. reflexivity.
  - vm_compute. reflexivity.
  - split; [exact Hclear | exact Hlen].
Defined.


Lemma AddContainer_repeat_witness :
  AddContainer c4_ctx c4_hA (onScope "default" [] []) = (c4_hA, Ok tt).
Proof.
  apply (AddContainer_repeat c4_ctx (mkHandle idA "A" [] []) c4_hA
           (onScope "default" [] []) (Ok tt)); vm_compute; reflexivity.
Defined.

Lemma RemoveContainer_result_witness :
  ∃ s ne, resolveScope c4_ctx "default" = Ok (Some s)
          ∧ lookupNet (h_Networks c4_hA) (s_name s) = Some ne
          ∧ lookupNet (h_Networks a_removed.1) (s_name s) = None.
Proof.
  destruct (RemoveContainer_result removeCard c4_ctx c4_hA a_removed.1 "default"
              a_removed.2) as (_ & _ & _ & Hok).
  - vm_compute. reflexivity.
  - destruct Hok as (s & ne & Hs & Hne & _ & Hgone & _); [vm_compute; reflexivity |].
    exists s, ne. split_and!; [exact Hs | exact Hne | exact Hgone].
Defined.

Lemma AddContainer_RemoveContainer_witness :
  h_Networks a_removed.1 = h_Networks (mkHandle idA "A" [] []).
Proof.
  destruct (AddContainer_RemoveContainer removeCard c4_ctx (mkHandle idA "A" [] []) c4_hA
              a_removed.1 (onScope "default" [] []) (scopeNamed c4_ctx "bridge")
              a_removed.2) as (_ & Hback & _).
  - intros h0 s0 h0' z Hcard. simpl in Hcard. by injection Hcard as <- <-.
  - vm_compute. reflexivity.
  - vm_compute. reflexivity.
  - vm_compute. reflexivity.
  - vm_compute. reflexivity.
  - vm_compute. reflexivity.
  - apply Hback. vm_compute. reflexivity.
Defined.

Lemma bind_unbind_containers_witness :
  containers a_unbound.1.1 = containers c4_ctx
  ∧ length (endpointsOf a_unbound.2) = length (endpointsOf c4_A.2).
Proof.
  destruct (bind_unbind_containers c4_ctx c4_A.1.1 a_unbound.1.1 c4_hA c4_A.1.2
              a_unbound.1.2 (endpointsOf c4_A.2) (endpointsOf a_unbound.2))
    as (Hc & Hlen & _).
  - vm_compute. discriminate.
  - vm_compute. reflexivity.
  - vm_compute. reflexivity.
  - vm_compute. reflexivity.
  - vm_compute. reflexivity.
  - vm_compute. reflexivity.
  - split; [exact Hc | exact Hlen].
Defined.



Lemma AddContainer_second_external_witness :
  AddContainer ext_ctx c6_handle (onScope "ext2" [] [])
  = (c6_handle,
     Err (Errorf "container can only be added to at most one mapped network")).
Proof.
  assert (Hnets : h_Networks c6_handle = [("ext1"%string, ext1_declaration)])
    by (vm_compute; reflexivity).
  apply (AddContainer_second_external ext_ctx c6_handle (onScope "ext2" [] [])
           (scopeNamed ext_ctx "ext2")).
  - run.
  - run.
  - run.
  - rewrite Hnets. apply Forall_cons. split; [| apply Forall_nil_2].
    exists (scopeNamed ext_ctx "ext1"). vm_compute. reflexivity.
  - rewrite Hnets. apply Exists_cons_hd. exists (scopeNamed ext_ctx "ext1").
    split; vm_compute; reflexivity.
Defined.

End LifecycleWitnesses.
